(** * netascore: [core/import_step.py]

    A shallow embedding of the import step of netascore and the properties
    of it that its design document states.

    - Python [str] values read from a file opened with
      [encoding='iso-8859-1'] are sequences of code points below 256; they
      are Rocq [string]s, one [ascii] per code point.
    - Exceptions are values of [exn]; a computation that may raise returns
      a [result].
    - The file system is a finite map from paths to file contents (bytes).
    - The database, the download and the bulk loaders are collaborators
      that live outside [import_step.py]; they are operations of an
      interface, and every call made to them is recorded in a call log. *)

From Stdlib Require Import ZArith Lia Ascii String.
From stdpp Require Import base option list strings gmap pretty.

Local Open Scope string_scope.
Local Open Scope list_scope.

(** ** Exceptions and results *)

Inductive exn : Type :=
| UnboundLocalError (name : string)
| ValueError (msg : string)
| FileNotFoundError (path : string)
| KeyError (key : string)
| NotImplementedError (msg : string)
| Exception (msg : string)
| HTTPError (code : Z)
| BaseException (cls : string) (args : string).

Inductive result (A : Type) : Type :=
| Ok (a : A)
| Raise (e : exn).

Arguments Ok {A} a.
Arguments Raise {A} e.

#[global] Instance result_ret : MRet result := fun _ a => Ok a.
#[global] Instance result_bind : MBind result := fun _ _ f m =>
  match m with
  | Ok a => f a
  | Raise e => Raise e
  end.

Definition is_ok {A} (r : result A) : bool :=
  match r with Ok _ => true | Raise _ => false end.

(** ** Python string primitives *)

Module Py.

Definition LF : ascii := "010"%char.
Definition CR : ascii := "013"%char.
Definition DQUOTE : ascii := "034"%char.

Definition chr (c : ascii) : string := String c "".

(** [s.startswith(p)] *)
Definition startswith (s p : string) : bool := String.prefix p s.

(** [s[n:]] for a non-negative literal [n] *)
Fixpoint slice_from (n : nat) (s : string) : string :=
  match n, s with
  | O, _ => s
  | S _, "" => ""
  | S n', String _ s' => slice_from n' s'
  end.

(** [str.isspace] on a code point below 256 *)
Definition isspace (c : ascii) : bool :=
  let n := nat_of_ascii c in
  ((9 <=? n)%nat && (n <=? 13)%nat) || ((28 <=? n)%nat && (n <=? 32)%nat)
  || (n =? 133)%nat || (n =? 160)%nat.

Fixpoint lstrip (s : string) : string :=
  match s with
  | "" => ""
  | String c s' => if isspace c then lstrip s' else s
  end.

Definition rstrip (s : string) : string := String.rev (lstrip (String.rev s)).

(** [s.strip()] *)
Definition strip (s : string) : string := rstrip (lstrip s).

(** [str.lower] on a code point below 256: A-Z, and the Latin-1 capitals
    0xC0-0xDE except the multiplication sign 0xD7. *)
Definition lower_char (c : ascii) : ascii :=
  let n := nat_of_ascii c in
  if ((65 <=? n)%nat && (n <=? 90)%nat)
     || ((192 <=? n)%nat && (n <=? 222)%nat && negb (n =? 215)%nat)
  then ascii_of_nat (n + 32)
  else c.

Fixpoint lower (s : string) : string :=
  match s with
  | "" => ""
  | String c s' => String (lower_char c) (lower s')
  end.

(** [s.split(sep)] for a one-character separator *)
Fixpoint split_go (sep : ascii) (cur : string) (s : string) : list string :=
  match s with
  | "" => [cur]
  | String c s' =>
      if Ascii.eqb c sep then cur :: split_go sep "" s'
      else split_go sep (cur +:+ chr c) s'
  end.

Definition split (sep : ascii) (s : string) : list string := split_go sep "" s.

(** [sep.join(l)] *)
Fixpoint join (sep : string) (l : list string) : string :=
  match l with
  | [] => ""
  | [x] => x
  | x :: l' => x +:+ sep +:+ join sep l'
  end.

(** [s.replace(old, new)]: occurrences of [old] are replaced from left to
    right without overlap.  [skip] counts the characters of a matched
    occurrence that are still to be passed over. *)
Fixpoint replace_go (old new : string) (skip : nat) (s : string) : string :=
  match s with
  | "" => ""
  | String c s' =>
      match skip with
      | S k => replace_go old new k s'
      | O =>
          if String.prefix old s
          then new +:+ replace_go old new (String.length old - 1) s'
          else String c (replace_go old new 0 s')
      end
  end.

Fixpoint intersperse (new : string) (s : string) : string :=
  match s with
  | "" => new
  | String c s' => new +:+ String c (intersperse new s')
  end.

Definition replace (old new s : string) : string :=
  match old with
  | "" => intersperse new s
  | _ => replace_go old new 0 s
  end.

Definition isdigit (c : ascii) : bool :=
  let n := nat_of_ascii c in (48 <=? n)%nat && (n <=? 57)%nat.

Definition all_digits (s : string) : bool :=
  forallb isdigit (list_ascii_of_string s).

Fixpoint int_go (acc : Z) (s : string) : Z :=
  match s with
  | "" => acc
  | String c s' => int_go (10 * acc + Z.of_nat (nat_of_ascii c - 48))%Z s'
  end.

(** [sys.get_int_max_str_digits()] as the interpreter starts: the longest
    run of digits [int] converts. *)
Definition int_max_str_digits : Z := 4300.

(** [int(s)] for the strings a group of digits can capture: the value of a
    non-empty run of digits, [ValueError] for the empty run.  Python
    integers are unbounded, but the conversion of a text is not: a run of
    more than [int_max_str_digits] digits, leading zeros counted, raises
    [ValueError] as well. *)
Definition int (s : string) : result Z :=
  match s with
  | "" => Raise (ValueError "invalid literal for int() with base 10: ''")
  | _ =>
      if all_digits s then
        if (Z.of_nat (String.length s) <=? int_max_str_digits)%Z
        then Ok (int_go 0 s)
        else Raise (ValueError
               ("Exceeds the limit (4300 digits) for integer string conversion: value has "
                +:+ pretty (String.length s)
                +:+ " digits; use sys.set_int_max_str_digits() to increase the limit"))
      else Raise (ValueError "invalid literal for int() with base 10")
  end.

(** Text mode with [newline=None]: on reading, CR LF and a lone CR are
    translated to LF. *)
Fixpoint universal_newlines (s : string) : string :=
  match s with
  | "" => ""
  | String c s' =>
      if Ascii.eqb c CR then
        String LF
          match s' with
          | String c' s'' =>
              if Ascii.eqb c' LF then universal_newlines s''
              else universal_newlines s'
          | "" => ""
          end
      else String c (universal_newlines s')
  end.

(** [for line in f]: the lines of a text, each with its terminating LF;
    the last one may lack it. *)
Fixpoint lines_go (cur : string) (s : string) : list string :=
  match s with
  | "" => match cur with "" => [] | _ => [cur] end
  | String c s' =>
      if Ascii.eqb c LF then (cur +:+ chr LF) :: lines_go "" s'
      else lines_go (cur +:+ chr c) s'
  end.

Definition lines (s : string) : list string := lines_go "" s.

(** A text written through [encoding='utf-8']: code points below 128 take
    one byte, the others (below 256 here) two. *)
Definition utf8_char (c : ascii) : string :=
  let n := nat_of_ascii c in
  if (n <? 128)%nat then chr c
  else String (ascii_of_nat (192 + n / 64))
         (String (ascii_of_nat (128 + n mod 64)) "").

Fixpoint utf8 (s : string) : string :=
  match s with
  | "" => ""
  | String c s' => utf8_char c +:+ utf8 s'
  end.

End Py.

(** ** The regular expressions of [create_sql]

    The three patterns are sequences of a literal group, one-character
    classes and groups of digits [( [0-9]* )], anchored at the start of the token and
    open at its end.  [re_search] is a backtracking matcher for such
    sequences: a digit group takes the longest run first and gives
    characters back when the rest of the pattern fails.  The result is the
    list of groups, [group k] being its k-th element. *)

Module Re.

Inductive item : Type :=
| Group (lit : string)       (* a literal in a group: (string), (decimal) *)
| Chr (c : ascii)            (* a class of one character: [(] [,] [)] *)
| Digits.                    (* a group of digits: ( [0-9]* ) *)

Fixpoint strip_prefix (p s : string) : option string :=
  match p, s with
  | "", _ => Some s
  | String a p', String b s' => if Ascii.eqb a b then strip_prefix p' s' else None
  | String _ _, "" => None
  end.

(** A group of digits followed by the rest [k] of the pattern; [acc] is
    what the group has taken so far. *)
Fixpoint digits_then (k : string → option (list string)) (acc s : string)
  : option (list string) :=
  match s with
  | String c s' =>
      if Py.isdigit c then
        match digits_then k (acc +:+ Py.chr c) s' with
        | Some m => Some m
        | None => cons acc <$> k s
        end
      else cons acc <$> k s
  | "" => cons acc <$> k ""
  end.

Fixpoint re_match (p : list item) (s : string) {struct p} : option (list string) :=
  match p with
  | [] => Some []
  | Group lit :: p' =>
      match strip_prefix lit s with
      | Some s' => cons lit <$> re_match p' s'
      | None => None
      end
  | Chr c :: p' =>
      match s with
      | String b s' => if Ascii.eqb c b then re_match p' s' else None
      | "" => None
      end
  | Digits :: p' => digits_then (re_match p') "" s
  end.

(** [re.search(p, s)] for a pattern that starts with [^] *)
Definition search (p : list item) (s : string) : option (list string) :=
  re_match p s.

Definition group (k : nat) (m : list string) : string := nth (k - 1) m "".

(** line 51: [^(string)[(]( [0-9]* )[)]] *)
Definition string_n : list item := [Group "string"; Chr "("; Digits; Chr ")"].
(** line 54: [^(decimal)[(]( [0-9]* )[,]( [0-9]* )[)]] *)
Definition decimal_p_s : list item :=
  [Group "decimal"; Chr "("; Digits; Chr ","; Digits; Chr ")"].
(** line 58: [^(decimal)[(]( [0-9]* )[)]] *)
Definition decimal_p : list item := [Group "decimal"; Chr "("; Digits; Chr ")"].

End Re.

(** ** [create_sql]: column names and column types *)

(** [for i, x in enumerate(l): l = body i x l]: the iterator reads the
    live list at index [i] and stops when [i] is past its end. *)
Fixpoint for_enumerate (body : nat → string → list string → result (list string))
    (fuel i : nat) (l : list string) : result (list string) :=
  match fuel with
  | O => Ok l
  | S fuel' =>
      match l !! i with
      | None => Ok l
      | Some x => l' ← body i x l; for_enumerate body fuel' (S i) l'
      end
  end.

(** lines 44-46 *)
Definition rename_body (i : nat) (atr_ : string) (atr : list string)
  : result (list string) :=
  if String.eqb atr_ "offset" then Ok (<[i := "offset_"]> atr) else Ok atr.

Definition rename_offset (atr : list string) : result (list string) :=
  for_enumerate rename_body (length atr) 0 atr.

(** lines 49-67, the value stored at [frm[i]] for the token [frm_];
    [cur] is the value [frm[i]] holds when the chain of patterns starts. *)
Definition frm_type (frm_ : string) : result string :=
  let cur := if String.eqb frm_ "string" then "varchar" else frm_ in
  match Re.search Re.string_n frm_ with
  | Some m =>
      let length := Re.group 2 m in
      Ok ("varchar(" +:+ length +:+ ")")
  | None =>
      match Re.search Re.decimal_p_s frm_ with
      | Some m =>
          let precision := Re.group 2 m in
          let scale := Re.group 3 m in
          Ok ("numeric(" +:+ precision +:+ "," +:+ scale +:+ ")")
      | None =>
          match Re.search Re.decimal_p frm_ with
          | Some m =>
              let precision := Re.group 2 m in
              p ← Py.int precision;
              if (p <=? 4)%Z then Ok "smallint"
              else if (p <=? 10)%Z then Ok "integer"
              else if (p <=? 18)%Z then Ok "bigint"
              else Ok ("numeric(" +:+ precision +:+ ")")
          | None => Ok cur
          end
      end
  end.

Definition retype_body (i : nat) (frm_ : string) (frm : list string)
  : result (list string) :=
  t ← frm_type frm_; Ok (<[i := t]> frm).

Definition map_types (frm : list string) : result (list string) :=
  for_enumerate retype_body (length frm) 0 frm.

(** ** State and exceptions

    A computation over a state [W] that may raise; the state reached when
    the exception is raised is kept (files opened and written so far stay
    as they are). *)

Definition M (W A : Type) : Type := W → W * result A.

#[global] Instance M_ret {W} : MRet (M W) := fun _ a w => (w, Ok a).
#[global] Instance M_bind {W} : MBind (M W) := fun _ _ f m w =>
  match m w with
  | (w', Ok a) => f a w'
  | (w', Raise e) => (w', Raise e)
  end.

Definition raise {W A} (e : exn) : M W A := fun w => (w, Raise e).
Definition lift_result {W A} (r : result A) : M W A := fun w => (w, r).
Definition modify {W} (f : W → W) : M W unit := fun w => (f w, Ok tt).
Definition gets {W A} (f : W → A) : M W A := fun w => (w, Ok (f w)).

(** A local variable that is read before any assignment to it *)
Definition local {W A} (name : string) (v : option A) : M W A :=
  match v with
  | Some a => mret a
  | None => raise (UnboundLocalError name)
  end.

(** ** [os.path] (POSIX) *)

Module OsPath.

Definition endswith (s p : string) : bool :=
  String.prefix (String.rev p) (String.rev s).

(** one step of [os.path.join(a, *p)] *)
Definition join2 (path b : string) : string :=
  if Py.startswith b "/" then b
  else if String.eqb path "" || endswith path "/" then path +:+ b
  else path +:+ "/" +:+ b.

Definition join (a : string) (p : list string) : string := fold_left join2 p a.

(** [s.rfind(c)]: the last index of [c], or -1 *)
Fixpoint rfind_go (c : ascii) (i : Z) (found : Z) (s : string) : Z :=
  match s with
  | "" => found
  | String b s' => rfind_go c (i + 1) (if Ascii.eqb b c then i else found) s'
  end.

Definition rfind (c : ascii) (s : string) : Z := rfind_go c 0 (-1) s.

Definition slice (lo hi : Z) (s : string) : string :=
  String.substring (Z.to_nat lo) (Z.to_nat (hi - lo)) s.

(** [os.path.splitext(p)]: the extension starts at the last dot of the last
    component, unless only dots precede it in that component. *)
Definition splitext (p : string) : string * string :=
  let sepIndex := rfind "/" p in
  let dotIndex := rfind "." p in
  if (sepIndex <? dotIndex)%Z
     && existsb (fun c => negb (Ascii.eqb c "."))
          (list_ascii_of_string (slice (sepIndex + 1) dotIndex p))
  then (slice 0 dotIndex p, Py.slice_from (Z.to_nat dotIndex) p)
  else (p, "").

End OsPath.

(** ** Files

    A file system maps a path to the bytes of the regular file there.
    [open(path, 'w')] creates or truncates the file at once; what is
    written reaches the file.  A source file is read as a whole when it is
    opened, which is what streaming it gives as long as the file that is
    written is not the file that is read. *)

Abbreviation files := (gmap string string).

Definition isfile (path : string) (fs : files) : bool := bool_decide (is_Some (fs !! path)).

(** [open(path, 'w', encoding='utf-8')] *)
Definition open_w (path : string) : M files string :=
  fun fs => (<[path := ""]> fs, Ok path).

(** [f.write(text)] on a file opened by [open_w]; a POSIX text file takes
    LF as it is *)
Definition write (f : string) (text : string) : M files unit :=
  modify (alter (fun old => old +:+ Py.utf8 text) f).

(** [open(path, 'r', encoding='iso-8859-1')] and [for line in f] *)
Definition read_lines (path : string) : M files (list string) :=
  fun fs =>
    match fs !! path with
    | Some bytes => (fs, Ok (Py.lines (Py.universal_newlines bytes)))
    | None => (fs, Raise (FileNotFoundError path))
    end.

(** ** [create_csv] *)

(** lines 19-25; [file_csv] is the local variable of that name.  A source
    has one [tbl] line.  At a second one the sink is opened again, and only
    then is the handle of the first opening closed: what its buffer leaves
    in the file that was just emptied depends on the sizes of the buffers
    of the interpreter, and is not modelled.  The properties of the content
    of the data file are about sources with one [tbl] line. *)
Fixpoint create_csv_loop (file_txt : string) (f : list string)
    (file_csv : option string) : M files (option string) :=
  match f with
  | [] => mret file_csv
  | line :: f' =>
      if Py.startswith line "tbl;" then
        h ← open_w ((OsPath.splitext file_txt).1 +:+ ".csv");
        create_csv_loop file_txt f' (Some h)
      else if Py.startswith line "atr;" then
        h ← local "file_csv" file_csv;
        write h (Py.slice_from 4 line);;
        create_csv_loop file_txt f' file_csv
      else if Py.startswith line "rec;" then
        h ← local "file_csv" file_csv;
        write h (Py.replace (Py.chr Py.DQUOTE +:+ " " +:+ Py.chr Py.DQUOTE) ""
                   (Py.replace (Py.chr Py.DQUOTE +:+ Py.chr Py.DQUOTE) ""
                      (Py.slice_from 4 line)));;
        create_csv_loop file_txt f' file_csv
      else create_csv_loop file_txt f' file_csv
  end.

Definition create_csv (file_txt : string) : M files unit :=
  f ← read_lines file_txt;
  file_csv ← create_csv_loop file_txt f None;
  _ ← local (A := string) "file_csv" file_csv;
  mret tt.

(** ** [create_sql] *)

Record sql_locals : Type := {
  file_sql : option string;
  tbl : option string;
  atr : option (list string);
  frm : option (list string)
}.

Definition no_locals : sql_locals :=
  {| file_sql := None; tbl := None; atr := None; frm := None |}.

(** lines 33-42 *)
Fixpoint create_sql_loop (file_txt : string) (f : list string)
    (v : sql_locals) : M files sql_locals :=
  match f with
  | [] => mret v
  | line :: f' =>
      if Py.startswith line "tbl;" then
        h ← open_w ((OsPath.splitext file_txt).1 +:+ ".sql");
        create_sql_loop file_txt f'
          {| file_sql := Some h;
             tbl := Some (Py.lower (Py.strip (Py.slice_from 4 line)));
             atr := atr v; frm := frm v |}
      else if Py.startswith line "atr;" then
        create_sql_loop file_txt f'
          {| file_sql := file_sql v; tbl := tbl v;
             atr := Some (Py.split ";" (Py.lower (Py.strip (Py.slice_from 4 line))));
             frm := frm v |}
      else if Py.startswith line "frm;" then
        create_sql_loop file_txt f'
          {| file_sql := file_sql v; tbl := tbl v; atr := atr v;
             frm := Some (Py.split ";" (Py.lower (Py.strip (Py.slice_from 4 line)))) |}
      else if Py.startswith line "rec;" then mret v
      else create_sql_loop file_txt f' v
  end.

(** [zip(atr, frm)] stops at the end of the shorter list. *)
Definition columns_of (atr frm : list string) : list string :=
  zip_with (fun atr_ frm_ => atr_ +:+ " " +:+ frm_) atr frm.

(** lines 44-70: the statement, from the values of the three locals *)
Definition sql_of (tbl : option string) (atr frm : option (list string))
  : result string :=
  atr0 ← match atr with Some a => Ok a | None => Raise (UnboundLocalError "atr") end;
  atr1 ← rename_offset atr0;
  frm0 ← match frm with Some a => Ok a | None => Raise (UnboundLocalError "frm") end;
  frm1 ← map_types frm0;
  let columns := columns_of atr1 frm1 in
  tbl0 ← match tbl with Some a => Ok a | None => Raise (UnboundLocalError "tbl") end;
  Ok ("CREATE TABLE gip_" +:+ tbl0 +:+ " (" +:+ Py.join ", " columns +:+ ");").

Definition create_sql (file_txt : string) : M files unit :=
  f ← read_lines file_txt;
  v ← create_sql_loop file_txt f no_locals;
  sql ← lift_result (sql_of (tbl v) (atr v) (frm v));
  h ← local "file_sql" (file_sql v);
  write h sql.

(** ** Collaborators

    The database connection, the archive reader, the download and the
    child processes are outside this module.  Each call to one of them is
    a [call R], [R] being the type of what it returns; the collaborators
    answer through [respond], which may change the files and their own
    state and may raise.  [invoke] appends the call to the log of the
    world.  The console messages of the logging helper are left out. *)

Inductive call : Type → Type :=
| PostgresConnection_from_settings_object : call unit
| db_connect : call unit
| db_init_extensions_and_schema (schema : string) : call unit
| db_drop_table (table schema : string) : call unit
| db_execute_sql_from_file (name dir : string) : call unit
| db_execute (sql : string) (params : list (string * Z)) : call unit
| db_commit : call unit
| db_add_primary_key (table : string) (columns : list string) (schema : string) : call unit
| db_handle_conflicting_output_tables (tables : list string) (schema : string) : call bool
| db_close : call unit
| ZipFile (path : string) : call unit
| zf_extract (member path : string) : call unit
| subprocess_run (args : list string) (shell : bool) : call unit
| urlretrieve (url filename : string) : call (string * string).

Abbreviation called c := (existT _ c : sigT call).

Class Collaborators (Ext : Type) : Type :=
  respond : ∀ R, call R → files * Ext → (files * Ext) * result R.

Record world (Ext : Type) : Type := World {
  fs : files;
  ext : Ext;
  calls : list (sigT call)
}.

Arguments World {Ext} fs ext calls.
Arguments fs {Ext} w.
Arguments ext {Ext} w.
Arguments calls {Ext} w.

Definition invoke `{Collaborators Ext} {R} (c : call R) : M (world Ext) R :=
  fun w =>
    let '((fs', ext'), r) := respond R c (fs w, ext w) in
    (World fs' ext' (calls w ++ [called c]), r).

Definition on_files {Ext A} (m : M files A) : M (world Ext) A :=
  fun w => let '(fs', r) := m (fs w) in (World fs' (ext w) (calls w), r).

(** [try: ... except ...]: the outcome of the body, as a value *)
Definition attempt {W A} (m : M W A) : M W (result A) :=
  fun w => let '(w', r) := m w in (w', Ok r).

(** ** Settings *)

Record GlobalSettings : Type := {
  data_directory : string;
  osm_download_fname : string;
  overpass_api_endpoints : list string;
  target_srid : Z
}.

(** What an importer holds: the global settings, and of [db_settings] the
    data schema and the connection string built from it. *)
Record DbStep : Type := {
  global_settings : GlobalSettings;
  data_schema : string;
  connection_string : string
}.

(** Modelled from the spec: [toolbox.helper.has_keys] and
    [toolbox.helper.has_any_key] are not part of [import_step.py]; a
    request names a file or a selector when the key is present in the
    settings, so the first holds when all the keys are present and the
    second when one of them is. *)
Definition has_keys (settings : gmap string string) (keys : list string) : bool :=
  forallb (fun k => bool_decide (is_Some (settings !! k))) keys.

Definition has_any_key (settings : gmap string string) (keys : list string) : bool :=
  existsb (fun k => bool_decide (is_Some (settings !! k))) keys.

(** [settings[key]] *)
Definition getitem {W} (settings : gmap string string) (key : string) : M W string :=
  match settings !! key with
  | Some v => mret v
  | None => raise (KeyError key)
  end.

(** ** [urllib.parse.quote_plus] *)

Module Urllib.

Definition always_safe (c : ascii) : bool :=
  let n := nat_of_ascii c in
  ((65 <=? n)%nat && (n <=? 90)%nat) || ((97 <=? n)%nat && (n <=? 122)%nat)
  || Py.isdigit c
  || Ascii.eqb c "_" || Ascii.eqb c "." || Ascii.eqb c "-" || Ascii.eqb c "~".

Definition hex_digit (n : nat) : ascii :=
  if (n <? 10)%nat then ascii_of_nat (48 + n) else ascii_of_nat (55 + n).

Definition percent (b : ascii) : string :=
  let n := nat_of_ascii b in
  String "%" (String (hex_digit (n / 16)) (String (hex_digit (n mod 16)) "")).

Fixpoint quote_bytes (bs : string) : string :=
  match bs with
  | "" => ""
  | String b bs' =>
      if Ascii.eqb b " " then String "+" (quote_bytes bs')
      else if always_safe b then String b (quote_bytes bs')
      else percent b +:+ quote_bytes bs'
  end.

(** the text is encoded as UTF-8; a space becomes a plus sign, the other
    bytes outside the always-safe set become [%XX] *)
Definition quote_plus (s : string) : string := quote_bytes (Py.utf8 s).

End Urllib.

(** ** [import_csv] and [import_osm] *)

Definition dq : string := Py.chr Py.DQUOTE.
Definition backslash : string := Py.chr "092".

Definition import_csv `{Collaborators Ext} (connection_string path schema table : string)
  : M (world Ext) unit :=
  invoke (subprocess_run
    ["psql"; connection_string; "-c";
     backslash +:+ "copy " +:+ schema +:+ "." +:+ table +:+ " from '" +:+ path +:+
     "' WITH CSV DELIMITER ';' NULL '' HEADER ENCODING 'utf-8'"] false).

(** the command line of line 114 *)
Definition osm2pgsql_command (connection_string path path_style schema : string)
    (prefix : option string) : string :=
  let prefix :=
    match prefix with
    | None | Some "" => ""
    | Some p => "--prefix " +:+ p
    end in
  "osm2pgsql --database=" +:+ connection_string +:+ " --middle-schema=" +:+ schema
  +:+ " --output-pgsql-schema=" +:+ schema +:+ " " +:+ prefix
  +:+ " --latlong --slim --hstore --style=" +:+ dq +:+ path_style +:+ dq
  +:+ " " +:+ dq +:+ path +:+ dq.

Definition import_osm `{Collaborators Ext}
    (connection_string path path_style schema : string) (prefix : option string)
  : M (world Ext) unit :=
  invoke (subprocess_run
    [osm2pgsql_command connection_string path path_style schema prefix] true).

(** the statement of the dataset [building] *)
Definition building_sql : string :=
  "
                CREATE TABLE building AS ( -- 16 s
                    SELECT ST_Transform(way, %(target_srid)s)::geometry(Polygon, %(target_srid)s) AS geom
                    FROM osm_polygon
                    WHERE building IS NOT NULL
                );
    
                CREATE INDEX building_geom_idx ON building USING gist (geom); -- 22 s
            ".

(** the statement of the dataset [crossing] *)
Definition crossing_sql : string :=
  "
                CREATE TABLE crossing AS ( -- 4 s
                    SELECT ST_Transform(way, %(target_srid)s)::geometry(Point, %(target_srid)s) AS geom FROM osm_point WHERE highway IN ('crossing') UNION ALL
                    SELECT ST_Transform(way, %(target_srid)s)::geometry(LineString, %(target_srid)s) AS geom FROM osm_line WHERE highway IN ('crossing') UNION ALL
                    SELECT ST_Transform(way, %(target_srid)s)::geometry(Polygon, %(target_srid)s) AS geom FROM osm_polygon WHERE highway IN ('crossing')
                );
    
                CREATE INDEX crossing_geom_idx ON crossing USING gist (geom); -- 1 s
            ".

(** the statement of the dataset [facility] *)
Definition facility_sql : string :=
  "
                CREATE TABLE facility AS ( -- 3 s
                    SELECT ST_Transform(way, %(target_srid)s)::geometry(Point, %(target_srid)s) AS geom
                    FROM osm_point
                    WHERE amenity IN ('arts_centre', 'artwork', 'attraction', 'bar', 'biergarten', 'cafe', 'castle', 'cinema', 'museum',
                                      'park', 'pub', 'restaurant', 'swimming_pool', 'theatre', 'viewpoint') -- entertainment
                       OR amenity IN ('bakery', 'beverages', 'butcher', 'clothes', 'department_store', 'fast_food',
                                      'florist', 'furniture_shop', 'kiosk', 'mall', 'outdoor_shop', 'pharmacy',
                                      'shoe_shop', 'sports_shop', 'supermarket', 'commercial', 'retail', 'shop') -- retail
                       OR amenity IN ('university', 'school', 'college', 'gymnasium', 'kindergarten', 'boarding_school', 'music_school',
                                      'riding_school', 'school;dormitory') -- institutional
                       OR tourism IN ('museum', 'attraction', 'gallery', 'viewpoint', 'zoo')
    
                    UNION ALL
    
                    SELECT ST_Transform(way, %(target_srid)s)::geometry(Polygon, %(target_srid)s) AS geom
                    FROM osm_polygon
                    WHERE amenity IN ('arts_centre', 'artwork', 'attraction', 'bar', 'biergarten', 'cafe', 'castle', 'cinema', 'museum',
                                      'park', 'pub', 'restaurant', 'swimming_pool', 'theatre', 'viewpoint') -- entertainment
                       OR amenity IN ('bakery', 'beverages', 'butcher', 'clothes', 'department_store', 'fast_food', 'florist',
                                      'furniture_shop', 'kiosk', 'mall', 'outdoor_shop', 'pharmacy', 'shoe_shop', 'sports_shop',
                                      'supermarket', 'commercial', 'retail', 'shop') -- retail
                       OR amenity IN ('university', 'school', 'college', 'gymnasium', 'kindergarten', 'boarding_school', 'music_school',
                                      'riding_school', 'school;dormitory') -- institutional
                       OR tourism IN ('museum', 'attraction', 'gallery', 'viewpoint', 'zoo')
                );
    
                CREATE INDEX facility_geom_idx ON facility USING gist (geom); -- 1 s
            ".

(** the statement of the dataset [greenness] *)
Definition greenness_sql : string :=
  "
                CREATE TABLE greenness AS ( -- 14 s
                    SELECT ST_Transform(way, %(target_srid)s)::geometry(Polygon, %(target_srid)s) AS geom
                    FROM osm_polygon
                    WHERE landuse IN ('forest', 'grass', 'meadow', 'village_green', 'recreation_ground', 'vineyard', 'flowerbed', 'farmland', 'heath', 'nature_reseve', 'park', 'greenfield')
                       OR leisure IN ('garden', 'golf_course', 'park')
                       OR " +:+ dq +:+
  "natural" +:+ dq +:+
  " IN ('tree', 'wood', 'grassland', 'heath', 'scrub')
                );
    
                CREATE INDEX greenness_geom_idx ON greenness USING gist (geom); -- 4 s
            ".

(** the statement of the dataset [water] *)
Definition water_sql : string :=
  "
                CREATE TABLE water AS ( -- 10 s
                    SELECT ST_Transform(way, %(target_srid)s)::geometry(LineString, %(target_srid)s) AS geom FROM osm_line WHERE (waterway IS NOT NULL OR " +:+ dq +:+
  "natural" +:+ dq +:+
  " = 'water') AND tunnel IS NULL UNION ALL
                    SELECT ST_Transform(way, %(target_srid)s)::geometry(Polygon, %(target_srid)s) AS geom FROM osm_polygon WHERE (waterway IS NOT NULL OR " +:+ dq +:+
  "natural" +:+ dq +:+
  " = 'water') AND tunnel IS NULL
                );
    
                CREATE INDEX water_geom_idx ON water USING gist (geom); -- 1 s
            ".

(** lines 181-184 *)
Definition q_template : string :=
  "
            [timeout:900][maxsize:1073741824];
            nwr(__bbox__);
            out;".

(** the five datasets: name and statement *)
Definition datasets : list (string * string) :=
  [("building", building_sql); ("crossing", crossing_sql);
   ("facility", facility_sql); ("greenness", greenness_sql);
   ("water", water_sql)].

(** ** [OsmImporter] *)

Section OsmImporter.

Context `{Collaborators Ext}.
Variable self : DbStep.

Definition download_target : string :=
  OsPath.join (data_directory (global_settings self))
    [osm_download_fname (global_settings self)].

Definition download_url (endpoint q_str : string) : string :=
  endpoint +:+ "?data=" +:+ Urllib.quote_plus q_str.

(** lines 191-206.  [remaining] are the endpoints from [curEndpointIndex]
    on: a failure moves on by one, a success sets [success] and the loop
    ends at its next test; the value is the final [success]. *)
Fixpoint download_loop (q_str : string) (remaining : list string)
  : M (world Ext) bool :=
  match remaining with
  | [] => mret false
  | endpoint :: rest =>
      r ← attempt (invoke (urlretrieve (download_url endpoint q_str) download_target));
      match r with
      | Raise (HTTPError _) => download_loop q_str rest
      | Raise _ => download_loop q_str rest
      | Ok (file_name, headers) => mret true
      end
  end.

Definition _load_osm_from_bbox (bbox : string) : M (world Ext) unit :=
  let q_str := Py.replace "__bbox__" bbox q_template in
  success ← download_loop q_str (overpass_api_endpoints (global_settings self));
  if negb success
  then raise (Exception "OSM data download was not successful. Terminating.")
  else mret tt.

(** The calls that asking each of [endpoints] once, in order, with the
    query [q_str] leaves in the log. *)
Definition attempts (q_str : string) (endpoints : list string) : list (sigT call) :=
  (fun endpoint => called (urlretrieve (download_url endpoint q_str) download_target))
    <$> endpoints.

(** The world after each of [tried] has been asked, in order, and has
    raised; [None] when one of them delivers. *)
Fixpoint after_failures (q_str : string) (tried : list string) (w : world Ext)
  : option (world Ext) :=
  match tried with
  | [] => Some w
  | endpoint :: rest =>
      match invoke (urlretrieve (download_url endpoint q_str) download_target) w with
      | (w', Raise _) => after_failures q_str rest w'
      | (_, Ok _) => None
      end
  end.

(** lines 225-236; the value is [use_overpass_api] *)
Definition acquire (settings : gmap string string) : M (world Ext) bool :=
  if negb (has_keys settings ["filename"]) then
    if negb (has_any_key settings ["place_name"; "bbox"])
    then raise (Exception
      "neither 'aoi_name' nor 'bbox' parameter specified for OSM download. Terminating.")
    else
      (if has_keys settings ["bbox"]
       then bbox ← getitem settings "bbox"; _load_osm_from_bbox bbox
       else mret tt);;
      (if has_keys settings ["place_name"]
       then raise (NotImplementedError "OSM import from place name is not yet supported.")
       else mret tt);;
      mret true
  else mret false.

(** lines 263-275 and the four blocks after it, one per dataset *)
Definition create_dataset (name sql : string) : M (world Ext) unit :=
  go ← invoke (db_handle_conflicting_output_tables [name] (data_schema self));
  if go : bool then
    invoke (db_execute sql [("target_srid", target_srid (global_settings self))]);;
    invoke db_commit
  else mret tt.

(** lines 262-356 *)
Definition create_datasets : M (world Ext) unit :=
  create_dataset "building" building_sql;;
  create_dataset "crossing" crossing_sql;;
  create_dataset "facility" facility_sql;;
  create_dataset "greenness" greenness_sql;;
  create_dataset "water" water_sql.

(** the builder on a list of datasets, one after the other *)
Fixpoint create_all (ds : list (string * string)) : M (world Ext) unit :=
  match ds with
  | [] => mret tt
  | d :: ds' => create_dataset d.1 d.2;; create_all ds'
  end.

Definition osm_run_step (settings : gmap string string) : M (world Ext) unit :=
  let schema := data_schema self in
  let directory := data_directory (global_settings self) in
  invoke PostgresConnection_from_settings_object;;
  invoke (db_init_extensions_and_schema schema);;
  use_overpass_api ← acquire settings;
  invoke (db_drop_table "osm_point" schema);;
  invoke (db_drop_table "osm_line" schema);;
  invoke (db_drop_table "osm_polygon" schema);;
  invoke (db_drop_table "osm_nodes" schema);;
  invoke (db_drop_table "osm_rels" schema);;
  invoke (db_drop_table "osm_roads" schema);;
  invoke (db_drop_table "osm_ways" schema);;
  invoke db_commit;;
  filename ←
    (if negb use_overpass_api then getitem settings "filename"
     else mret (osm_download_fname (global_settings self)));
  import_osm (connection_string self) (OsPath.join directory [filename])
    (OsPath.join "resources" ["default.style"]) schema (Some "osm");;
  invoke (db_drop_table "osm_nodes" schema);;
  invoke (db_drop_table "osm_rels" schema);;
  invoke (db_drop_table "osm_roads" schema);;
  invoke (db_drop_table "osm_ways" schema);;
  invoke db_commit;;
  create_datasets;;
  invoke db_close.

End OsmImporter.

(** ** [GipImporter] *)

Record import_task : Type := {
  task_filename : string;
  task_table : string;
  task_columns : list string
}.

Definition files_A : list import_task :=
  [ {| task_filename := "BikeHike.txt"; task_table := "gip_bikehike"; task_columns := ["use_id"] |};
    {| task_filename := "Link.txt"; task_table := "gip_link"; task_columns := ["link_id"] |};
    {| task_filename := "LinkCoordinate.txt"; task_table := "gip_linkcoordinate";
       task_columns := ["link_id"; "count"] |};
    {| task_filename := "LinkUse.txt"; task_table := "gip_linkuse"; task_columns := ["use_id"] |};
    {| task_filename := "Link2ReferenceObject.txt"; task_table := "gip_link2referenceobject";
       task_columns := ["idseq"] |};
    {| task_filename := "Node.txt"; task_table := "gip_node"; task_columns := ["node_id"] |};
    {| task_filename := "ReferenceObject.txt"; task_table := "gip_referenceobject";
       task_columns := ["refobj_id"] |} ].

Section GipImporter.

Context `{Collaborators Ext}.
Variable self : DbStep.

(** [os.path.join(directory, os.path.splitext(settings['filename_A'])[0], name)] *)
Definition in_extract_dir (filename_A name : string) : string :=
  OsPath.join (data_directory (global_settings self))
    [(OsPath.splitext filename_A).1; name].

Definition csv_path (filename_A : string) (file : import_task) : string :=
  in_extract_dir filename_A ((OsPath.splitext (task_filename file)).1 +:+ ".csv").

Definition sql_path (filename_A : string) (file : import_task) : string :=
  in_extract_dir filename_A ((OsPath.splitext (task_filename file)).1 +:+ ".sql").

Definition txt_path (filename_A : string) (file : import_task) : string :=
  in_extract_dir filename_A (task_filename file).

(** lines 156-157 *)
Definition ensure_data_file (filename_A : string) (file : import_task)
  : M (world Ext) unit :=
  present ← gets (fun w => isfile (csv_path filename_A file) (fs w));
  if negb present then on_files (create_csv (txt_path filename_A file)) else mret tt.

(** lines 158-159 *)
Definition ensure_schema_file (filename_A : string) (file : import_task)
  : M (world Ext) unit :=
  present ← gets (fun w => isfile (sql_path filename_A file) (fs w));
  if negb present then on_files (create_sql (txt_path filename_A file)) else mret tt.

(** lines 155-169, the body of the loop over [files_A] *)
Definition create_table (settings : gmap string string) (file : import_task)
  : M (world Ext) unit :=
  let schema := data_schema self in
  filename_A ← getitem settings "filename_A";
  ensure_data_file filename_A file;;
  ensure_schema_file filename_A file;;
  invoke (db_drop_table (task_table file) schema);;
  invoke (db_execute_sql_from_file (OsPath.splitext (task_filename file)).1
            (OsPath.join (data_directory (global_settings self))
               [(OsPath.splitext filename_A).1]));;
  invoke db_commit;;
  import_csv (connection_string self) (csv_path filename_A file) schema (task_table file);;
  invoke (db_add_primary_key (task_table file) (task_columns file) schema);;
  invoke db_commit.

(** lines 148-150 *)
Definition extract_member (filename_A : string) (file : import_task)
  : M (world Ext) unit :=
  present ← gets (fun w => isfile (txt_path filename_A file) (fs w));
  if negb present
  then invoke (zf_extract (task_filename file)
                 (OsPath.join (data_directory (global_settings self))
                    [(OsPath.splitext filename_A).1]))
  else mret tt.

Fixpoint for_each {A} (body : A → M (world Ext) unit) (l : list A) : M (world Ext) unit :=
  match l with
  | [] => mret tt
  | x :: l' => body x;; for_each body l'
  end.

Definition gip_run_step (settings : gmap string string) : M (world Ext) unit :=
  let schema := data_schema self in
  invoke PostgresConnection_from_settings_object;;
  invoke db_connect;;
  invoke (db_init_extensions_and_schema schema);;
  filename_A ← getitem settings "filename_A";
  invoke (ZipFile (OsPath.join (data_directory (global_settings self)) [filename_A]));;
  for_each (extract_member filename_A) files_A;;
  for_each (create_table settings) files_A;;
  invoke db_close.

End GipImporter.

(** ** The forms of a type token

    [whole_form] follows the words of the design document: a token is
    recognised when it is, as a whole, one of [string], [string(N)],
    [decimal(P,S)] and [decimal(P)].  [prefix_form] is what the patterns of
    [create_sql] accept: a token that starts with one of these forms. *)

Definition whole_form (tok : string) : Prop :=
  tok = "string"
  ∨ (∃ N, Py.all_digits N = true ∧ tok = "string(" +:+ N +:+ ")")
  ∨ (∃ P S, Py.all_digits P = true ∧ Py.all_digits S = true
            ∧ tok = "decimal(" +:+ P +:+ "," +:+ S +:+ ")")
  ∨ (∃ P, Py.all_digits P = true ∧ tok = "decimal(" +:+ P +:+ ")").

Definition prefix_form (tok : string) : Prop :=
  tok = "string"
  ∨ (∃ N rest, Py.all_digits N = true ∧ tok = "string(" +:+ N +:+ ")" +:+ rest)
  ∨ (∃ P S rest, Py.all_digits P = true ∧ Py.all_digits S = true
            ∧ tok = "decimal(" +:+ P +:+ "," +:+ S +:+ ")" +:+ rest)
  ∨ (∃ P rest, Py.all_digits P = true ∧ tok = "decimal(" +:+ P +:+ ")" +:+ rest).

(** A precision [int] refuses: no digit at all, or more digits than the
    limit of the conversion. *)
Definition refused_precision (P : string) : Prop :=
  P = "" ∨ (Py.int_max_str_digits < Z.of_nat (String.length P))%Z.

(** A token that starts with [decimal(P)] for such a precision *)
Definition unconvertible (tok : string) : Prop :=
  ∃ P rest, Py.all_digits P = true ∧ refused_precision P
            ∧ tok = "decimal(" +:+ P +:+ ")" +:+ rest.

(** The column type for a precision, lines 60-67 *)
Definition integer_type (precision : string) (p : Z) : string :=
  if (p <=? 4)%Z then "smallint"
  else if (p <=? 10)%Z then "integer"
  else if (p <=? 18)%Z then "bigint"
  else "numeric(" +:+ precision +:+ ")".

(** The name a column gets, lines 45-46 *)
Definition column_name (atr_ : string) : string :=
  if String.eqb atr_ "offset" then "offset_" else atr_.

(** ** A small installation

    Files and collaborators to run the importers on: the first endpoint
    answers with an HTTP error, the second one times out, any other one
    delivers; the database keeps the list of its tables, and its conflict
    check answers [False] for a table that is there. *)

Module Demo.

Definition nl : string := Py.chr Py.LF.





(** a precision of 4301 digits, one more than [int] converts *)
Definition long_precision : string :=
  string_of_list_ascii (repeat "9"%char 4301).

(** an [atr] record with two fields and a [frm] record with one *)
Definition uneven_txt : string :=
  "tbl;t" +:+ nl +:+ "atr;a;b" +:+ nl +:+ "frm;string" +:+ nl.

Definition uneven_fs : files := {[ "gip/t.txt" := uneven_txt ]}.

(** a table name and column names, but no types *)
Definition no_frm_txt : string := "tbl;n" +:+ nl +:+ "atr;a" +:+ nl.
Definition no_frm_fs : files := {[ "gip/n.txt" := no_frm_txt ]}.

(** a data row ahead of the table name *)
Definition headless_fs : files :=
  {[ "gip/h.txt" := "rec;1;2" +:+ nl +:+ "tbl;h" +:+ nl ]}.



(** a column name with a blank in front of it *)
Definition padded_txt : string :=
  "tbl;o" +:+ nl +:+ "atr;id; offset" +:+ nl +:+ "frm;decimal(9);decimal(9)" +:+ nl.

Definition padded_fs : files := {[ "gip/o.txt" := padded_txt ]}.

(** column names written with capitals *)
Definition capitals_txt : string :=
  "tbl;C" +:+ nl +:+ "atr;ID;Offset" +:+ nl +:+ "frm;decimal(9);decimal(12)" +:+ nl.

Definition capitals_fs : files := {[ "gip/c.txt" := capitals_txt ]}.

(** one column name, and a second type whose precision is empty *)
Definition surplus_txt : string :=
  "tbl;s" +:+ nl +:+ "atr;a" +:+ nl +:+ "frm;string;decimal()" +:+ nl.

Definition surplus_fs : files := {[ "gip/s.txt" := surplus_txt ]}.

#[global] Instance collaborators : Collaborators (list string) :=
  fun R c '(fs, tables) =>
    match c in call R return (files * list string) * result R with
    | urlretrieve url filename =>
        if Py.startswith url "http://a.example/"
        then ((fs, tables), Raise (HTTPError 504))
        else if Py.startswith url "http://b.example/"
        then ((fs, tables), Raise (BaseException "TimeoutError" "timed out"))
        else ((<[filename := "<osm/>"]> fs, tables), Ok (filename, "200 OK"))
    | db_handle_conflicting_output_tables ts _ =>
        ((fs, tables), Ok (negb (existsb (fun t => bool_decide (t ∈ tables)) ts)))
    | db_execute sql _ =>
        match find (fun d => String.eqb d.2 sql) datasets with
        | Some d => ((fs, d.1 :: tables), Ok tt)
        | None => ((fs, tables), Ok tt)
        end
    | db_drop_table t _ => ((fs, filter (fun t' => t' ≠ t) tables), Ok tt)
    | _ => ((fs, tables), Ok tt)
    end.

Definition settings : GlobalSettings :=
  {| data_directory := "data";
     osm_download_fname := "osm_download.xml";
     overpass_api_endpoints :=
       ["http://a.example/api"; "http://b.example/api"; "http://c.example/api";
        "http://d.example/api"];
     target_srid := 32633 |}.

Definition importer : DbStep :=
  {| global_settings := settings; data_schema := "data"; connection_string := "dbname=netascore" |}.

(** the same installation with no endpoint that delivers *)
Definition offline : DbStep :=
  {| global_settings :=
       {| data_directory := "data";
          osm_download_fname := "osm_download.xml";
          overpass_api_endpoints := ["http://a.example/api"; "http://b.example/api"];
          target_srid := 32633 |};
     data_schema := "data"; connection_string := "dbname=netascore" |}.

Definition start : world (list string) := World ∅ [] [].

Definition present (n : string) (σ : files * list string) : Prop := n ∈ σ.2.

Definition node_task : import_task :=
  {| task_filename := "Node.txt"; task_table := "gip_node"; task_columns := ["node_id"] |}.

(** the source of the task of [Node.txt], well formed, and with its
    types missing *)
Definition node_world : world (list string) :=
  World {[ "data/gip/Node.txt" :=
           "tbl;Node" +:+ nl +:+ "atr;NODE_ID" +:+ nl +:+ "frm;decimal(9)" +:+ nl ]} [] [].

Definition broken_world : world (list string) :=
  World {[ "data/gip/Node.txt" := no_frm_txt ]} [] [].

(** the archive [gip.zip] already extracted: the seven sources, empty *)
Definition extracted : world (list string) :=
  World (list_to_map ((fun file => ("data/gip/" +:+ task_filename file, "")) <$> files_A))
    [] [].

Definition with_file : gmap string string :=
  {[ "filename" := "salzburg.pbf"; "bbox" := "47.7,12.9,47.9,13.2";
     "place_name" := "Salzburg" ]}.

(** the extracted archive [gip.zip] with the two files of the first task
    already derived, and no source file *)
Definition cached : world (list string) :=
  World {[ "data/gip/BikeHike.csv" := "use_id" +:+ nl;
           "data/gip/BikeHike.sql" := "CREATE TABLE gip_bikehike (use_id integer);" ]} [] [].

End Demo.

(** ** Auxiliary notions for the proofs *)

(** the part of a world the collaborators see *)
Definition state_of {Ext} (w : world Ext) : files * Ext := (fs w, ext w).

(** Every call a computation adds to the log satisfies [P]. *)
Definition logs {Ext A} (P : sigT call → Prop) (m : M (world Ext) A) : Prop :=
  ∀ w w' r, m w = (w', r) → ∃ new, calls w' = calls w ++ new ∧ Forall P new.

(** When the computation returns, it has added the call [c] to the log. *)
Definition logs_on_success {Ext A} (c : sigT call) (m : M (world Ext) A) : Prop :=
  ∀ w w' a, m w = (w', Ok a) → ∃ new, calls w' = calls w ++ new ∧ c ∈ new.

Definition any_call (c : sigT call) : Prop := True.


(** the calls the dataset builder makes *)
Definition builder_call {R} (c : call R) : Prop :=
  match c with
  | db_handle_conflicting_output_tables _ _ | db_execute _ _ | db_commit => True
  | _ => False
  end.

(** A conflict check that reports existing tables correctly, [present n]
    being that the table [n] exists: the check of an existing table
    answers [False], it answers [False] for no other table, a statement of
    a dataset that succeeds creates its table, and the calls of the builder
    drop no table. *)
Record reports_existing_tables `{Collaborators Ext} (schema : string)
    (present : string → files * Ext → Prop) : Prop := {
  check_existing : ∀ n σ, present n σ →
    ∃ σ', respond _ (db_handle_conflicting_output_tables [n] schema) σ = (σ', Ok false);
  check_skipped : ∀ n σ σ',
    respond _ (db_handle_conflicting_output_tables [n] schema) σ = (σ', Ok false) →
    present n σ';
  execute_creates : ∀ n sql params σ σ', (n, sql) ∈ datasets →
    respond _ (db_execute sql params) σ = (σ', Ok tt) → present n σ';
  builder_keeps : ∀ R (c : call R) σ σ' r m, builder_call c →
    respond _ c σ = (σ', r) → present m σ → present m σ'
}.

(** the checks of the five datasets *)
Definition dataset_checks (schema : string) : list (sigT call) :=
  (fun d : string * string => called (db_handle_conflicting_output_tables [d.1] schema))
    <$> datasets.

(** the rest of a pattern that cannot start on a digit *)
Definition fails_on_digit (k : string → option (list string)) : Prop :=
  ∀ c r, Py.isdigit c = true → k (String c r) = None.

Definition no_leading_digit (s : string) : Prop :=
  match s with
  | "" => True
  | String c _ => Py.isdigit c = false
  end.

(** ** Sources, line by line *)

(** the lines [create_sql] reads: those ahead of the first [rec] line *)
Fixpoint header_of (f : list string) : list string :=
  match f with
  | [] => []
  | line :: f' => if Py.startswith line "rec;" then [] else line :: header_of f'
  end.

(** the last line of [f] that starts with [tag] *)
Fixpoint last_tagged (tag : string) (f : list string) : option string :=
  match f with
  | [] => None
  | line :: f' =>
      match last_tagged tag f' with
      | Some l => Some l
      | None => if Py.startswith line tag then Some line else None
      end
  end.

(** the schema file and the data file of a source, lines 35 and 21 *)
Definition sql_file (file_txt : string) : string :=
  (OsPath.splitext file_txt).1 +:+ ".sql".






(** ** Further notions for the properties beyond the design document *)

(** a character that needs no escaping in the query part of a URL, the
    plus sign and the percent sign of the escapes included *)
Definition url_char (c : ascii) : bool :=
  Urllib.always_safe c || Ascii.eqb c "+" || Ascii.eqb c "%".

(** the characters of a string *)
Definition chars (s : string) : list ascii := list_ascii_of_string s.

(** what line 25 does to the text of a data row *)
Definition unquote_empty (row : string) : string :=
  Py.replace (dq +:+ " " +:+ dq) "" (Py.replace (dq +:+ dq) "" row).




(** Reading back one character of a text written through
    [encoding='utf-8'], for the code points below 256. *)
Definition utf8_read (bs : string) : option (ascii * string) :=
  match bs with
  | "" => None
  | String b bs' =>
      if (nat_of_ascii b <? 128)%nat then Some (b, bs')
      else
        match bs' with
        | String b' bs'' =>
            Some (ascii_of_nat ((nat_of_ascii b - 192) * 64 + (nat_of_ascii b' - 128)),
                  bs'')
        | "" => None
        end
  end.

(** the number of occurrences of a character *)
Fixpoint count_char (c : ascii) (s : string) : nat :=
  match s with
  | "" => 0
  | String b s' => (if Ascii.eqb b c then 1 else 0) + count_char c s'
  end.

(** the fields [create_sql] takes from an [atr] or [frm] line, lines 38
    and 40 *)
Definition fields (line : string) : list string :=
  Py.split ";" (Py.lower (Py.strip (Py.slice_from 4 line))).

(** a text without a slash and without a dot *)
Definition plain (s : string) : bool :=
  forallb (fun c => negb (Ascii.eqb c "/") && negb (Ascii.eqb c ".")) (chars s).

(** the directory of the extracted archive, with its separator, as
    [os.path.join] puts it in front of a relative name *)
Definition task_dir (self : DbStep) (filename_A : string) : string :=
  let path := OsPath.join2 (data_directory (global_settings self))
                (OsPath.splitext filename_A).1 in
  if String.eqb path "" || OsPath.endswith path "/" then path else path +:+ "/".

(** a call other than [db.close()] *)
Definition not_close (c : sigT call) : Prop :=
  match c with
  | existT _ c' => match c' with db_close => False | _ => True end
  end.

(** A computation that closes the connection last: the calls it adds to
    the log are calls other than [db.close()], followed, unless it has
    raised before, by the one call of [db.close()]. *)
Definition closes_last {Ext A} (m : M (world Ext) A) : Prop :=
  ∀ w w' r, m w = (w', r) →
    ∃ new, Forall not_close new
      ∧ ((calls w' = calls w ++ new ∧ ∃ e, r = Raise e)
         ∨ calls w' = calls w ++ new ++ [called db_close]).

(** the calls of the block of a dataset, by the answer of its check *)
Definition block_calls (self : DbStep) (d : string * string) (go : bool)
  : list (sigT call) :=
  called (db_handle_conflicting_output_tables [d.1] (data_schema self))
  :: (if go
      then [called (db_execute d.2 [("target_srid", target_srid (global_settings self))]);
            called db_commit]
      else []).

(** A run of the blocks of the datasets [ds] that leads from [w] to [w']:
    each block returns, [answers] are, block by block, what the conflict
    check answered when it was asked in the world the block started in, and
    the calls of a block are the ones that go with the answer of its
    check. *)
Fixpoint blocks_run `{Collaborators Ext} (self : DbStep) (ds : list (string * string))
    (answers : list bool) (w w' : world Ext) : Prop :=
  match ds, answers with
  | [], [] => w' = w
  | d :: ds', go :: answers' =>
      ∃ w1, create_dataset self d.1 d.2 w = (w1, Ok tt)
        ∧ (invoke (db_handle_conflicting_output_tables [d.1] (data_schema self)) w).2
          = Ok go
        ∧ calls w1 = calls w ++ block_calls self d go
        ∧ blocks_run self ds' answers' w1 w'
  | _, _ => False
  end.

(** ** [import_geopackage]

    [ogr.Open(path)] gives the data source of a file, or [None]; of a data
    source the function uses its layers, in order, and its look-up of a
    layer by name, which gives [None] for a name it does not know; of a
    layer, its name, the code of its geometry type and the name of its
    geometry column. *)

Record layer : Type := {
  GetName : string;
  GetGeomType : Z;
  GetGeometryColumn : string
}.

Record DataSource : Type := {
  ds_layers : list layer;
  GetLayerByName : string → option layer
}.

(** the [AttributeError] of a method called on [None] *)
Definition AttributeError (method : string) : exn :=
  BaseException "AttributeError"
    ("'NoneType' object has no attribute '" +:+ method +:+ "'").

(** [data_source.GetLayerByName(name)], ready for the call of [method] *)
Definition layer_by_name (data_source : option DataSource) (name method : string)
  : result layer :=
  match data_source with
  | None => Raise (AttributeError "GetLayerByName")
  | Some ds =>
      match GetLayerByName ds name with
      | Some l => Ok l
      | None => Raise (AttributeError method)
      end
  end.

(** lines 95-97, 103-104: the options of the command *)
Definition fid_option (fid : option string) : string :=
  match fid with
  | None | Some "" => "-lco FID=fid"
  | Some f => "-lco FID=" +:+ f
  end.

Definition transform_option (srid : option Z) : string :=
  match srid with
  | None | Some 0%Z => ""
  | Some n => "-t_srs EPSG:" +:+ pretty n
  end.

Definition geometry_type_option (layers_geometry_types : gset Z) : string :=
  if (1 <? size layers_geometry_types)%nat then "-nlt GEOMETRY" else "".

Definition select_option (attributes : string) : string :=
  if String.eqb attributes "" then ""
  else "-select " +:+ dq +:+ attributes +:+ dq.

Definition where_option (geometry_column geometry_types : string) : string :=
  if String.eqb geometry_types "" then ""
  else "-where " +:+ dq +:+ "GeometryType(" +:+ geometry_column +:+ ") IN ("
       +:+ geometry_types +:+ ")" +:+ dq.

(** the command line of line 106 *)
Definition ogr2ogr_command
    (connection_string fid schema table transform geometry_type select where_
     path layer : string) : string :=
  "ogr2ogr -f PostgreSQL " +:+ dq +:+ "PG:" +:+ connection_string +:+ dq +:+ " "
  +:+ fid +:+ " -skipfailures -lco GEOMETRY_NAME=geom -nln " +:+ schema +:+ "."
  +:+ table +:+ " " +:+ transform +:+ " " +:+ geometry_type +:+ " " +:+ select
  +:+ " " +:+ where_ +:+ " " +:+ dq +:+ path +:+ dq +:+ " " +:+ dq +:+ layer +:+ dq.

Section Geopackage.

Context `{Collaborators Ext}.
Variable ogr_Open : string → option DataSource.

(** line 92 *)
Definition layer_names (data_source : option DataSource)
    (layers : option (list string)) : result (list string) :=
  match layers with
  | Some ls => Ok ls
  | None =>
      match data_source with
      | Some ds => Ok (GetName <$> ds_layers ds)
      | None => Raise (BaseException "TypeError" "'NoneType' object is not iterable")
      end
  end.

(** line 93, before [set] *)
Definition geometry_types_of (data_source : option DataSource)
    (layers : list string) : result (list Z) :=
  mapM (fun layer => l ← layer_by_name data_source layer "GetGeomType";
                     Ok (GetGeomType l)) layers.

(** lines 100-107, the body of the loop *)
Definition import_layer (data_source : option DataSource)
    (connection_string path schema table fid transform geometry_type
     attributes geometry_types : string) (layer : string) : M (world Ext) unit :=
  l ← lift_result (layer_by_name data_source layer "GetGeometryColumn");
  let geometry_column := GetGeometryColumn l in
  let select := select_option attributes in
  let where_ := where_option geometry_column geometry_types in
  invoke (subprocess_run
    [ogr2ogr_command connection_string fid schema table transform geometry_type
       select where_ path layer] true).

Definition import_geopackage (connection_string path schema table : string)
    (fid : option string) (srid : option Z)
    (layers attributes geometry_types : option (list string))
  : M (world Ext) unit :=
  let data_source := ogr_Open path in
  let attributes := match attributes with None => [] | Some a => a end in
  let attributes := Py.join "," attributes in
  let geometry_types := match geometry_types with None => [] | Some g => g end in
  let geometry_types :=
    Py.join ", " ((fun geometry_type => "'" +:+ geometry_type +:+ "'") <$> geometry_types) in
  layers ← lift_result (layer_names data_source layers);
  types ← lift_result (geometry_types_of data_source layers);
  let layers_geometry_types : gset Z := list_to_set types in
  let fid := fid_option fid in
  let transform := transform_option srid in
  let geometry_type := geometry_type_option layers_geometry_types in
  for_each (import_layer data_source connection_string path schema table fid
              transform geometry_type attributes geometry_types) layers.

(** the process started for a layer *)
Definition layer_call (connection_string path schema table : string)
    (fid : option string) (srid : option Z) (attributes geometry_types : option (list string))
    (types : list Z) (l : layer) (name : string) : sigT call :=
  called (subprocess_run
    [ogr2ogr_command connection_string (fid_option fid) schema table
       (transform_option srid) (geometry_type_option (list_to_set types))
       (select_option (Py.join "," (match attributes with None => [] | Some a => a end)))
       (where_option (GetGeometryColumn l)
          (Py.join ", " ((fun geometry_type => "'" +:+ geometry_type +:+ "'")
                         <$> match geometry_types with None => [] | Some g => g end)))
       path name] true).

End Geopackage.

(** ** [create_importer]

    The two values of [InputType] are defined outside this module; they
    are the parameters [GIP] and [OSM]. *)

Inductive importer : Type :=
| GipImporter
| OsmImporter.


(** a geopackage of two layers, for the installation *)
Definition demo_source : DataSource :=
  let roads := {| GetName := "roads"; GetGeomType := 2; GetGeometryColumn := "geom" |} in
  let stops := {| GetName := "stops"; GetGeomType := 1; GetGeometryColumn := "shape" |} in
  {| ds_layers := [roads; stops];
     GetLayerByName := fun name =>
       if String.eqb name "roads" then Some roads
       else if String.eqb name "stops" then Some stops
       else None |}.

Definition demo_ogr_Open (path : string) : option DataSource :=
  if String.eqb path "net.gpkg" then Some demo_source else None.

(** * Properties *)

(** ** Strings *)

Section StringFacts.

Lemma append_cons c s t : String c s +:+ t = String c (s +:+ t).
Proof. reflexivity. Qed.

Lemma append_nil_l s : "" +:+ s = s.
Proof. reflexivity. Qed.

Lemma append_nil_r s : s +:+ "" = s.
Proof. induction s as [|c s IH]; [done|]. by rewrite append_cons, IH. Qed.

Lemma append_assoc s t u : (s +:+ t) +:+ u = s +:+ (t +:+ u).
Proof. induction s as [|c s IH]; [done|]. by rewrite !append_cons, IH. Qed.

Lemma all_digits_cons c s :
  Py.all_digits (String c s) = Py.isdigit c && Py.all_digits s.
Proof. reflexivity. Qed.

Lemma all_digits_app s t :
  Py.all_digits (s +:+ t) = Py.all_digits s && Py.all_digits t.
Proof.
  induction s as [|c s IH]; [done|].
  by rewrite append_cons, !all_digits_cons, IH, andb_assoc.
Qed.

Lemma strip_prefix_app p s : Re.strip_prefix p (p +:+ s) = Some s.
Proof.
  induction p as [|c p IH]; [by destruct s|].
  rewrite append_cons. simpl. by rewrite Ascii.eqb_refl.
Qed.

Lemma strip_prefix_Some p s r : Re.strip_prefix p s = Some r → s = p +:+ r.
Proof.
  revert s. induction p as [|c p IH]; intros s Hs.
  - destruct s; by inversion Hs.
  - destruct s as [|b s]; [done|]. simpl in Hs.
    destruct (Ascii.eqb c b) eqn:E; [|done].
    apply Ascii.eqb_eq in E as <-. by rewrite append_cons, (IH _ Hs).
Qed.

End StringFacts.

(** ** The matcher *)

Section Matcher.

(** A group takes the whole run of digits when what follows the run is
    not a digit and the rest of the pattern cannot start on one. *)
Lemma digits_then_run k acc N s :
  fails_on_digit k → Py.all_digits N = true → no_leading_digit s →
  Re.digits_then k acc (N +:+ s) = cons (acc +:+ N) <$> k s.
Proof.
  intros Hk. revert acc. induction N as [|c N IH]; intros acc HN Hs.
  - rewrite append_nil_l, append_nil_r.
    destruct s as [|b s]; [done|]. simpl in Hs. simpl. by rewrite Hs.
  - rewrite all_digits_cons in HN. apply andb_true_iff in HN as [Hc HN].
    rewrite append_cons. simpl. rewrite Hc, (IH _ HN Hs).
    replace ((acc +:+ Py.chr c) +:+ N) with (acc +:+ String c N)
      by (unfold Py.chr; by rewrite append_assoc).
    destruct (k s) as [m|]; [done|]. simpl.
    by rewrite (Hk c (N +:+ s) Hc).
Qed.

(** Whatever a group matched is a run of digits, followed by a match of
    the rest of the pattern. *)
Lemma digits_then_Some k acc s m :
  Re.digits_then k acc s = Some m →
  ∃ N r m', s = N +:+ r ∧ Py.all_digits N = true ∧ k r = Some m'
            ∧ m = (acc +:+ N) :: m'.
Proof.
  revert acc. induction s as [|c s IH]; intros acc Hm.
  - simpl in Hm. destruct (k "") as [m'|] eqn:Ek; [|done].
    simpl in Hm. inversion Hm; subst m.
    exists "", "", m'. rewrite !append_nil_r. by repeat split.
  - simpl in Hm.
    assert (cons acc <$> k (String c s) = Some m →
            ∃ N r m', String c s = N +:+ r ∧ Py.all_digits N = true
                      ∧ k r = Some m' ∧ m = (acc +:+ N) :: m') as Hstop.
    { intros Hk. destruct (k (String c s)) as [m'|] eqn:Ek; [|done].
      simpl in Hk. inversion Hk; subst m.
      exists "", (String c s), m'. rewrite !append_nil_r. by repeat split. }
    destruct (Py.isdigit c) eqn:Hc; [|by apply Hstop].
    destruct (Re.digits_then k (acc +:+ Py.chr c) s) as [m0|] eqn:E;
      [|by apply Hstop].
    inversion Hm; subst m0.
    destruct (IH _ E) as (N & r & m' & -> & HN & Hk & ->).
    exists (String c N), r, m'. repeat split; [|done|].
    + by rewrite all_digits_cons, Hc.
    + unfold Py.chr. by rewrite append_assoc.
Qed.

End Matcher.

Section Patterns.

Lemma re_match_group lit p s :
  Re.re_match (Re.Group lit :: p) s =
  match Re.strip_prefix lit s with
  | Some s' => cons lit <$> Re.re_match p s'
  | None => None
  end.
Proof. reflexivity. Qed.

Lemma re_match_chr c p s :
  Re.re_match (Re.Chr c :: p) s =
  match s with
  | String b s' => if Ascii.eqb c b then Re.re_match p s' else None
  | "" => None
  end.
Proof. reflexivity. Qed.

Lemma re_match_digits p s :
  Re.re_match (Re.Digits :: p) s = Re.digits_then (Re.re_match p) "" s.
Proof. reflexivity. Qed.

Lemma re_match_group_app lit p s :
  Re.re_match (Re.Group lit :: p) (lit +:+ s) = cons lit <$> Re.re_match p s.
Proof. by rewrite re_match_group, strip_prefix_app. Qed.

Lemma re_match_chr_app c p s :
  Re.re_match (Re.Chr c :: p) (Py.chr c +:+ s) = Re.re_match p s.
Proof.
  rewrite re_match_chr. unfold Py.chr. rewrite append_cons, append_nil_l.
  by rewrite Ascii.eqb_refl.
Qed.

Lemma chr_fails_on_digit c p :
  Py.isdigit c = false → fails_on_digit (Re.re_match (Re.Chr c :: p)).
Proof.
  intros Hc b r Hb. rewrite re_match_chr.
  destruct (Ascii.eqb_spec c b) as [->|]; [congruence|done].
Qed.

Lemma chr_no_leading_digit c s :
  Py.isdigit c = false → no_leading_digit (Py.chr c +:+ s).
Proof. done. Qed.

(** a group of digits in front of a one-character class that is not a
    digit *)
Lemma re_match_digits_chr c p N s :
  Py.isdigit c = false → Py.all_digits N = true →
  Re.re_match (Re.Digits :: Re.Chr c :: p) (N +:+ Py.chr c +:+ s)
  = cons N <$> Re.re_match p s.
Proof.
  intros Hc HN. rewrite re_match_digits.
  rewrite digits_then_run;
    [|by apply chr_fails_on_digit|done|by apply chr_no_leading_digit].
  by rewrite re_match_chr_app, append_nil_l.
Qed.

Lemma re_match_digits_other c b p N s :
  Py.isdigit c = false → Py.isdigit b = false → c ≠ b → Py.all_digits N = true →
  Re.re_match (Re.Digits :: Re.Chr c :: p) (N +:+ Py.chr b +:+ s) = None.
Proof.
  intros Hc Hb Hne HN. rewrite re_match_digits.
  rewrite digits_then_run;
    [|by apply chr_fails_on_digit|done|by apply chr_no_leading_digit].
  rewrite re_match_chr. unfold Py.chr. rewrite append_cons, append_nil_l.
  by destruct (Ascii.eqb_spec c b).
Qed.

Lemma search_string_n N rest :
  Py.all_digits N = true →
  Re.search Re.string_n ("string(" +:+ N +:+ ")" +:+ rest) = Some ["string"; N].
Proof.
  intros HN. unfold Re.search, Re.string_n.
  change ("string(" +:+ ?x) with ("string" +:+ Py.chr "(" +:+ x).
  rewrite re_match_group_app, re_match_chr_app.
  by rewrite (re_match_digits_chr ")").
Qed.

Lemma search_decimal_p_s P S rest :
  Py.all_digits P = true → Py.all_digits S = true →
  Re.search Re.decimal_p_s ("decimal(" +:+ P +:+ "," +:+ S +:+ ")" +:+ rest)
  = Some ["decimal"; P; S].
Proof.
  intros HP HS. unfold Re.search, Re.decimal_p_s.
  change ("decimal(" +:+ ?x) with ("decimal" +:+ Py.chr "(" +:+ x).
  rewrite re_match_group_app, re_match_chr_app.
  rewrite (re_match_digits_chr ","); [|done..].
  by rewrite (re_match_digits_chr ")").
Qed.

Lemma search_decimal_p P rest :
  Py.all_digits P = true →
  Re.search Re.decimal_p ("decimal(" +:+ P +:+ ")" +:+ rest) = Some ["decimal"; P].
Proof.
  intros HP. unfold Re.search, Re.decimal_p.
  change ("decimal(" +:+ ?x) with ("decimal" +:+ Py.chr "(" +:+ x).
  rewrite re_match_group_app, re_match_chr_app.
  by rewrite (re_match_digits_chr ")").
Qed.

(** [decimal(P)] is not taken for [decimal(P,S)]: after the digits comes
    a closing parenthesis, not a comma. *)
Lemma search_decimal_p_s_none P rest :
  Py.all_digits P = true →
  Re.search Re.decimal_p_s ("decimal(" +:+ P +:+ ")" +:+ rest) = None.
Proof.
  intros HP. unfold Re.search, Re.decimal_p_s.
  change ("decimal(" +:+ ?x) with ("decimal" +:+ Py.chr "(" +:+ x).
  rewrite re_match_group_app, re_match_chr_app.
  by rewrite (re_match_digits_other "," ")").
Qed.

Lemma search_string_n_decimal s :
  Re.search Re.string_n ("decimal(" +:+ s) = None.
Proof. unfold Re.search. by rewrite !append_cons. Qed.

Lemma re_match_chr_Some c p s m :
  Re.re_match (Re.Chr c :: p) s = Some m →
  ∃ s', s = Py.chr c +:+ s' ∧ Re.re_match p s' = Some m.
Proof.
  rewrite re_match_chr. destruct s as [|b s']; [done|].
  destruct (Ascii.eqb_spec c b) as [<-|]; [|done]. by exists s'.
Qed.

Lemma re_match_group_Some lit p s m :
  Re.re_match (Re.Group lit :: p) s = Some m →
  ∃ s' m', s = lit +:+ s' ∧ Re.re_match p s' = Some m' ∧ m = lit :: m'.
Proof.
  rewrite re_match_group.
  destruct (Re.strip_prefix lit s) as [s'|] eqn:E; [|done].
  apply strip_prefix_Some in E as ->.
  destruct (Re.re_match p s') as [m'|] eqn:E'; [|done].
  intros [= <-]. by exists s', m'.
Qed.

Lemma re_match_digits_Some p s m :
  Re.re_match (Re.Digits :: p) s = Some m →
  ∃ N s' m', s = N +:+ s' ∧ Py.all_digits N = true
             ∧ Re.re_match p s' = Some m' ∧ m = N :: m'.
Proof.
  rewrite re_match_digits. intros Hm.
  apply digits_then_Some in Hm as (N & r & m' & -> & HN & Hr & ->).
  by exists N, r, m'.
Qed.

Lemma search_string_n_Some tok m :
  Re.search Re.string_n tok = Some m →
  ∃ N rest, Py.all_digits N = true ∧ tok = "string(" +:+ N +:+ ")" +:+ rest
            ∧ Re.group 2 m = N.
Proof.
  unfold Re.search, Re.string_n. intros Hm.
  apply re_match_group_Some in Hm as (s1 & m1 & -> & Hm & ->).
  apply re_match_chr_Some in Hm as (s2 & -> & Hm).
  apply re_match_digits_Some in Hm as (N & s3 & m3 & -> & HN & Hm & ->).
  apply re_match_chr_Some in Hm as (rest & -> & Hm).
  by exists N, rest.
Qed.

Lemma search_decimal_p_Some tok m :
  Re.search Re.decimal_p tok = Some m →
  ∃ P rest, Py.all_digits P = true ∧ tok = "decimal(" +:+ P +:+ ")" +:+ rest
            ∧ Re.group 2 m = P.
Proof.
  unfold Re.search, Re.decimal_p. intros Hm.
  apply re_match_group_Some in Hm as (s1 & m1 & -> & Hm & ->).
  apply re_match_chr_Some in Hm as (s2 & -> & Hm).
  apply re_match_digits_Some in Hm as (N & s3 & m3 & -> & HN & Hm & ->).
  apply re_match_chr_Some in Hm as (rest & -> & Hm).
  by exists N, rest.
Qed.

Lemma search_decimal_p_s_Some tok m :
  Re.search Re.decimal_p_s tok = Some m →
  ∃ P S rest, Py.all_digits P = true ∧ Py.all_digits S = true
    ∧ tok = "decimal(" +:+ P +:+ "," +:+ S +:+ ")" +:+ rest
    ∧ Re.group 2 m = P ∧ Re.group 3 m = S.
Proof.
  unfold Re.search, Re.decimal_p_s. intros Hm.
  apply re_match_group_Some in Hm as (s1 & m1 & -> & Hm & ->).
  apply re_match_chr_Some in Hm as (s2 & -> & Hm).
  apply re_match_digits_Some in Hm as (P & s3 & m3 & -> & HP & Hm & ->).
  apply re_match_chr_Some in Hm as (s4 & -> & Hm).
  apply re_match_digits_Some in Hm as (S & s5 & m5 & -> & HS & Hm & ->).
  apply re_match_chr_Some in Hm as (rest & -> & Hm).
  by exists P, S, rest.
Qed.

End Patterns.

(** ** The two loops over the columns *)

Section Columns.

(** A loop whose body stores at index [i] a value computed from the
    element read there works on each element by itself. *)
Lemma for_enumerate_pointwise (f : string → result string) body :
  (∀ i x l, l !! i = Some x → body i x l = (t ← f x; Ok (<[i := t]> l))) →
  ∀ todo done fuel, (length todo ≤ fuel)%nat →
    for_enumerate body fuel (length done) (done ++ todo)
    = (l' ← mapM f todo; Ok (done ++ l')).
Proof.
  intros Hbody. induction todo as [|x todo IH]; intros done fuel Hfuel.
  - destruct fuel as [|fuel]; [done|]. simpl.
    by rewrite lookup_ge_None_2 by (rewrite length_app; simpl; lia).
  - destruct fuel as [|fuel]; [simpl in Hfuel; lia|]. simpl in Hfuel.
    assert ((done ++ x :: todo) !! length done = Some x) as Hx
      by by rewrite list_lookup_middle.
    simpl. rewrite Hx, (Hbody _ _ _ Hx).
    destruct (f x) as [t|e]; [|done]. simpl.
    rewrite insert_app_r_alt, Nat.sub_diag by done. simpl.
    replace (S (length done)) with (length (done ++ [t]))
      by (rewrite length_app; simpl; lia).
    rewrite (cons_middle t done todo), app_assoc.
    rewrite IH by lia.
    destruct (mapM f todo) as [l'|e]; [|done]. simpl.
    by rewrite <- app_assoc.
Qed.

Lemma mapM_Ok (g : string → string) l :
  mapM (M := result) (fun x => Ok (g x)) l = Ok (g <$> l).
Proof. induction l as [|x l IH]; [done|]. simpl. by rewrite IH. Qed.

Lemma for_enumerate_mapM (f : string → result string) body l :
  (∀ i x l, l !! i = Some x → body i x l = (t ← f x; Ok (<[i := t]> l))) →
  for_enumerate body (length l) 0 l = mapM f l.
Proof.
  intros Hbody.
  pose proof (for_enumerate_pointwise f body Hbody l [] (length l) (le_n _)) as E.
  simpl in E. rewrite E. by destruct (mapM f l).
Qed.

Lemma map_types_mapM frm : map_types frm = mapM frm_type frm.
Proof. by apply for_enumerate_mapM. Qed.

Lemma rename_offset_fmap atr : rename_offset atr = Ok (column_name <$> atr).
Proof.
  unfold rename_offset.
  rewrite (for_enumerate_mapM (fun x => Ok (column_name x))).
  - apply mapM_Ok.
  - intros i x l Hx. unfold rename_body, column_name. simpl.
    destruct (String.eqb x "offset"); [done|]. by rewrite list_insert_id.
Qed.

Lemma mapM_result_length {A B} (f : A → result B) l l' :
  mapM f l = Ok l' → length l' = length l.
Proof.
  revert l'. induction l as [|x l IH]; intros l' Hl; simpl in Hl.
  - by inversion Hl.
  - destruct (f x) as [y|]; [|done]. simpl in Hl.
    destruct (mapM f l) as [k|]; [|done]. simpl in Hl.
    inversion Hl; subst l'. simpl. by rewrite (IH k).
Qed.

Lemma mapM_result_lookup {A B} (f : A → result B) l l' i x :
  mapM f l = Ok l' → l !! i = Some x → ∃ y, f x = Ok y ∧ l' !! i = Some y.
Proof.
  revert l' i. induction l as [|a l IH]; intros l' i Hl Hi; [done|].
  simpl in Hl. destruct (f a) as [y|] eqn:Ea; [|done]. simpl in Hl.
  destruct (mapM f l) as [k|]; [|done]. simpl in Hl.
  inversion Hl; subst l'. destruct i as [|i]; simpl in Hi.
  - inversion Hi; subst a. by exists y.
  - exact (IH k i eq_refl Hi).
Qed.

End Columns.

(** ** The type of a column *)

Section TypeMapping.

Lemma frm_type_string_n N rest :
  Py.all_digits N = true →
  frm_type ("string(" +:+ N +:+ ")" +:+ rest) = Ok ("varchar(" +:+ N +:+ ")").
Proof. intros HN. unfold frm_type. by rewrite search_string_n. Qed.

Lemma frm_type_decimal_p_s P S rest :
  Py.all_digits P = true → Py.all_digits S = true →
  frm_type ("decimal(" +:+ P +:+ "," +:+ S +:+ ")" +:+ rest)
  = Ok ("numeric(" +:+ P +:+ "," +:+ S +:+ ")").
Proof.
  intros HP HS. unfold frm_type.
  by rewrite search_string_n_decimal, search_decimal_p_s.
Qed.

Lemma int_Ok_digits P p : Py.int P = Ok p → Py.all_digits P = true.
Proof.
  unfold Py.int. destruct P as [|c P]; [done|].
  by destruct (Py.all_digits (String c P)).
Qed.

Lemma int_accepts P :
  Py.all_digits P = true → P ≠ "" →
  (Z.of_nat (String.length P) ≤ Py.int_max_str_digits)%Z →
  Py.int P = Ok (Py.int_go 0 P).
Proof.
  intros HP Hne Hlen. unfold Py.int. destruct P as [|c P]; [done|].
  rewrite HP. by rewrite (proj2 (Z.leb_le _ _) Hlen).
Qed.

Lemma int_refuses P :
  Py.all_digits P = true → refused_precision P →
  ∃ msg, Py.int P = Raise (ValueError msg).
Proof.
  intros HP [->|Hlen]; [by eexists|].
  unfold Py.int. destruct P as [|c P]; [by eexists|].
  rewrite HP. rewrite (proj2 (Z.leb_gt _ _) Hlen). by eexists.
Qed.

Lemma int_Raise P e :
  Py.all_digits P = true → Py.int P = Raise e →
  refused_precision P ∧ ∃ msg, e = ValueError msg.
Proof.
  intros HP. unfold Py.int, refused_precision. destruct P as [|c P].
  - intros [= <-]. split; [by left|by eexists].
  - rewrite HP.
    destruct (Z.leb_spec (Z.of_nat (String.length (String c P))) Py.int_max_str_digits)
      as [Hle|Hgt]; [done|].
    intros [= <-]. split; [by right|by eexists].
Qed.

Lemma frm_type_decimal_p P p rest :
  Py.int P = Ok p →
  frm_type ("decimal(" +:+ P +:+ ")" +:+ rest) = Ok (integer_type P p).
Proof.
  intros Hp. pose proof (int_Ok_digits _ _ Hp) as HP. unfold frm_type.
  rewrite search_string_n_decimal, search_decimal_p_s_none, search_decimal_p
    by done.
  change (Re.group 2 ["decimal"; P]) with P. rewrite Hp. simpl.
  unfold integer_type. by repeat case_match.
Qed.

Lemma frm_type_changed tok t :
  frm_type tok = Ok t → t ≠ tok → prefix_form tok.
Proof.
  unfold frm_type, prefix_form. intros Ht Hne.
  destruct (Re.search Re.string_n tok) as [m|] eqn:E1.
  { apply search_string_n_Some in E1 as (N & rest & ? & ? & ?).
    right; left. by exists N, rest. }
  destruct (Re.search Re.decimal_p_s tok) as [m|] eqn:E2.
  { apply search_decimal_p_s_Some in E2 as (P & S & rest & ? & ? & ? & ?).
    right; right; left. by exists P, S, rest. }
  destruct (Re.search Re.decimal_p tok) as [m|] eqn:E3.
  { apply search_decimal_p_Some in E3 as (P & rest & ? & ? & ?).
    right; right; right. by exists P, rest. }
  destruct (String.eqb_spec tok "string") as [->|]; [by left|].
  by inversion Ht.
Qed.

Lemma frm_type_unconvertible P rest :
  Py.all_digits P = true → refused_precision P →
  ∃ msg, frm_type ("decimal(" +:+ P +:+ ")" +:+ rest) = Raise (ValueError msg).
Proof.
  intros HP Hno. destruct (int_refuses P HP Hno) as [msg Hmsg].
  exists msg. unfold frm_type.
  rewrite search_string_n_decimal, search_decimal_p_s_none, search_decimal_p
    by done.
  change (Re.group 2 ["decimal"; P]) with P. by rewrite Hmsg.
Qed.

Lemma frm_type_decimal_empty_prefix rest :
  frm_type ("decimal()" +:+ rest)
  = Raise (ValueError "invalid literal for int() with base 10: ''").
Proof.
  change ("decimal()" +:+ rest) with ("decimal(" +:+ "" +:+ ")" +:+ rest).
  unfold frm_type.
  by rewrite search_string_n_decimal, search_decimal_p_s_none, search_decimal_p.
Qed.

Lemma frm_type_Raise tok e :
  frm_type tok = Raise e → unconvertible tok ∧ ∃ msg, e = ValueError msg.
Proof.
  unfold frm_type.
  destruct (Re.search Re.string_n tok) as [m|] eqn:E1; [done|].
  destruct (Re.search Re.decimal_p_s tok) as [m|] eqn:E2; [done|].
  destruct (Re.search Re.decimal_p tok) as [m|] eqn:E3; [|done].
  apply search_decimal_p_Some in E3 as (P & rest & HP & Htok & HP2).
  rewrite HP2. destruct (Py.int P) as [p|e'] eqn:Ep.
  - simpl. by repeat case_match.
  - simpl. intros [= <-].
    destruct (int_Raise P e' HP Ep) as [Hno Hmsg].
    split; [by exists P, rest|exact Hmsg].
Qed.

Lemma frm_type_passthrough tok : ¬ prefix_form tok → frm_type tok = Ok tok.
Proof.
  intros Hnot.
  destruct (frm_type tok) as [t|e] eqn:Et.
  - destruct (String.eqb_spec t tok) as [->|Hne]; [done|].
    destruct Hnot. by apply (frm_type_changed tok t).
  - destruct Hnot. revert Et. unfold frm_type, prefix_form.
    destruct (Re.search Re.string_n tok) as [m|] eqn:E1; [done|].
    destruct (Re.search Re.decimal_p_s tok) as [m|] eqn:E2; [done|].
    destruct (Re.search Re.decimal_p tok) as [m|] eqn:E3; [|done].
    apply search_decimal_p_Some in E3 as (P & rest & ? & ? & ?).
    intros _. right; right; right. by exists P, rest.
Qed.

(** The types of a record are all there exactly when each token has
    one. *)
Lemma map_types_Ok_iff frm :
  (∃ types, map_types frm = Ok types) ↔ Forall (fun tok => ¬ unconvertible tok) frm.
Proof.
  rewrite map_types_mapM. induction frm as [|tok frm IH].
  - split; [by constructor|]. intros _. by exists [].
  - simpl. split.
    + intros [types Htypes].
      destruct (frm_type tok) as [t|e] eqn:Et; [|done]. simpl in Htypes.
      destruct (mapM frm_type frm) as [ts|e] eqn:Ets; [|done].
      constructor; [|apply IH; by exists ts].
      intros (P & rest & HP & Hno & ->).
      destruct (frm_type_unconvertible P rest HP Hno) as [msg Hmsg].
      by rewrite Hmsg in Et.
    + intros [Htok Hfrm]%Forall_cons.
      apply IH in Hfrm as [ts ->].
      destruct (frm_type tok) as [t|e] eqn:Et; [by eexists|].
      apply frm_type_Raise in Et as [Hbad _]. by destruct Htok.
Qed.

End TypeMapping.

(** A token with an empty precision is outside the table: the
    conversion of the empty run of digits raises. *)
Example frm_type_decimal_empty :
  frm_type "decimal()" = Raise (ValueError "invalid literal for int() with base 10: ''").
Proof. reflexivity. Qed.

(** C1, as the design document words it, fails: a token that is none of
    the four forms is not always passed through.  [decimal(4)x] is not
    [decimal(P)] for any digits [P], and its column gets the type
    [smallint]. *)
Lemma C1_trailing_text_is_dropped :
  ¬ whole_form "decimal(4)x" ∧ frm_type "decimal(4)x" = Ok "smallint"
  ∧ frm_type "decimal(4)x" ≠ Ok "decimal(4)x".
Proof.
  split; [|by split].
  intros [H | [(N & HN & H) | [(P & S & HP & HS & H) | (P & HP & H)]]].
  - done.
  - by rewrite !append_cons in H.
  - pose proof (search_decimal_p_s P S "" HP HS) as E.
    change (")" +:+ "") with ")" in E. by rewrite <- H in E.
  - pose proof (search_decimal_p P "" HP) as E.
    change (")" +:+ "") with ")" in E. rewrite <- H in E.
    vm_compute in E. injection E as <-. done.
Qed.

(** C1, amended: the type of a column is a function of its token alone,
    the patterns being tried in the order [string(N)], [decimal(P,S)],
    [decimal(P)] on the START of the token.  [string] gives [varchar]; a
    token that starts with [string(N)] gives [varchar(N)]; one that starts
    with [decimal(P,S)] gives [numeric(P,S)]; one that starts with
    [decimal(P)], [P] a run of one to 4300 digits, gives [smallint] for
    P<=4, [integer] for P<=10, [bigint] for P<=18 and [numeric(P)] beyond;
    what follows the closing parenthesis is dropped.  A token that starts
    with [decimal()], or with [decimal(P)] for more than 4300 digits, gets
    no type: [int] refuses the precision with a [ValueError].  Every token
    that starts with none of these forms is passed through unchanged.  The
    seven entries of the table hold. *)
Theorem C1_type_mapping_by_prefix :
  (∀ frm, map_types frm = mapM frm_type frm)
  ∧ frm_type "string" = Ok "varchar"
  ∧ (∀ N rest, Py.all_digits N = true →
       frm_type ("string(" +:+ N +:+ ")" +:+ rest) = Ok ("varchar(" +:+ N +:+ ")"))
  ∧ (∀ P S rest, Py.all_digits P = true → Py.all_digits S = true →
       frm_type ("decimal(" +:+ P +:+ "," +:+ S +:+ ")" +:+ rest)
       = Ok ("numeric(" +:+ P +:+ "," +:+ S +:+ ")"))
  ∧ (∀ P p rest, Py.int P = Ok p →
       frm_type ("decimal(" +:+ P +:+ ")" +:+ rest)
       = Ok (if (p <=? 4)%Z then "smallint"
             else if (p <=? 10)%Z then "integer"
             else if (p <=? 18)%Z then "bigint"
             else "numeric(" +:+ P +:+ ")"))
  ∧ (∀ P, Py.all_digits P = true → P ≠ "" →
       (Z.of_nat (String.length P) ≤ 4300)%Z → Py.int P = Ok (Py.int_go 0 P))
  ∧ (∀ rest, frm_type ("decimal()" +:+ rest)
             = Raise (ValueError "invalid literal for int() with base 10: ''"))
  ∧ (∀ P rest, Py.all_digits P = true → (4300 < Z.of_nat (String.length P))%Z →
       ∃ msg, frm_type ("decimal(" +:+ P +:+ ")" +:+ rest) = Raise (ValueError msg))
  ∧ (∀ tok, ¬ prefix_form tok → frm_type tok = Ok tok)
  ∧ frm_type "decimal(4)" = Ok "smallint"
  ∧ frm_type "decimal(10)" = Ok "integer"
  ∧ frm_type "decimal(18)" = Ok "bigint"
  ∧ frm_type "decimal(19)" = Ok "numeric(19)"
  ∧ frm_type "decimal(5,2)" = Ok "numeric(5,2)"
  ∧ frm_type "string(10)" = Ok "varchar(10)".
Proof.
  split; [exact map_types_mapM|].
  split; [done|].
  split; [exact frm_type_string_n|].
  split; [exact frm_type_decimal_p_s|].
  split; [exact frm_type_decimal_p|].
  split; [exact int_accepts|].
  split; [exact frm_type_decimal_empty_prefix|].
  split.
  { intros P rest HP Hlen. apply frm_type_unconvertible; [done|by right]. }
  split; [exact frm_type_passthrough|].
  by repeat split.
Qed.

(** The amended C1 at [string(10)], [decimal(8,2) not null], [decimal(12)],
    [integer], and at a precision of 4301 digits. *)
Lemma C1_type_mapping_by_prefix_witness :
  frm_type ("string(" +:+ "10" +:+ ")" +:+ "") = Ok ("varchar(" +:+ "10" +:+ ")")
  ∧ frm_type ("decimal(" +:+ "8" +:+ "," +:+ "2" +:+ ")" +:+ " not null")
    = Ok ("numeric(" +:+ "8" +:+ "," +:+ "2" +:+ ")")
  ∧ frm_type ("decimal(" +:+ "12" +:+ ")" +:+ "") = Ok "bigint"
  ∧ Py.int "0012" = Ok 12%Z
  ∧ (∃ msg, frm_type ("decimal(" +:+ Demo.long_precision +:+ ")" +:+ "")
            = Raise (ValueError msg))
  ∧ frm_type "integer" = Ok "integer".
Proof.
  destruct C1_type_mapping_by_prefix
    as (_ & _ & Hs & Hps & Hp & Hint & _ & Hlong & Hpass & _).
  split; [by apply Hs|].
  split; [by apply Hps|].
  split; [by apply (Hp "12" 12%Z)|].
  split; [by apply (Hint "0012")|].
  split; [apply (Hlong Demo.long_precision ""); by vm_compute|].
  apply (Hpass "integer").
  intros [H | [(N & r & _ & H) | [(P & S & r & _ & _ & H) | (P & r & _ & H)]]];
    [|rewrite !append_cons in H..]; discriminate H.
Defined.

(** ** The two generators on files *)

Section Generators.

Lemma prefix_cons a p b s :
  String.prefix (String a p) (String b s)
  = if ascii_dec a b then String.prefix p s else false.
Proof. reflexivity. Qed.

Lemma startswith_rec line :
  Py.startswith line "rec;" = true →
  Py.startswith line "tbl;" = false ∧ Py.startswith line "atr;" = false.
Proof.
  unfold Py.startswith. destruct line as [|c line]; [done|].
  rewrite !prefix_cons. destruct (ascii_dec "r" c) as [<-|]; [|done].
  intros _. split.
  - by destruct (ascii_dec "t" "r").
  - by destruct (ascii_dec "a" "r").
Qed.

(** Without a sink, the loop of [create_csv] writes nothing, and it stops
    at the first [atr] or [rec] line. *)
Lemma create_csv_loop_no_sink file_txt pre line post fs :
  Py.startswith line "rec;" = true →
  Forall (fun l => Py.startswith l "tbl;" = false) pre →
  create_csv_loop file_txt (pre ++ line :: post) None fs
  = (fs, Raise (UnboundLocalError "file_csv")).
Proof.
  intros Hrec. induction pre as [|l pre IH]; intros Hpre.
  - apply startswith_rec in Hrec as Hno. destruct Hno as [Ht Ha].
    simpl. by rewrite Ht, Ha, Hrec.
  - apply Forall_cons in Hpre as [Hl Hpre]. simpl. rewrite Hl.
    destruct (Py.startswith l "atr;"); [done|].
    destruct (Py.startswith l "rec;"); [done|].
    by apply IH.
Qed.

End Generators.


(** C4: when a [rec] line comes before any [tbl] line, [create_csv] fails:
    the write to the sink that was never opened raises (Python's
    [UnboundLocalError] for [file_csv]), and no file is created or
    changed. *)
Theorem C4_rec_before_tbl file_txt (fs : files) bytes pre line post :
  fs !! file_txt = Some bytes →
  Py.lines (Py.universal_newlines bytes) = pre ++ line :: post →
  Py.startswith line "rec;" = true →
  Forall (fun l => Py.startswith l "tbl;" = false) pre →
  create_csv file_txt fs = (fs, Raise (UnboundLocalError "file_csv")).
Proof.
  intros Hfile Hlines Hrec Hpre. unfold create_csv, read_lines.
  unfold mbind, M_bind. rewrite Hfile, Hlines.
  by rewrite create_csv_loop_no_sink.
Qed.

(** C4 on a file whose first line is a data row. *)
Lemma C4_rec_before_tbl_witness :
  create_csv "gip/h.txt" Demo.headless_fs
  = (Demo.headless_fs, Raise (UnboundLocalError "file_csv")).
Proof.
  apply (C4_rec_before_tbl "gip/h.txt" Demo.headless_fs
           ("rec;1;2" +:+ Demo.nl +:+ "tbl;h" +:+ Demo.nl)
           [] ("rec;1;2" +:+ Demo.nl) ["tbl;h" +:+ Demo.nl]).
  - by vm_compute.
  - by vm_compute.
  - by vm_compute.
  - constructor.
Defined.

(** ** The statement *)

Section Statement.

Lemma sql_of_columns tbl atr frm types :
  map_types frm = Ok types →
  sql_of (Some tbl) (Some atr) (Some frm)
  = Ok ("CREATE TABLE gip_" +:+ tbl +:+ " (" +:+
        Py.join ", " (columns_of (column_name <$> atr) types) +:+ ");").
Proof.
  intros Htypes. unfold sql_of. simpl.
  rewrite rename_offset_fmap. simpl. by rewrite Htypes.
Qed.

Lemma columns_of_length atr frm types :
  map_types frm = Ok types →
  length (columns_of (column_name <$> atr) types)
  = Nat.min (length atr) (length frm).
Proof.
  intros Htypes. rewrite map_types_mapM in Htypes.
  apply mapM_result_length in Htypes.
  unfold columns_of. by rewrite length_zip_with, length_fmap, Htypes.
Qed.

Lemma columns_of_lookup atr frm types i a t :
  map_types frm = Ok types → atr !! i = Some a → frm !! i = Some t →
  ∃ ty, frm_type t = Ok ty
    ∧ columns_of (column_name <$> atr) types !! i
      = Some (column_name a +:+ " " +:+ ty).
Proof.
  intros Htypes Ha Ht. rewrite map_types_mapM in Htypes.
  destruct (mapM_result_lookup _ _ _ _ _ Htypes Ht) as (ty & Hty & Hi).
  exists ty. split; [done|]. unfold columns_of.
  by rewrite lookup_zip_with, list_lookup_fmap, Ha, Hi.
Qed.

End Statement.

(** C5, as stated, fails: with an [atr] record of two fields and a [frm]
    record of one, [create_sql] raises nothing and writes a statement with
    one column. *)
Lemma C5_uneven_counts_accepted :
  (create_sql_loop "gip/t.txt" (Py.lines (Py.universal_newlines Demo.uneven_txt))
     no_locals Demo.uneven_fs).2
  = Ok {| file_sql := Some "gip/t.sql"; tbl := Some "t";
          atr := Some ["a"; "b"]; frm := Some ["string"] |}
  ∧ create_sql "gip/t.txt" Demo.uneven_fs
    = (<["gip/t.sql" := "CREATE TABLE gip_t (a varchar);"]> Demo.uneven_fs, Ok tt).
Proof. by vm_compute. Qed.

(** ** Computations and the call log *)

Section Monad.

Context {W : Type}.

Lemma bind_eq {A B} (m : M W A) (f : A → M W B) w :
  (m ≫= f) w =
  match m w with
  | (w', Ok a) => f a w'
  | (w', Raise e) => (w', Raise e)
  end.
Proof. reflexivity. Qed.

Lemma bind_Ok {A B} (m : M W A) (f : A → M W B) w w' b :
  (m ≫= f) w = (w', Ok b) → ∃ w1 a, m w = (w1, Ok a) ∧ f a w1 = (w', Ok b).
Proof.
  rewrite bind_eq. destruct (m w) as [w1 [a|e]]; [|done].
  intros Hf. by exists w1, a.
Qed.

End Monad.

Section Log.

Context `{Collaborators Ext}.

Lemma invoke_calls {R} (c : call R) (w w' : world Ext) r :
  invoke c w = (w', r) → calls w' = calls w ++ [called c].
Proof.
  unfold invoke. destruct (respond R c (fs w, ext w)) as [[fs' ext'] r'].
  by intros [= <- _].
Qed.

Lemma invoke_respond {R} (c : call R) (w w' : world Ext) r :
  invoke c w = (w', r) → respond R c (state_of w) = (state_of w', r).
Proof.
  unfold invoke, state_of.
  destruct (respond R c (fs w, ext w)) as [[fs' ext'] r'].
  by intros [= <- <-].
Qed.

Lemma respond_invoke {R} (c : call R) (w : world Ext) σ r :
  respond R c (state_of w) = (σ, r) →
  invoke c w = (World σ.1 σ.2 (calls w ++ [called c]), r).
Proof. unfold invoke, state_of. intros ->. by destruct σ. Qed.

Lemma logs_ret {A} P (a : A) : logs (Ext := Ext) P (mret a).
Proof. intros w w' r [= <- _]. exists []. by rewrite app_nil_r. Qed.

Lemma logs_raise {A} P e : logs (Ext := Ext) (A := A) P (raise e).
Proof. intros w w' r [= <- _]. exists []. by rewrite app_nil_r. Qed.

Lemma logs_invoke {R} (P : sigT call → Prop) (c : call R) :
  P (called c) → logs (Ext := Ext) P (invoke c).
Proof.
  intros HP w w' r Hw. exists [called c]. split; [by eapply invoke_calls|].
  by constructor.
Qed.

Lemma logs_bind {A B} P (m : M (world Ext) A) (f : A → M (world Ext) B) :
  logs P m → (∀ a, logs P (f a)) → logs P (m ≫= f).
Proof.
  intros Hm Hf w w' r. rewrite bind_eq.
  destruct (m w) as [w1 [a|e]] eqn:E.
  - intros Hfa. destruct (Hm _ _ _ E) as (n1 & E1 & H1).
    destruct (Hf a _ _ _ Hfa) as (n2 & E2 & H2).
    exists (n1 ++ n2). split; [by rewrite E2, E1, app_assoc|].
    by apply Forall_app.
  - intros [= <- <-]. by apply (Hm _ _ _ E).
Qed.

Lemma logs_weaken {A} (P Q : sigT call → Prop) (m : M (world Ext) A) :
  (∀ c, P c → Q c) → logs P m → logs Q m.
Proof.
  intros HPQ Hm w w' r Hw. destruct (Hm _ _ _ Hw) as (new & E & Hnew).
  exists new. split; [done|]. by eapply Forall_impl.
Qed.

Lemma logs_on_success_invoke {R} (c : call R) :
  logs_on_success (Ext := Ext) (called c) (invoke c).
Proof.
  intros w w' a Hw. exists [called c]. split; [by eapply invoke_calls|].
  by apply list_elem_of_singleton.
Qed.

Lemma logs_on_success_bind_l {A B} c (m : M (world Ext) A) (f : A → M (world Ext) B) :
  logs_on_success c m → (∀ a, logs any_call (f a)) → logs_on_success c (m ≫= f).
Proof.
  intros Hm Hf w w' b Hw. apply bind_Ok in Hw as (w1 & a & Hm1 & Hf1).
  destruct (Hm _ _ _ Hm1) as (n1 & E1 & H1).
  destruct (Hf a _ _ _ Hf1) as (n2 & E2 & _).
  exists (n1 ++ n2). split; [by rewrite E2, E1, app_assoc|].
  apply elem_of_app. by left.
Qed.

Lemma logs_on_success_bind_r {A B} c (m : M (world Ext) A) (f : A → M (world Ext) B) :
  logs any_call m → (∀ a, logs_on_success c (f a)) → logs_on_success c (m ≫= f).
Proof.
  intros Hm Hf w w' b Hw. apply bind_Ok in Hw as (w1 & a & Hm1 & Hf1).
  destruct (Hm _ _ _ Hm1) as (n1 & E1 & _).
  destruct (Hf a _ _ _ Hf1) as (n2 & E2 & H2).
  exists (n1 ++ n2). split; [by rewrite E2, E1, app_assoc|].
  apply elem_of_app. by right.
Qed.

End Log.

(** ** The download *)

Section Download.

Context `{Collaborators Ext}.
Variable self : DbStep.

Lemma download_loop_cons q_str endpoint rest (w : world Ext) :
  download_loop self q_str (endpoint :: rest) w =
  match invoke (urlretrieve (download_url endpoint q_str) (download_target self)) w with
  | (w', Raise _) => download_loop self q_str rest w'
  | (w', Ok _) => (w', Ok true)
  end.
Proof.
  simpl. rewrite bind_eq. unfold attempt.
  destruct (invoke _ w) as [w' [[file_name headers]|e]]; [done|].
  by destruct e.
Qed.

Lemma download_loop_after_failures q_str pre rest (w w1 : world Ext) :
  after_failures self q_str pre w = Some w1 →
  download_loop self q_str (pre ++ rest) w = download_loop self q_str rest w1.
Proof.
  revert w. induction pre as [|e pre IH]; intros w Hw.
  - by inversion Hw.
  - rewrite <- app_comm_cons, download_loop_cons. simpl in Hw.
    destruct (invoke _ w) as [w' [file|ex]]; [done|]. by apply IH.
Qed.

Lemma after_failures_calls q_str pre (w w1 : world Ext) :
  after_failures self q_str pre w = Some w1 →
  calls w1 = calls w ++ attempts self q_str pre.
Proof.
  revert w. induction pre as [|e pre IH]; intros w Hw.
  - inversion Hw. by rewrite app_nil_r.
  - simpl in Hw.
    destruct (invoke _ w) as [w' [file|ex]] eqn:E; [done|].
    rewrite (IH _ Hw), (invoke_calls _ _ _ _ E).
    unfold attempts. by rewrite fmap_cons, <- app_assoc.
Qed.

(** The loop never raises; it gives [False] only when every endpoint has
    been asked and has raised. *)
Lemma download_loop_result q_str endpoints (w w' : world Ext) r :
  download_loop self q_str endpoints w = (w', r) →
  r = Ok true ∨ (r = Ok false ∧ after_failures self q_str endpoints w = Some w').
Proof.
  revert w. induction endpoints as [|e endpoints IH]; intros w.
  - intros [= <- <-]. by right.
  - rewrite download_loop_cons. simpl.
    destruct (invoke _ w) as [w1 [file|ex]]; [|by apply IH].
    intros [= <- <-]. by left.
Qed.

End Download.

(** C3: the query is built once from the bounding box.  When the
    endpoints up to some endpoint [e] all fail and [e] delivers, the
    acquisition returns in the world that the download from [e] left, the
    file written by that download included; the downloads asked for are
    those of the failed endpoints and of [e], in the order of the list and
    each with the same query, and none of the endpoints after [e].  When
    every endpoint fails the acquisition raises the exception that the
    download was not successful, after having asked each endpoint once. *)
Theorem C3_endpoint_failover `{Collaborators Ext} (self : DbStep) bbox (w : world Ext) :
  let q_str := Py.replace "__bbox__" bbox q_template in
  let endpoints := overpass_api_endpoints (global_settings self) in
  (∀ pre e post w1 w2 file,
     endpoints = pre ++ e :: post →
     after_failures self q_str pre w = Some w1 →
     invoke (urlretrieve (download_url e q_str) (download_target self)) w1
     = (w2, Ok file) →
     _load_osm_from_bbox self bbox w = (w2, Ok tt)
     ∧ calls w2 = calls w ++ attempts self q_str (pre ++ [e]))
  ∧ (∀ w1,
     after_failures self q_str endpoints w = Some w1 →
     _load_osm_from_bbox self bbox w
     = (w1, Raise (Exception "OSM data download was not successful. Terminating."))
     ∧ calls w1 = calls w ++ attempts self q_str endpoints).
Proof.
  intros q_str endpoints. split.
  - intros pre e post w1 w2 file Hsplit Hpre He. split.
    + unfold _load_osm_from_bbox. fold q_str. fold endpoints.
      rewrite bind_eq, Hsplit.
      rewrite (download_loop_after_failures _ _ _ _ _ _ Hpre).
      by rewrite download_loop_cons, He.
    + rewrite (invoke_calls _ _ _ _ He), (after_failures_calls _ _ _ _ _ Hpre).
      unfold attempts. by rewrite fmap_app, <- app_assoc.
  - intros w1 Hall. split; [|by apply after_failures_calls].
    unfold _load_osm_from_bbox. fold q_str. fold endpoints.
    rewrite bind_eq.
    replace endpoints with (endpoints ++ []) by apply app_nil_r.
    by rewrite (download_loop_after_failures _ _ _ _ _ _ Hall).
Qed.

(** C3 with four endpoints, of which the first two fail and the third
    delivers, and with two endpoints that both fail. *)
Lemma C3_endpoint_failover_witness :
  (_load_osm_from_bbox Demo.importer "47.7,12.9,47.9,13.2" Demo.start).2 = Ok tt
  ∧ (_load_osm_from_bbox Demo.offline "47.7,12.9,47.9,13.2" Demo.start).2
    = Raise (Exception "OSM data download was not successful. Terminating.").
Proof.
  set (bbox := "47.7,12.9,47.9,13.2").
  set (q_str := Py.replace "__bbox__" bbox q_template).
  split.
  - destruct (after_failures Demo.importer q_str
                ["http://a.example/api"; "http://b.example/api"] Demo.start)
      as [w1|] eqn:E1; [|by vm_compute in E1].
    destruct (invoke (urlretrieve (download_url "http://c.example/api" q_str)
                        (download_target Demo.importer)) w1)
      as [w2 [file|ex]] eqn:E2.
    + destruct (C3_endpoint_failover Demo.importer bbox Demo.start) as [Hok _].
      destruct (Hok ["http://a.example/api"; "http://b.example/api"]
                  "http://c.example/api" ["http://d.example/api"] w1 w2 file
                  eq_refl E1 E2) as [-> _].
      reflexivity.
    + vm_compute in E1. injection E1 as <-. by vm_compute in E2.
  - destruct (after_failures Demo.offline q_str
                (overpass_api_endpoints (global_settings Demo.offline)) Demo.start)
      as [w1|] eqn:E1; [|by vm_compute in E1].
    destruct (C3_endpoint_failover Demo.offline bbox Demo.start) as [_ Hall].
    destruct (Hall w1 E1) as [-> _]. reflexivity.
Defined.

(** C9: an attempt that raises, whatever the exception, is followed by
    the attempt at the next endpoint, in the world the failed attempt
    left; the loop itself raises nothing.  The only exception the
    acquisition lets out is the one that the download was not successful,
    and by then every endpoint has been asked and has raised. *)
Theorem C9_every_exception_is_caught `{Collaborators Ext} (self : DbStep) :
  (∀ q_str endpoint rest (w w' : world Ext) e,
     invoke (urlretrieve (download_url endpoint q_str) (download_target self)) w
     = (w', Raise e) →
     download_loop self q_str (endpoint :: rest) w = download_loop self q_str rest w')
  ∧ (∀ q_str endpoints (w w' : world Ext) r,
     download_loop self q_str endpoints w = (w', r) → ∃ success, r = Ok success)
  ∧ (∀ bbox (w w' : world Ext) e,
     _load_osm_from_bbox self bbox w = (w', Raise e) →
     e = Exception "OSM data download was not successful. Terminating."
     ∧ after_failures self (Py.replace "__bbox__" bbox q_template)
         (overpass_api_endpoints (global_settings self)) w = Some w').
Proof.
  split; [|split].
  - intros q_str endpoint rest w w' e He. by rewrite download_loop_cons, He.
  - intros q_str endpoints w w' r Hr.
    destruct (download_loop_result _ _ _ _ _ _ Hr) as [->|[-> _]]; by eexists.
  - intros bbox w w' e. unfold _load_osm_from_bbox. rewrite bind_eq.
    destruct (download_loop _ _ _ w) as [w1 r] eqn:E.
    destruct (download_loop_result _ _ _ _ _ _ E) as [->|[-> Hall]]; [done|].
    simpl. by intros [= <- <-].
Qed.

(** C9 on the two kinds of failure of the installation: an HTTP error
    and a time-out. *)
Lemma C9_every_exception_is_caught_witness :
  (_load_osm_from_bbox Demo.importer "1,2,3,4" Demo.start).2 = Ok tt
  ∧ ∃ w', _load_osm_from_bbox Demo.offline "1,2,3,4" Demo.start
          = (w', Raise (Exception "OSM data download was not successful. Terminating.")).
Proof.
  split; [by vm_compute|].
  destruct (_load_osm_from_bbox Demo.offline "1,2,3,4" Demo.start) as [w' r] eqn:E.
  destruct r as [[]|e]; [by vm_compute in E|].
  destruct (C9_every_exception_is_caught Demo.offline) as (_ & _ & Hexn).
  destruct (Hexn "1,2,3,4" Demo.start w' e E) as [-> _]. by exists w'.
Defined.

(** ** The derived files of a task *)

(** C6: when the data file of a task is already there, the step that
    ensures it returns at once in the same world: no file is read, created
    or changed, whatever the file holds and whether or not the source is
    there or well formed; the same for the schema file. *)
Theorem C6_existing_artifact_is_kept `{Collaborators Ext} (self : DbStep)
    filename_A file (w : world Ext) :
  (isfile (csv_path self filename_A file) (fs w) = true →
   ensure_data_file self filename_A file w = (w, Ok tt))
  ∧ (isfile (sql_path self filename_A file) (fs w) = true →
     ensure_schema_file self filename_A file w = (w, Ok tt)).
Proof.
  split; intros Hfile.
  - unfold ensure_data_file. rewrite bind_eq. unfold gets. by rewrite Hfile.
  - unfold ensure_schema_file. rewrite bind_eq. unfold gets. by rewrite Hfile.
Qed.

(** C6 on the first task, with both derived files present and the source
    file absent. *)
Lemma C6_existing_artifact_is_kept_witness :
  ensure_data_file Demo.importer "gip.zip"
    {| task_filename := "BikeHike.txt"; task_table := "gip_bikehike";
       task_columns := ["use_id"] |} Demo.cached = (Demo.cached, Ok tt)
  ∧ ensure_schema_file Demo.importer "gip.zip"
      {| task_filename := "BikeHike.txt"; task_table := "gip_bikehike";
         task_columns := ["use_id"] |} Demo.cached = (Demo.cached, Ok tt).
Proof.
  destruct (C6_existing_artifact_is_kept Demo.importer "gip.zip"
              {| task_filename := "BikeHike.txt"; task_table := "gip_bikehike";
                 task_columns := ["use_id"] |} Demo.cached) as [Hcsv Hsql].
  split; [apply Hcsv | apply Hsql]; reflexivity.
Defined.

(** Without the derived file the step does run the generator: here the
    source is missing, and the generator raises. *)
Example ensure_data_file_absent :
  (ensure_data_file Demo.importer "gip.zip"
     {| task_filename := "Link.txt"; task_table := "gip_link";
        task_columns := ["link_id"] |} Demo.cached).2
  = Raise (FileNotFoundError "data/gip/Link.txt").
Proof. by vm_compute. Qed.

(** ** The dataset builder *)

Section Builder.

Context `{Collaborators Ext}.
Variable self : DbStep.

Lemma create_dataset_skip name sql (w w' : world Ext) :
  invoke (db_handle_conflicting_output_tables [name] (data_schema self)) w
  = (w', Ok false) →
  create_dataset self name sql w = (w', Ok tt).
Proof. intros Hcheck. unfold create_dataset. by rewrite bind_eq, Hcheck. Qed.

Lemma create_datasets_all (w : world Ext) :
  create_datasets self w = create_all self datasets w.
Proof.
  unfold create_datasets, datasets. simpl. rewrite !bind_eq.
  repeat match goal with
  | |- context [create_dataset self ?n ?q ?w0] =>
      destruct (create_dataset self n q w0) as [? [[]|?]]; try done;
      rewrite ?bind_eq
  end.
Qed.

Variable present : string → files * Ext → Prop.
Hypothesis laws : reports_existing_tables (data_schema self) present.

Lemma create_dataset_done name sql (w w' : world Ext) :
  (name, sql) ∈ datasets →
  create_dataset self name sql w = (w', Ok tt) →
  present name (state_of w')
  ∧ ∀ m, present m (state_of w) → present m (state_of w').
Proof.
  intros Hin. unfold create_dataset. rewrite bind_eq.
  destruct (invoke _ w) as [w1 [go|e]] eqn:E1; [|done].
  apply invoke_respond in E1. destruct go.
  - rewrite bind_eq.
    destruct (invoke (db_execute _ _) w1) as [w2 [[]|e]] eqn:E2; [|done].
    intros E3. apply invoke_respond in E2, E3. split.
    + eapply (builder_keeps _ _ laws _ db_commit); [done|exact E3|].
      by eapply (execute_creates _ _ laws).
    + intros m Hm.
      eapply (builder_keeps _ _ laws _ db_commit); [done|exact E3|].
      eapply (builder_keeps _ _ laws _ (db_execute _ _)); [done|exact E2|].
      by eapply (builder_keeps _ _ laws _ (db_handle_conflicting_output_tables _ _)).
  - intros [= <-]. split.
    + by eapply (check_skipped _ _ laws).
    + intros m Hm.
      by eapply (builder_keeps _ _ laws _ (db_handle_conflicting_output_tables _ _)).
Qed.

Lemma create_dataset_present name sql (w : world Ext) :
  present name (state_of w) →
  ∃ w', create_dataset self name sql w = (w', Ok tt)
    ∧ calls w' = calls w
        ++ [called (db_handle_conflicting_output_tables [name] (data_schema self))]
    ∧ ∀ m, present m (state_of w) → present m (state_of w').
Proof.
  intros Hname.
  destruct (check_existing _ _ laws _ _ Hname) as [[fs' ext'] Hcheck].
  pose proof (respond_invoke _ _ _ _ Hcheck) as Hinv.
  eexists. split; [by apply create_dataset_skip|]. split; [done|].
  intros m Hm.
  by eapply (builder_keeps _ _ laws _ (db_handle_conflicting_output_tables _ _)).
Qed.

Lemma create_all_done ds (w w1 : world Ext) :
  (∀ d, d ∈ ds → d ∈ datasets) →
  create_all self ds w = (w1, Ok tt) →
  (∀ d, d ∈ ds → present d.1 (state_of w1))
  ∧ ∀ m, present m (state_of w) → present m (state_of w1).
Proof.
  revert w. induction ds as [|[name sql] ds IH]; intros w Hsub.
  - intros [= <-]. split; [|done]. intros d Hd. by apply elem_of_nil in Hd.
  - simpl. intros Hrun. apply bind_Ok in Hrun as (w0 & [] & Hfirst & Hrest).
    apply create_dataset_done in Hfirst as [Hname Hkeep0];
      [|apply Hsub; by left].
    apply IH in Hrest as [Hds Hkeep]; [|intros d Hd; apply Hsub; by right].
    split; [|by auto].
    intros d [->|Hd]%elem_of_cons; [by apply Hkeep|by apply Hds].
Qed.

Lemma create_all_again ds (w : world Ext) :
  (∀ d, d ∈ ds → present d.1 (state_of w)) →
  ∃ w2, create_all self ds w = (w2, Ok tt)
    ∧ calls w2 = calls w
        ++ ((fun d : string * string =>
               called (db_handle_conflicting_output_tables [d.1] (data_schema self)))
            <$> ds)
    ∧ ∀ m, present m (state_of w) → present m (state_of w2).
Proof.
  revert w. induction ds as [|[name sql] ds IH]; intros w Hds.
  - exists w. by rewrite app_nil_r.
  - destruct (create_dataset_present name sql w) as (w0 & Hrun & Hcalls & Hkeep);
      [apply (Hds (name, sql)); by left|].
    destruct (IH w0) as (w2 & Hrest & Hcalls2 & Hkeep2);
      [intros d Hd; apply Hkeep, Hds; by right|].
    exists w2. split; [|split].
    + simpl. by rewrite bind_eq, Hrun.
    + by rewrite Hcalls2, Hcalls, fmap_cons, <- app_assoc.
    + by auto.
Qed.

End Builder.

(** C7: when the conflict check of a dataset answers [False], its block
    makes no other call: no statement is executed (no table and no index is
    created) and nothing is committed.  With a conflict check that reports
    existing tables correctly, after one run of the builder that returned
    each of the five tables exists, and a second run with no drop in
    between returns having made the five checks and nothing else, so each
    dataset is there once. *)
Theorem C7_datasets_built_once `{Collaborators Ext} (self : DbStep) :
  (∀ name sql (w w' : world Ext),
     invoke (db_handle_conflicting_output_tables [name] (data_schema self)) w
     = (w', Ok false) →
     create_dataset self name sql w = (w', Ok tt)
     ∧ calls w' = calls w
         ++ [called (db_handle_conflicting_output_tables [name] (data_schema self))])
  ∧ (∀ present, reports_existing_tables (data_schema self) present →
     ∀ w w1 : world Ext, create_datasets self w = (w1, Ok tt) →
       (∀ d, d ∈ datasets → present d.1 (state_of w1))
       ∧ ∃ w2, create_datasets self w1 = (w2, Ok tt)
           ∧ calls w2 = calls w1 ++ dataset_checks (data_schema self)
           ∧ ∀ d, d ∈ datasets → present d.1 (state_of w2)).
Proof.
  split.
  - intros name sql w w' Hcheck. split; [by apply create_dataset_skip|].
    by eapply invoke_calls.
  - intros present laws w w1. rewrite create_datasets_all. intros Hrun.
    apply (create_all_done self present laws) in Hrun as [Hall _]; [|done].
    split; [done|].
    destruct (create_all_again self present laws datasets w1 Hall)
      as (w2 & Hagain & Hcalls & Hkeep).
    exists w2. rewrite create_datasets_all. by auto.
Qed.

(** The conflict check of the small installation reports existing tables
    correctly. *)
Lemma demo_find_dataset d :
  d ∈ datasets → find (fun d' : string * string => String.eqb d'.2 d.2) datasets = Some d.
Proof.
  unfold datasets. rewrite !elem_of_cons, elem_of_nil.
  intros [->|[->|[->|[->|[->|[]]]]]]; by vm_compute.
Qed.

Lemma demo_reports_existing_tables schema :
  reports_existing_tables schema Demo.present.
Proof.
  split.
  - intros n [fs tables] Hn. exists (fs, tables).
    unfold respond, Demo.collaborators, Demo.present in *. simpl in *.
    by rewrite bool_decide_eq_true_2.
  - intros n [fs tables] σ'.
    unfold respond, Demo.collaborators, Demo.present. simpl.
    intros [= <- Hb]. simpl. rewrite orb_false_r in Hb.
    apply negb_false_iff in Hb. by apply bool_decide_eq_true_1 in Hb.
  - intros n sql params [fs tables] σ' Hin.
    unfold respond, Demo.collaborators, Demo.present.
    pose proof (demo_find_dataset (n, sql) Hin) as Hfind.
    change (find (fun d' : string * string => String.eqb d'.2 sql) datasets
            = Some (n, sql)) in Hfind.
    rewrite Hfind. intros [= <-]. simpl. by left.
  - intros R c [fs tables] σ' r m Hc.
    unfold Demo.present. destruct c; try done.
    + unfold respond, Demo.collaborators.
      destruct (find _ datasets) as [d|]; intros [= <- _]; simpl; [|done].
      intros Hm. by right.
    + unfold respond, Demo.collaborators. by intros [= <- _].
    + unfold respond, Demo.collaborators. by intros [= <- _].
Qed.

(** C7 on the small installation, from an empty database. *)
Lemma C7_datasets_built_once_witness :
  ∃ w1 w2,
    create_datasets Demo.importer Demo.start = (w1, Ok tt)
    ∧ create_datasets Demo.importer w1 = (w2, Ok tt)
    ∧ calls w2 = calls w1 ++ dataset_checks "data".
Proof.
  destruct (create_datasets Demo.importer Demo.start) as [w1 r] eqn:E.
  destruct r as [[]|e]; [|by vm_compute in E].
  destruct (C7_datasets_built_once Demo.importer) as [_ Htwice].
  destruct (Htwice Demo.present (demo_reports_existing_tables "data")
              Demo.start w1 E) as (_ & w2 & Hagain & Hcalls & _).
  exists w1, w2. by auto.
Defined.

(** ** The run of the OSM importer with a file *)

Section WithFile.

Context `{Collaborators Ext}.
Variable self : DbStep.



Lemma logs_on_success_bind_val {A B} c (V : A → Prop)
    (m : M (world Ext) A) (f : A → M (world Ext) B) :
  logs any_call m → (∀ w w' a, m w = (w', Ok a) → V a) →
  (∀ a, V a → logs_on_success c (f a)) → logs_on_success c (m ≫= f).
Proof.
  intros Hm HV Hf w w' b Hw. apply bind_Ok in Hw as (w1 & a & Hm1 & Hf1).
  destruct (Hm _ _ _ Hm1) as (n1 & E1 & _).
  destruct (Hf a (HV _ _ _ Hm1) _ _ _ Hf1) as (n2 & E2 & H2).
  exists (n1 ++ n2). split; [by rewrite E2, E1, app_assoc|].
  apply elem_of_app. by right.
Qed.


Lemma logs_create_dataset (P : sigT call → Prop) name sql :
  (∀ R (c : call R), builder_call c → P (called c)) →
  logs P (create_dataset self name sql).
Proof.
  intros HP. unfold create_dataset.
  apply logs_bind; [by apply logs_invoke, HP|]. intros [].
  - apply logs_bind; [by apply logs_invoke, HP|]. intros _.
    by apply logs_invoke, HP.
  - apply logs_ret.
Qed.

Lemma logs_create_datasets (P : sigT call → Prop) :
  (∀ R (c : call R), builder_call c → P (called c)) →
  logs P (create_datasets self).
Proof.
  intros HP. unfold create_datasets.
  repeat (apply logs_bind; [by apply logs_create_dataset|intros _]).
  by apply logs_create_dataset.
Qed.

End WithFile.

Section RunWithFile.

Context `{Collaborators Ext}.
Variable self : DbStep.


Lemma logs_on_success_ret_bind {A B} c (a : A) (f : A → M (world Ext) B) :
  logs_on_success c (f a) → logs_on_success c (mret a ≫= f).
Proof. intros Hf w w' b Hw. exact (Hf w w' b Hw). Qed.


Lemma builder_calls_any R (c : call R) : builder_call c → any_call (called c).
Proof. done. Qed.




End RunWithFile.



(** The same settings without [filename]: the download runs, and the
    place name is refused after it. *)
Example acquire_without_file :
  (acquire Demo.importer (delete "filename" Demo.with_file) Demo.start).2
  = Raise (NotImplementedError "OSM import from place name is not yet supported.")
  ∧ (acquire Demo.importer ∅ Demo.start)
    = (Demo.start, Raise (Exception
        "neither 'aoi_name' nor 'bbox' parameter specified for OSM download. Terminating.")).
Proof. by vm_compute. Qed.

(** * Further properties of the code *)

(** ** Type tokens *)

Section TypeTokens.

Lemma not_prefix_form_first c s :
  c ≠ "s"%char → c ≠ "d"%char → ¬ prefix_form (String c s).
Proof.
  intros Hs Hd
    [H | [(N & r & _ & H) | [(P & S & r & _ & _ & H) | (P & r & _ & H)]]];
    [|rewrite !append_cons in H..]; injection H; congruence.
Qed.

End TypeTokens.

(** X1: the type mapping fails on exactly one kind of token.  A token
    that starts with [decimal(P)] for a precision [int] refuses, one with no
    digit or with more than 4300 digits, makes [frm_type] raise a
    [ValueError]; no other token makes it raise anything.  Hence
    [map_types] returns a list of types if and only if no token of the
    [frm] record is of that kind. *)
Theorem X1_type_mapping_fails_only_on_refused_precision :
  (∀ tok, unconvertible tok → ∃ msg, frm_type tok = Raise (ValueError msg))
  ∧ (∀ rest, frm_type ("decimal()" +:+ rest)
             = Raise (ValueError "invalid literal for int() with base 10: ''"))
  ∧ (∀ tok e, frm_type tok = Raise e → unconvertible tok ∧ ∃ msg, e = ValueError msg)
  ∧ (∀ frm, (∃ types, map_types frm = Ok types)
            ↔ Forall (fun tok => ¬ unconvertible tok) frm).
Proof.
  split.
  { intros tok (P & rest & HP & Hno & ->). by apply frm_type_unconvertible. }
  split; [exact frm_type_decimal_empty_prefix|].
  split; [exact frm_type_Raise|].
  exact map_types_Ok_iff.
Qed.

(** X2: the column types are fixed points of the mapping.  Whatever type
    [frm_type] gives for a token, it gives that same type for the type
    itself: mapping the tokens of a schema that is already mapped changes
    nothing. *)
Theorem X2_type_mapping_idempotent tok t :
  frm_type tok = Ok t → frm_type t = Ok t.
Proof.
  intros Ht. pose proof Ht as Ht'. revert Ht'. unfold frm_type at 1.
  destruct (Re.search Re.string_n tok) as [m|] eqn:E1.
  { intros [= <-]. by apply frm_type_passthrough, not_prefix_form_first. }
  destruct (Re.search Re.decimal_p_s tok) as [m|] eqn:E2.
  { intros [= <-]. by apply frm_type_passthrough, not_prefix_form_first. }
  destruct (Re.search Re.decimal_p tok) as [m|] eqn:E3.
  { destruct (Py.int (Re.group 2 m)) as [p|e]; [|done]. simpl.
    repeat case_match; intros [= <-];
      first [done | by apply frm_type_passthrough, not_prefix_form_first]. }
  destruct (String.eqb_spec tok "string") as [->|]; intros [= <-]; [done|].
  exact Ht.
Qed.

(** X2 on the token [decimal(12)]. *)
Lemma X2_type_mapping_idempotent_witness : frm_type "bigint" = Ok "bigint".
Proof. apply (X2_type_mapping_idempotent "decimal(12)"). reflexivity. Defined.

(** X1 on a token with text after the empty precision, and on a
    precision of 4301 digits. *)
Lemma X1_type_mapping_fails_only_on_refused_precision_witness :
  unconvertible "decimal(),x"
  ∧ ∃ msg, frm_type ("decimal(" +:+ Demo.long_precision +:+ ")") = Raise (ValueError msg).
Proof.
  destruct X1_type_mapping_fails_only_on_refused_precision as (Hbad & _ & Honly & _).
  split.
  - exact (proj1 (Honly "decimal(),x" _ eq_refl)).
  - apply Hbad. exists Demo.long_precision, "".
    split; [by vm_compute|]. split; [right; by vm_compute|reflexivity].
Defined.

(** ** Data rows *)

Section Rows.

Lemma replace_go_cons old new b s :
  Py.replace_go old new 0 (String b s)
  = if String.prefix old (String b s)
    then new +:+ Py.replace_go old new (String.length old - 1) s
    else String b (Py.replace_go old new 0 s).
Proof. reflexivity. Qed.

(** A text in which the first character of [old] does not occur has no
    occurrence of [old] to replace. *)
Lemma replace_first_absent c old new s :
  c ∉ chars s → Py.replace (String c old) new s = s.
Proof.
  change (Py.replace (String c old) new s)
    with (Py.replace_go (String c old) new 0 s).
  induction s as [|b s IH]; [done|].
  intros Hc. change (c ∉ b :: chars s) in Hc.
  apply not_elem_of_cons in Hc as [Hb Hs].
  rewrite replace_go_cons, prefix_cons.
  destruct (ascii_dec c b) as [->|_]; [done|]. by rewrite IH.
Qed.

End Rows.

(** X3: a data row without any double quote passes line 25 unchanged:
    the two replacements only ever remove text that starts with a double
    quote. *)
Theorem X3_row_without_quotes_is_kept row :
  Py.DQUOTE ∉ chars row → unquote_empty row = row.
Proof.
  intros Hrow. unfold unquote_empty, dq, Py.chr.
  rewrite !append_cons, !append_nil_l.
  rewrite (replace_first_absent _ _ _ row) by done.
  by rewrite replace_first_absent.
Qed.

(** X3 on the row [1;abc;2.5]. *)
Lemma X3_row_without_quotes_is_kept_witness :
  unquote_empty "1;abc;2.5" = "1;abc;2.5".
Proof.
  apply X3_row_without_quotes_is_kept. unfold chars. simpl.
  rewrite !not_elem_of_cons. repeat split; try discriminate.
  apply not_elem_of_nil.
Defined.

(** ** The query *)

(** X4: for every bounding box the query is the template with the text
    of the box put between [nwr(] and [);], as it is: the box is neither
    checked nor escaped, and an occurrence of [__bbox__] inside the box is
    not replaced again. *)
Theorem X4_query_holds_the_box_verbatim bbox :
  Py.replace "__bbox__" bbox q_template
  = (Py.chr Py.LF +:+ "            [timeout:900][maxsize:1073741824];"
     +:+ Py.chr Py.LF +:+ "            nwr(")
    +:+ bbox
    +:+ (");" +:+ Py.chr Py.LF +:+ "            out;").
Proof. vm_compute. reflexivity. Qed.

(** ** The generators, line by line *)

Section Scan.

Lemma startswith_rec_only line :
  Py.startswith line "rec;" = true →
  Py.startswith line "tbl;" = false ∧ Py.startswith line "atr;" = false
  ∧ Py.startswith line "frm;" = false.
Proof.
  unfold Py.startswith. destruct line as [|c line]; [done|].
  rewrite !prefix_cons. destruct (ascii_dec "r" c) as [<-|]; [|done].
  intros _. by repeat split.
Qed.


(** The scan never raises.  When it has met a [tbl] line, the schema
    file is there and empty; when it has not, no file has changed. *)
Lemma create_sql_loop_result file_txt f v (fs : files) :
  (∀ h, file_sql v = Some h →
     h = (OsPath.splitext file_txt).1 +:+ ".sql" ∧ fs !! h = Some "") →
  ∃ v' fs', create_sql_loop file_txt f v fs = (fs', Ok v')
    ∧ (∀ h, file_sql v' = Some h →
         h = (OsPath.splitext file_txt).1 +:+ ".sql" ∧ fs' !! h = Some "")
    ∧ (file_sql v' = None → fs' = fs ∧ file_sql v = None).
Proof.
  revert v fs. induction f as [|line f IH]; intros v fs Hv.
  - exists v, fs. split; [done|]. split; [exact Hv|done].
  - simpl.
    destruct (Py.startswith line "tbl;").
    { edestruct (IH {| file_sql := Some ((OsPath.splitext file_txt).1 +:+ ".sql");
                       tbl := Some (Py.lower (Py.strip (Py.slice_from 4 line)));
                       atr := atr v; frm := frm v |}
                   (<[(OsPath.splitext file_txt).1 +:+ ".sql" := ""]> fs))
        as (v' & fs' & Hrun & Hsome & Hnone).
      { simpl. intros h [= <-]. split; [done|]. apply lookup_insert_eq. }
      exists v', fs'. split; [exact Hrun|]. split; [done|].
      intros Hn. by destruct (Hnone Hn) as [_ ?]. }
    destruct (Py.startswith line "atr;").
    { edestruct (IH {| file_sql := file_sql v; tbl := tbl v;
                       atr := Some (Py.split ";" (Py.lower (Py.strip (Py.slice_from 4 line))));
                       frm := frm v |} fs)
        as (v' & fs' & Hrun & Hsome & Hnone); [done|].
      exists v', fs'. split; [exact Hrun|done]. }
    destruct (Py.startswith line "frm;").
    { edestruct (IH {| file_sql := file_sql v; tbl := tbl v; atr := atr v;
                       frm := Some (Py.split ";" (Py.lower (Py.strip (Py.slice_from 4 line)))) |}
                   fs)
        as (v' & fs' & Hrun & Hsome & Hnone); [done|].
      exists v', fs'. split; [exact Hrun|done]. }
    destruct (Py.startswith line "rec;"); [|by apply IH].
    exists v, fs. split; [done|]. split; [exact Hv|done].
Qed.

End Scan.



Lemma create_sql_raise_files file_txt (fs fs' : files) bytes e :
  fs !! file_txt = Some bytes →
  create_sql file_txt fs = (fs', Raise e) →
  fs' = fs ∨ fs' !! ((OsPath.splitext file_txt).1 +:+ ".sql") = Some "".
Proof.
  intros Hfile. unfold create_sql. rewrite bind_eq. unfold read_lines.
  rewrite Hfile, bind_eq.
  destruct (create_sql_loop_result file_txt
              (Py.lines (Py.universal_newlines bytes)) no_locals fs)
    as (v & fs1 & -> & Hsome & Hnone); [done|].
  rewrite bind_eq. unfold lift_result.
  intros Hrun.
  assert (fs' = fs1) as ->.
  { destruct (sql_of (tbl v) (atr v) (frm v)) as [sql|e']; [|by inversion Hrun].
    rewrite bind_eq in Hrun. destruct (file_sql v) as [h|]; by inversion Hrun. }
  destruct (file_sql v) as [h|] eqn:Eh.
  - right. by destruct (Hsome h eq_refl) as [<- ?].
  - left. by destruct (Hnone eq_refl).
Qed.

(** X6: when [create_sql] raises although the source is there, either
    no [tbl] line was read and no file has changed, or the schema file has
    been created and is left behind, empty. *)
Theorem X6_failed_schema_leaves_empty_file file_txt (fs fs' : files) bytes e :
  fs !! file_txt = Some bytes →
  create_sql file_txt fs = (fs', Raise e) →
  fs' = fs ∨ fs' !! ((OsPath.splitext file_txt).1 +:+ ".sql") = Some "".
Proof. apply create_sql_raise_files. Qed.

(** X6 on a file with a [tbl] line and an [atr] line but no [frm] line. *)
Lemma X6_failed_schema_leaves_empty_file_witness :
  (create_sql "gip/n.txt" Demo.no_frm_fs).1 !! "gip/n.sql" = Some "".
Proof.
  destruct (create_sql "gip/n.txt" Demo.no_frm_fs) as [fs' r] eqn:E.
  destruct r as [[]|e]; [by vm_compute in E|].
  assert (Demo.no_frm_fs !! "gip/n.txt" = Some Demo.no_frm_txt) as Hfile
    by by vm_compute.
  destruct (X6_failed_schema_leaves_empty_file "gip/n.txt" Demo.no_frm_fs fs'
              Demo.no_frm_txt e Hfile E) as [->|Hsql].
  - by vm_compute in E.
  - exact Hsql.
Defined.

Section DataFile.

(** Without a sink the loop of [create_csv] changes no file; it raises at
    the first [atr] or [rec] line, and otherwise ends without a sink. *)
Lemma create_csv_loop_no_tbl file_txt f (fs : files) :
  Forall (fun l => Py.startswith l "tbl;" = false) f →
  create_csv_loop file_txt f None fs = (fs, Raise (UnboundLocalError "file_csv"))
  ∨ create_csv_loop file_txt f None fs = (fs, Ok None).
Proof.
  induction f as [|l f IH]; intros Hf; [by right|].
  apply Forall_cons in Hf as [Hl Hf]. simpl. rewrite Hl.
  destruct (Py.startswith l "atr;"); [by left|].
  destruct (Py.startswith l "rec;"); [by left|].
  by apply IH.
Qed.


Lemma write_at h text c (fs : files) :
  fs !! h = Some c →
  write h text fs = (<[h := c +:+ Py.utf8 text]> fs, Ok tt).
Proof.
  intros Hc. unfold write, modify. f_equal.
  rewrite <- (insert_id fs h c) at 1 by done.
  by rewrite alter_insert_eq.
Qed.



End DataFile.

(** X7: a source without any [tbl] line, the empty file included, makes
    [create_csv] raise for its sink that was never opened, whatever else
    the file holds; no file is created or changed. *)
Theorem X7_data_file_needs_a_tbl_line file_txt (fs : files) bytes :
  fs !! file_txt = Some bytes →
  Forall (fun l => Py.startswith l "tbl;" = false)
    (Py.lines (Py.universal_newlines bytes)) →
  create_csv file_txt fs = (fs, Raise (UnboundLocalError "file_csv")).
Proof.
  intros Hfile Hlines. unfold create_csv. rewrite bind_eq. unfold read_lines.
  rewrite Hfile, bind_eq.
  by destruct (create_csv_loop_no_tbl file_txt _ fs Hlines) as [-> | ->].
Qed.

(** X7 on the empty file. *)
Lemma X7_data_file_needs_a_tbl_line_witness :
  create_csv "gip/e.txt" {[ "gip/e.txt" := "" ]}
  = ({[ "gip/e.txt" := "" ]}, Raise (UnboundLocalError "file_csv")).
Proof.
  apply (X7_data_file_needs_a_tbl_line "gip/e.txt" {[ "gip/e.txt" := "" ]} "").
  - by vm_compute.
  - constructor.
Defined.



(** ** The encoding of the derived files *)

Section Encoding.

Lemma utf8_read_char c rest :
  utf8_read (Py.utf8_char c +:+ rest) = Some (c, rest).
Proof. destruct c as [[] [] [] [] [] [] [] []]; reflexivity. Qed.

Lemma utf8_cons c s : Py.utf8 (String c s) = Py.utf8_char c +:+ Py.utf8 s.
Proof. reflexivity. Qed.

Lemma utf8_inj s t : Py.utf8 s = Py.utf8 t → s = t.
Proof.
  revert t. induction s as [|c s IH]; intros [|d t] Heq; [done|..].
  - apply (f_equal utf8_read) in Heq.
    rewrite utf8_cons, utf8_read_char in Heq. done.
  - apply (f_equal utf8_read) in Heq.
    rewrite utf8_cons, utf8_read_char in Heq. done.
  - apply (f_equal utf8_read) in Heq.
    rewrite !utf8_cons, !utf8_read_char in Heq.
    injection Heq as -> Heq. by rewrite (IH t).
Qed.

End Encoding.

(** X9: the re-encoding of the derived files loses nothing.  Two texts
    that differ are written as different byte sequences, and a text of
    code points below 128 is written byte for byte as it is. *)
Theorem X9_utf8_is_exact :
  (∀ s t, Py.utf8 s = Py.utf8 t → s = t)
  ∧ (∀ s, Forall (fun c => (nat_of_ascii c < 128)%nat) (chars s) → Py.utf8 s = s).
Proof.
  split; [exact utf8_inj|].
  induction s as [|c s IH]; [done|].
  intros [Hc Hs]%Forall_cons. rewrite utf8_cons, (IH Hs).
  unfold Py.utf8_char. by rewrite (proj2 (Nat.ltb_lt _ _) Hc).
Qed.

(** X9 on a text of three ASCII characters. *)
Lemma X9_utf8_is_exact_witness : Py.utf8 "a;b" = "a;b".
Proof.
  destruct X9_utf8_is_exact as [_ Hascii]. apply Hascii.
  unfold chars. simpl. repeat constructor.
Defined.

(** ** Fields and columns *)

Section Fields.

Lemma split_go_length sep cur s :
  length (Py.split_go sep cur s) = S (count_char sep s).
Proof.
  revert cur. induction s as [|c s IH]; intros cur; [done|].
  simpl. destruct (Ascii.eqb c sep); simpl; by rewrite IH.
Qed.

Lemma split_length sep s : length (Py.split sep s) = S (count_char sep s).
Proof. apply split_go_length. Qed.

Lemma lower_char_semicolon c :
  Ascii.eqb (Py.lower_char c) ";" = Ascii.eqb c ";".
Proof. destruct c as [[] [] [] [] [] [] [] []]; reflexivity. Qed.

Lemma isspace_semicolon c : Py.isspace c = true → Ascii.eqb c ";" = false.
Proof. destruct c as [[] [] [] [] [] [] [] []]; done. Qed.

Lemma count_lower s : count_char ";" (Py.lower s) = count_char ";" s.
Proof.
  induction s as [|c s IH]; [done|]. simpl.
  by rewrite lower_char_semicolon, IH.
Qed.

Lemma count_lstrip s : count_char ";" (Py.lstrip s) = count_char ";" s.
Proof.
  induction s as [|c s IH]; [done|]. simpl.
  destruct (Py.isspace c) eqn:Hc; [|done].
  by rewrite IH, (isspace_semicolon _ Hc).
Qed.

Lemma count_rev_app c s t :
  count_char c (String.rev_app s t) = (count_char c s + count_char c t)%nat.
Proof.
  revert t. induction s as [|b s IH]; intros t; [done|].
  simpl. rewrite IH. simpl. lia.
Qed.

Lemma count_rev c s : count_char c (String.rev s) = count_char c s.
Proof. unfold String.rev. rewrite count_rev_app. simpl. lia. Qed.

Lemma count_strip s : count_char ";" (Py.strip s) = count_char ";" s.
Proof.
  unfold Py.strip, Py.rstrip.
  by rewrite count_rev, count_lstrip, count_rev, count_lstrip.
Qed.

Lemma fields_length line :
  length (fields line) = length (Py.split ";" (Py.slice_from 4 line)).
Proof.
  unfold fields. by rewrite !split_length, count_lower, count_strip.
Qed.

End Fields.

(** X10: trimming and lower-casing never change the number of fields of
    an [atr] or [frm] line.  Hence, when the [atr] line and the [frm] line
    have the same number of fields and the types map, the statement has
    one column for each field of the header that [create_csv] writes for
    the same [atr] line. *)
Theorem X10_columns_match_header atr_line frm_line types :
  length (Py.split ";" (Py.slice_from 4 atr_line))
  = length (Py.split ";" (Py.slice_from 4 frm_line)) →
  map_types (fields frm_line) = Ok types →
  length (columns_of (column_name <$> fields atr_line) types)
  = length (Py.split ";" (Py.slice_from 4 atr_line))
  ∧ length (fields atr_line) = S (count_char ";" (Py.slice_from 4 atr_line)).
Proof.
  intros Hsame Htypes. split.
  - rewrite (columns_of_length _ _ _ Htypes), !fields_length, <- Hsame.
    apply Nat.min_id.
  - by rewrite fields_length, split_length.
Qed.

(** X10 on an [atr] line with capitals and blanks around it. *)
Lemma X10_columns_match_header_witness :
  length (columns_of (column_name <$> fields "atr; ID;Offset ") ["smallint"; "varchar"])
  = 2%nat.
Proof.
  destruct (X10_columns_match_header "atr; ID;Offset " "frm;decimal(3);string"
              ["smallint"; "varchar"]) as [Hcols _]; [reflexivity..|].
  exact Hcols.
Defined.

(** ** Paths *)

Section Paths.

Lemma length_append s t :
  String.length (s +:+ t) = (String.length s + String.length t)%nat.
Proof. induction s as [|c s IH]; [done|]. rewrite append_cons. simpl. by rewrite IH. Qed.

Lemma rfind_go_app c i found s t :
  OsPath.rfind_go c i found (s +:+ t)
  = OsPath.rfind_go c (i + Z.of_nat (String.length s))
      (OsPath.rfind_go c i found s) t.
Proof.
  revert i found. induction s as [|b s IH]; intros i found.
  - simpl. by rewrite Z.add_0_r.
  - rewrite append_cons. simpl OsPath.rfind_go. rewrite IH. f_equal.
    simpl String.length. lia.
Qed.

Lemma rfind_go_absent c i found s :
  forallb (fun b => negb (Ascii.eqb b c)) (chars s) = true →
  OsPath.rfind_go c i found s = found.
Proof.
  revert i. induction s as [|b s IH]; intros i; [done|].
  unfold chars. simpl. intros [Hb Hs]%andb_true_iff.
  apply negb_true_iff in Hb. rewrite Hb. by apply IH.
Qed.

Lemma rfind_go_lt c i found s :
  (found < i)%Z →
  (OsPath.rfind_go c i found s < i + Z.of_nat (String.length s))%Z.
Proof.
  revert i found. induction s as [|b s IH]; intros i found Hlt.
  - simpl. lia.
  - simpl OsPath.rfind_go. simpl String.length.
    destruct (Ascii.eqb b c).
    + specialize (IH (i + 1)%Z i). lia.
    + specialize (IH (i + 1)%Z found). lia.
Qed.

Lemma plain_no_slash s :
  plain s = true → forallb (fun b => negb (Ascii.eqb b "/")) (chars s) = true.
Proof.
  unfold plain. induction (chars s) as [|b l IH]; [done|]. simpl.
  intros [[Hb _]%andb_true_iff Hl]%andb_true_iff. by rewrite Hb, IH.
Qed.

Lemma plain_no_dot s :
  plain s = true → forallb (fun b => negb (Ascii.eqb b ".")) (chars s) = true.
Proof.
  unfold plain. induction (chars s) as [|b l IH]; [done|]. simpl.
  intros [[_ Hb]%andb_true_iff Hl]%andb_true_iff. by rewrite Hb, IH.
Qed.

Lemma substring_0_app s t : String.substring 0 (String.length s) (s +:+ t) = s.
Proof. induction s as [|c s IH]; [by destruct t|]. rewrite append_cons. simpl. by rewrite IH. Qed.

Lemma slice_from_app s t : Py.slice_from (String.length s) (s +:+ t) = t.
Proof. induction s as [|c s IH]; [done|]. by rewrite append_cons. Qed.

Lemma get_chars n s b : String.get n s = Some b → In b (chars s).
Proof.
  revert n. induction s as [|c s IH]; intros n; [done|].
  destruct n as [|n]; simpl.
  - intros [= ->]. by left.
  - intros Hn. right. by apply (IH n).
Qed.

Lemma existsb_substring (f : ascii → bool) n lo m s b :
  String.get n s = Some b → (lo ≤ n)%nat → (n < lo + m)%nat → f b = true →
  existsb f (chars (String.substring lo m s)) = true.
Proof.
  intros Hget Hlo Hhi Hf. apply existsb_exists. exists b. split; [|done].
  apply (get_chars (n - lo)).
  rewrite String.substring_correct1 by lia.
  by replace (n - lo + lo)%nat with n by lia.
Qed.

Lemma get_append_at s b t : String.get (String.length s) (s +:+ String b t) = Some b.
Proof. exact (eq_sym (String.append_correct2 s (String b t) 0)). Qed.

Lemma chars_app x y : chars (x +:+ y) = chars x ++ chars y.
Proof.
  unfold chars. induction x as [|c x IH]; [done|].
  rewrite append_cons. simpl. by rewrite IH.
Qed.

Lemma no_slash_in_name stem ext :
  plain stem = true → plain ext = true →
  forallb (fun c => negb (Ascii.eqb c "/")) (chars (stem +:+ "." +:+ ext)) = true.
Proof.
  intros Hstem Hext. rewrite !chars_app, !forallb_app.
  by rewrite (plain_no_slash _ Hstem), (plain_no_slash _ Hext).
Qed.

(** The extension of a path that ends in a plain name, a dot and a plain
    extension is that dot and extension, whatever comes before the name. *)
Lemma splitext_app Q b stem ext :
  plain (String b stem) = true → plain ext = true →
  OsPath.splitext (Q +:+ String b stem +:+ "." +:+ ext)
  = (Q +:+ String b stem, "." +:+ ext).
Proof.
  intros Hstem Hext. unfold OsPath.splitext.
  set (p := Q +:+ String b stem +:+ "." +:+ ext).
  assert (OsPath.rfind "." p = Z.of_nat (String.length (Q +:+ String b stem)))
    as Hdot.
  { unfold OsPath.rfind, p. rewrite <- append_assoc, rfind_go_app.
    rewrite append_cons, append_nil_l. simpl OsPath.rfind_go.
    rewrite rfind_go_absent by by apply plain_no_dot. lia. }
  assert (OsPath.rfind "/" p < Z.of_nat (String.length Q))%Z as Hsep.
  { unfold OsPath.rfind, p. rewrite rfind_go_app.
    rewrite rfind_go_absent by by apply no_slash_in_name.
    apply (rfind_go_lt "/" 0 (-1) Q). lia. }
  assert (p = (Q +:+ String b stem) +:+ "." +:+ ext) as Hp
    by (unfold p; by rewrite <- append_assoc).
  assert (String.get (String.length Q) p = Some b) as Hget
    by (unfold p; apply get_append_at).
  assert (negb (Ascii.eqb b ".") = true) as Hb.
  { unfold plain, chars in Hstem. simpl in Hstem.
    by apply andb_true_iff in Hstem as [[_ ?]%andb_true_iff _]. }
  rewrite Hdot. rewrite length_append in *. simpl String.length in *.
  replace (OsPath.rfind "/" p <? _)%Z with true by (symmetry; apply Z.ltb_lt; lia).
  unfold OsPath.slice.
  rewrite (existsb_substring _ (String.length Q) _ _ p b Hget) by (done || lia).
  simpl andb. cbv iota.
  replace (Z.to_nat (Z.of_nat (String.length Q + S (String.length stem)) - 0))
    with (String.length (Q +:+ String b stem))
    by (rewrite length_append; simpl; lia).
  replace (Z.to_nat (Z.of_nat (String.length Q + S (String.length stem))))
    with (String.length (Q +:+ String b stem))
    by (rewrite length_append; simpl; lia).
  replace (Z.to_nat 0) with 0%nat by done.
  by rewrite Hp, substring_0_app, slice_from_app.
Qed.

End Paths.

Section TaskPaths.

Variable self : DbStep.

Lemma in_extract_dir_relative filename_A name :
  Py.startswith name "/" = false →
  in_extract_dir self filename_A name = task_dir self filename_A +:+ name.
Proof.
  intros Hname. unfold in_extract_dir, task_dir, OsPath.join. simpl.
  unfold OsPath.join2 at 1. rewrite Hname.
  destruct (_ || _); [done|]. by rewrite append_assoc.
Qed.

Lemma plain_relative b s : plain (String b s) = true → Py.startswith (String b s) "/" = false.
Proof.
  intros Hplain. unfold Py.startswith. rewrite prefix_cons.
  destruct (ascii_dec "/" b) as [<-|]; [|done].
  unfold plain, chars in Hplain. by simpl in Hplain.
Qed.

(** The three paths of a task whose source has a plain name and a plain
    extension. *)
Lemma task_paths filename_A b stem ext new_ext :
  plain (String b stem) = true → plain ext = true →
  (OsPath.splitext (in_extract_dir self filename_A (String b stem +:+ "." +:+ ext))).1
    +:+ new_ext
  = in_extract_dir self filename_A
      ((OsPath.splitext (String b stem +:+ "." +:+ ext)).1 +:+ new_ext).
Proof.
  intros Hstem Hext.
  pose proof (splitext_app "" b stem ext Hstem Hext) as Hname.
  rewrite !append_nil_l in Hname. rewrite Hname. simpl fst.
  assert (∀ t, Py.startswith (String b stem +:+ t) "/" = false) as Hrel.
  { intros t. unfold Py.startswith. rewrite append_cons, prefix_cons.
    destruct (ascii_dec "/" b) as [<-|]; [|done].
    unfold plain, chars in Hstem. by simpl in Hstem. }
  rewrite !in_extract_dir_relative by apply Hrel.
  rewrite splitext_app by done. simpl fst.
  by rewrite append_assoc.
Qed.

Lemma files_A_paths filename_A file new_ext :
  file ∈ files_A →
  (OsPath.splitext (txt_path self filename_A file)).1 +:+ new_ext
  = in_extract_dir self filename_A
      ((OsPath.splitext (task_filename file)).1 +:+ new_ext).
Proof.
  unfold files_A, txt_path. rewrite !elem_of_cons, elem_of_nil.
  intros [->|[->|[->|[->|[->|[->|[->|[]]]]]]]]; simpl task_filename.
  - by apply (task_paths filename_A "B" "ikeHike" "txt").
  - by apply (task_paths filename_A "L" "ink" "txt").
  - by apply (task_paths filename_A "L" "inkCoordinate" "txt").
  - by apply (task_paths filename_A "L" "inkUse" "txt").
  - by apply (task_paths filename_A "L" "ink2ReferenceObject" "txt").
  - by apply (task_paths filename_A "N" "ode" "txt").
  - by apply (task_paths filename_A "R" "eferenceObject" "txt").
Qed.

End TaskPaths.

(** X11: for each of the seven tasks, whatever the data directory and
    the name of the archive, the file that [create_csv] writes for the
    source of the task is the file whose presence line 156 tests, and the
    file that [create_sql] writes is the one line 158 tests. *)
Theorem X11_generated_file_is_the_tested_file (self : DbStep) filename_A file :
  file ∈ files_A →
  (OsPath.splitext (txt_path self filename_A file)).1 +:+ ".csv"
  = csv_path self filename_A file
  ∧ (OsPath.splitext (txt_path self filename_A file)).1 +:+ ".sql"
    = sql_path self filename_A file.
Proof. intros Hfile. split; by apply files_A_paths. Qed.

(** X11 on the task of [Node.txt]. *)
Lemma X11_generated_file_is_the_tested_file_witness :
  (OsPath.splitext "data/gip/Node.txt").1 +:+ ".csv" = "data/gip/Node.csv".
Proof.
  destruct (X11_generated_file_is_the_tested_file Demo.importer "gip.zip"
              {| task_filename := "Node.txt"; task_table := "gip_node";
                 task_columns := ["node_id"] |}) as [Hcsv _].
  - unfold files_A. rewrite !elem_of_cons. do 5 right. by left.
  - exact Hcsv.
Defined.

(** ** The steps of a task *)

Section TaskSteps.

Context `{Collaborators Ext}.
Variable self : DbStep.

Lemma on_files_inv {A} (m : M files A) (w w' : world Ext) r :
  on_files m w = (w', r) →
  m (fs w) = (fs w', r) ∧ ext w' = ext w ∧ calls w' = calls w.
Proof.
  unfold on_files. destruct (m (fs w)) as [fs' r']. by intros [= <- <-].
Qed.

Lemma ensure_data_file_present filename_A file (w : world Ext) :
  isfile (csv_path self filename_A file) (fs w) = true →
  ensure_data_file self filename_A file w = (w, Ok tt).
Proof.
  intros Hfile. unfold ensure_data_file. rewrite bind_eq. unfold gets.
  by rewrite Hfile.
Qed.

Lemma ensure_schema_file_present filename_A file (w : world Ext) :
  isfile (sql_path self filename_A file) (fs w) = true →
  ensure_schema_file self filename_A file w = (w, Ok tt).
Proof.
  intros Hfile. unfold ensure_schema_file. rewrite bind_eq. unfold gets.
  by rewrite Hfile.
Qed.

Lemma isfile_Some path (fs0 : files) c : fs0 !! path = Some c → isfile path fs0 = true.
Proof. intros Hc. unfold isfile. apply bool_decide_eq_true_2. by exists c. Qed.

(** Once the sink is open it stays a file, whatever is written. *)
Lemma create_csv_loop_sink file_txt f o (fs0 fs' : files) o' :
  (∀ h, o = Some h →
     h = (OsPath.splitext file_txt).1 +:+ ".csv" ∧ is_Some (fs0 !! h)) →
  create_csv_loop file_txt f o fs0 = (fs', Ok o') →
  ∀ h, o' = Some h →
    h = (OsPath.splitext file_txt).1 +:+ ".csv" ∧ is_Some (fs' !! h).
Proof.
  revert o fs0. induction f as [|line f IH]; intros o fs0 Ho.
  - by intros [= <- <-].
  - simpl.
    destruct (Py.startswith line "tbl;").
    { rewrite bind_eq. unfold open_w. apply IH.
      intros h [= <-]. split; [done|]. rewrite lookup_insert_eq. by eexists. }
    assert (∀ text,
      (h ← local "file_csv" o; write h text;; create_csv_loop file_txt f o) fs0
      = (fs', Ok o') →
      ∀ h, o' = Some h →
        h = (OsPath.splitext file_txt).1 +:+ ".csv" ∧ is_Some (fs' !! h)) as Hwrite.
    { intros text. rewrite bind_eq. destruct o as [h0|]; [|done].
      change (local "file_csv" (Some h0) fs0) with (fs0, Ok h0). cbv beta iota.
      rewrite bind_eq. unfold write, modify. apply IH.
      intros h [= <-]. destruct (Ho h0 eq_refl) as [-> Hsome].
      split; [done|]. by apply lookup_alter_is_Some. }
    destruct (Py.startswith line "atr;"); [by apply Hwrite|].
    destruct (Py.startswith line "rec;"); [by apply Hwrite|].
    by apply IH.
Qed.

Lemma create_csv_Ok file_txt (fs0 fs' : files) :
  create_csv file_txt fs0 = (fs', Ok tt) →
  is_Some (fs' !! ((OsPath.splitext file_txt).1 +:+ ".csv")).
Proof.
  unfold create_csv. rewrite bind_eq. unfold read_lines.
  destruct (fs0 !! file_txt) as [bytes|]; [|done]. rewrite bind_eq.
  destruct (create_csv_loop file_txt _ None fs0) as [fs1 [o|e]] eqn:E; [|done].
  rewrite bind_eq. destruct o as [h|]; [|done]. intros [= <-].
  assert (∀ h0 : string, None = Some h0 →
            h0 = (OsPath.splitext file_txt).1 +:+ ".csv" ∧ is_Some (fs0 !! h0))
    as Hnone by done.
  destruct (create_csv_loop_sink _ _ _ _ _ _ Hnone E h eq_refl) as [Hh Hsome].
  by rewrite <- Hh.
Qed.

Lemma create_sql_Ok file_txt (fs0 fs' : files) :
  create_sql file_txt fs0 = (fs', Ok tt) →
  is_Some (fs' !! ((OsPath.splitext file_txt).1 +:+ ".sql")).
Proof.
  unfold create_sql. rewrite bind_eq. unfold read_lines.
  destruct (fs0 !! file_txt) as [bytes|]; [|done]. rewrite bind_eq.
  destruct (create_sql_loop_result file_txt
              (Py.lines (Py.universal_newlines bytes)) no_locals fs0)
    as (v & fs1 & -> & Hsome & _); [done|].
  rewrite bind_eq. unfold lift_result.
  destruct (sql_of (tbl v) (atr v) (frm v)) as [sql|e]; [|done].
  rewrite bind_eq. destruct (file_sql v) as [h|] eqn:Eh; [|done].
  change (local "file_sql" (Some h) fs1) with (fs1, Ok h). cbv beta iota.
  unfold write, modify. intros [= <-].
  destruct (Hsome h eq_refl) as [<- Hh].
  apply lookup_alter_is_Some. by eexists.
Qed.

Lemma for_each_unchanged {A} (body : A → M (world Ext) unit) l (w : world Ext) :
  (∀ x, x ∈ l → body x w = (w, Ok tt)) → for_each body l w = (w, Ok tt).
Proof.
  induction l as [|x l IH]; intros Hl; [done|].
  simpl. rewrite bind_eq, (Hl x) by by left.
  apply IH. intros y Hy. apply Hl. by right.
Qed.

Lemma extract_member_present filename_A file (w : world Ext) :
  isfile (txt_path self filename_A file) (fs w) = true →
  extract_member self filename_A file w = (w, Ok tt).
Proof.
  intros Hfile. unfold extract_member. rewrite bind_eq. unfold gets.
  by rewrite Hfile.
Qed.

End TaskSteps.

(** X12: the two steps that ensure the derived files of a task are
    idempotent.  For each of the seven tasks, when the step returns, the
    derived file is there, so that the same step taken again returns at
    once and leaves the world as it is. *)
Theorem X12_ensure_steps_are_idempotent `{Collaborators Ext} (self : DbStep)
    filename_A file (w w' : world Ext) :
  file ∈ files_A →
  (ensure_data_file self filename_A file w = (w', Ok tt) →
   isfile (csv_path self filename_A file) (fs w') = true
   ∧ ensure_data_file self filename_A file w' = (w', Ok tt))
  ∧ (ensure_schema_file self filename_A file w = (w', Ok tt) →
     isfile (sql_path self filename_A file) (fs w') = true
     ∧ ensure_schema_file self filename_A file w' = (w', Ok tt)).
Proof.
  intros Hfile. split.
  - intros Hrun.
    assert (isfile (csv_path self filename_A file) (fs w') = true) as Hthere.
    { revert Hrun. unfold ensure_data_file. rewrite bind_eq. unfold gets.
      destruct (isfile _ (fs w)) eqn:E; [by intros [= <-]|].
      intros [Hgen _]%on_files_inv. apply create_csv_Ok in Hgen as [c Hc].
      apply (isfile_Some _ _ c). unfold csv_path.
      by rewrite <- (files_A_paths self filename_A file ".csv" Hfile). }
    split; [done|]. by apply ensure_data_file_present.
  - intros Hrun.
    assert (isfile (sql_path self filename_A file) (fs w') = true) as Hthere.
    { revert Hrun. unfold ensure_schema_file. rewrite bind_eq. unfold gets.
      destruct (isfile _ (fs w)) eqn:E; [by intros [= <-]|].
      intros [Hgen _]%on_files_inv. apply create_sql_Ok in Hgen as [c Hc].
      apply (isfile_Some _ _ c). unfold sql_path.
      by rewrite <- (files_A_paths self filename_A file ".sql" Hfile). }
    split; [done|]. by apply ensure_schema_file_present.
Qed.

(** X13: a schema step that fails is not taken again.  For each of the
    seven tasks, when [create_sql] raises inside the step, either no file
    has changed, or the schema file is left behind empty; in that case the
    same step taken again finds the file, returns at once and leaves the
    empty file where it is. *)
Theorem X13_failed_schema_step_is_skipped_next_time `{Collaborators Ext}
    (self : DbStep) filename_A file (w w' : world Ext) e :
  file ∈ files_A →
  ensure_schema_file self filename_A file w = (w', Raise e) →
  fs w' = fs w
  ∨ (fs w' !! sql_path self filename_A file = Some ""
     ∧ ensure_schema_file self filename_A file w' = (w', Ok tt)).
Proof.
  intros Hfile. unfold ensure_schema_file at 1. rewrite bind_eq. unfold gets.
  destruct (isfile _ (fs w)); [done|]. simpl negb. cbv iota.
  intros [Hgen _]%on_files_inv.
  destruct (fs w !! txt_path self filename_A file) as [bytes|] eqn:Esrc.
  - destruct (create_sql_raise_files _ _ _ _ _ Esrc Hgen) as [->|Hsql]; [by left|].
    right. rewrite (files_A_paths self filename_A file ".sql" Hfile) in Hsql.
    split; [exact Hsql|].
    apply ensure_schema_file_present. by apply (isfile_Some _ _ "").
  - left. revert Hgen. unfold create_sql. rewrite bind_eq. unfold read_lines.
    rewrite Esrc. by intros [= <-].
Qed.

(** X14: an archive that is already extracted is not extracted again:
    when the sources of the seven tasks are all there, the loop of lines
    148-150 makes no call and leaves the world as it is. *)
Theorem X14_extracted_archive_is_left_alone `{Collaborators Ext} (self : DbStep)
    filename_A (w : world Ext) :
  (∀ file, file ∈ files_A → isfile (txt_path self filename_A file) (fs w) = true) →
  for_each (extract_member self filename_A) files_A w = (w, Ok tt).
Proof.
  intros Hall. apply for_each_unchanged. intros file Hfile.
  by apply extract_member_present, Hall.
Qed.

(** X12 on the task of [Node.txt], from its source alone. *)
Lemma X12_ensure_steps_are_idempotent_witness :
  ∃ w', ensure_data_file Demo.importer "gip.zip" Demo.node_task Demo.node_world
        = (w', Ok tt)
    ∧ ensure_data_file Demo.importer "gip.zip" Demo.node_task w' = (w', Ok tt).
Proof.
  destruct (ensure_data_file Demo.importer "gip.zip" Demo.node_task Demo.node_world)
    as [w' r] eqn:E.
  destruct r as [[]|e]; [|by vm_compute in E].
  exists w'. split; [done|].
  destruct (X12_ensure_steps_are_idempotent Demo.importer "gip.zip" Demo.node_task
              Demo.node_world w') as [Hdata _].
  - unfold files_A, Demo.node_task. rewrite !elem_of_cons. do 5 right. by left.
  - by destruct (Hdata E).
Defined.

(** X13 on the task of [Node.txt], its source without a [frm] line. *)
Lemma X13_failed_schema_step_is_skipped_next_time_witness :
  ∃ w' e, ensure_schema_file Demo.importer "gip.zip" Demo.node_task Demo.broken_world
          = (w', Raise e)
    ∧ ensure_schema_file Demo.importer "gip.zip" Demo.node_task w' = (w', Ok tt).
Proof.
  destruct (ensure_schema_file Demo.importer "gip.zip" Demo.node_task Demo.broken_world)
    as [w' r] eqn:E.
  destruct r as [[]|e]; [by vm_compute in E|].
  exists w', e. split; [done|].
  destruct (X13_failed_schema_step_is_skipped_next_time Demo.importer "gip.zip"
              Demo.node_task Demo.broken_world w' e) as [Hsame|[_ Hagain]].
  - unfold files_A, Demo.node_task. rewrite !elem_of_cons. do 5 right. by left.
  - exact E.
  - vm_compute in E. injection E as <- _. by vm_compute in Hsame.
  - exact Hagain.
Defined.

(** X14 on the extracted archive of the installation. *)
Lemma X14_extracted_archive_is_left_alone_witness :
  for_each (extract_member Demo.importer "gip.zip") files_A Demo.extracted
  = (Demo.extracted, Ok tt).
Proof.
  apply X14_extracted_archive_is_left_alone.
  unfold files_A. intros file. rewrite !elem_of_cons, elem_of_nil.
  intros [->|[->|[->|[->|[->|[->|[->|[]]]]]]]]; by vm_compute.
Defined.

(** ** What the runs add to the call log *)

Section RunLogs.

Context `{Collaborators Ext}.
Variable self : DbStep.

Lemma logs_gets {A} P (f : world Ext → A) : logs P (gets f).
Proof. intros w w' r [= <- _]. exists []. by rewrite app_nil_r. Qed.

Lemma logs_on_files {A} P (m : M files A) : logs (Ext := Ext) P (on_files m).
Proof.
  intros w w' r (_ & _ & Hcalls)%on_files_inv. exists [].
  by rewrite app_nil_r.
Qed.

Lemma logs_getitem P settings key : logs (Ext := Ext) P (getitem settings key).
Proof. unfold getitem. destruct (settings !! key); [apply logs_ret|apply logs_raise]. Qed.

Lemma logs_attempt {A} P (m : M (world Ext) A) : logs P m → logs P (attempt m).
Proof.
  intros Hm w w' r. unfold attempt. destruct (m w) as [w1 r1] eqn:E.
  intros [= <- _]. by apply (Hm _ _ _ E).
Qed.

Lemma logs_for_each {A} P (body : A → M (world Ext) unit) l :
  (∀ x, logs P (body x)) → logs P (for_each body l).
Proof.
  intros Hbody. induction l as [|x l IH]; [apply logs_ret|].
  simpl. apply logs_bind; [apply Hbody|by intros _].
Qed.

Lemma logs_download_loop (P : sigT call → Prop) q_str endpoints :
  (∀ url filename, P (called (urlretrieve url filename))) →
  logs P (download_loop self q_str endpoints).
Proof.
  intros HP. induction endpoints as [|e endpoints IH]; [apply logs_ret|].
  simpl. apply logs_bind; [by apply logs_attempt, logs_invoke|].
  intros [[file_name headers]|ex]; [apply logs_ret|]. by destruct ex.
Qed.

Lemma logs_load (P : sigT call → Prop) bbox :
  (∀ url filename, P (called (urlretrieve url filename))) →
  logs P (_load_osm_from_bbox self bbox).
Proof.
  intros HP. unfold _load_osm_from_bbox.
  apply logs_bind; [by apply logs_download_loop|].
  intros []; [apply logs_ret|apply logs_raise].
Qed.

Lemma logs_acquire (P : sigT call → Prop) settings :
  (∀ url filename, P (called (urlretrieve url filename))) →
  logs P (acquire self settings).
Proof.
  intros HP. unfold acquire.
  destruct (negb (has_keys settings ["filename"])); [|apply logs_ret].
  destruct (negb (has_any_key settings ["place_name"; "bbox"])); [apply logs_raise|].
  apply logs_bind.
  { destruct (has_keys settings ["bbox"]); [|apply logs_ret].
    apply logs_bind; [apply logs_getitem|]. intros bbox. by apply logs_load. }
  intros _. apply logs_bind; [|intros _; apply logs_ret].
  destruct (has_keys settings ["place_name"]); [apply logs_raise|apply logs_ret].
Qed.

Lemma closes_last_invoke : closes_last (Ext := Ext) (invoke db_close).
Proof.
  intros w w' r Hw. exists []. split; [constructor|]. right.
  by rewrite (invoke_calls _ _ _ _ Hw).
Qed.

Lemma closes_last_bind {A B} (m : M (world Ext) A) (f : A → M (world Ext) B) :
  logs not_close m → (∀ a, closes_last (f a)) → closes_last (m ≫= f).
Proof.
  intros Hm Hf w w' r. rewrite bind_eq. destruct (m w) as [w1 [a|e]] eqn:E.
  - intros Hfa. destruct (Hm _ _ _ E) as (n1 & E1 & H1).
    destruct (Hf a _ _ _ Hfa) as (n2 & H2 & [[E2 Hr]|E2]).
    + exists (n1 ++ n2). split; [by apply Forall_app|]. left.
      split; [by rewrite E2, E1, app_assoc|done].
    + exists (n1 ++ n2). split; [by apply Forall_app|]. right.
      by rewrite E2, E1, !app_assoc.
  - intros [= <- <-]. destruct (Hm _ _ _ E) as (n1 & E1 & H1).
    exists n1. split; [done|]. left. split; [done|by exists e].
Qed.

Ltac log_call := apply logs_invoke; exact I.

Lemma closes_last_osm settings : closes_last (osm_run_step self settings).
Proof.
  unfold osm_run_step.
  do 2 (apply closes_last_bind; [log_call|intros _]).
  apply closes_last_bind; [by apply logs_acquire|intros use_overpass_api].
  do 8 (apply closes_last_bind; [log_call|intros _]).
  apply closes_last_bind.
  { destruct (negb use_overpass_api); [apply logs_getitem|apply logs_ret]. }
  intros filename. unfold import_osm.
  do 6 (apply closes_last_bind; [log_call|intros _]).
  apply closes_last_bind; [|intros _; apply closes_last_invoke].
  apply logs_create_datasets. intros R c Hc. by destruct c.
Qed.

Lemma logs_create_table (P : sigT call → Prop) settings file :
  (∀ R (c : call R), not_close (called c) → P (called c)) →
  logs P (create_table self settings file).
Proof.
  intros HP. unfold create_table, ensure_data_file, ensure_schema_file, import_csv.
  apply logs_bind; [apply logs_getitem|intros filename_A].
  apply logs_bind.
  { apply logs_bind; [apply logs_gets|].
    intros []; [apply logs_ret|apply logs_on_files]. }
  intros _. apply logs_bind.
  { apply logs_bind; [apply logs_gets|].
    intros []; [apply logs_ret|apply logs_on_files]. }
  intros _.
  repeat (apply logs_bind; [by apply logs_invoke, HP|intros _]).
  by apply logs_invoke, HP.
Qed.

Lemma closes_last_gip settings : closes_last (gip_run_step self settings).
Proof.
  unfold gip_run_step.
  do 3 (apply closes_last_bind; [log_call|intros _]).
  apply closes_last_bind; [apply logs_getitem|intros filename_A].
  apply closes_last_bind; [log_call|intros _].
  apply closes_last_bind.
  { apply logs_for_each. intros file. unfold extract_member.
    apply logs_bind; [apply logs_gets|].
    intros []; [apply logs_ret|log_call]. }
  intros _. apply closes_last_bind; [|intros _; apply closes_last_invoke].
  apply logs_for_each. intros file. by apply logs_create_table.
Qed.

End RunLogs.

(** X15: in a run of either importer, [db.close()] is called at most
    once and nothing is called after it; a run that raises before its last
    step never calls it, so the connection stays open; a run that returns
    has called it. *)
Theorem X15_connection_is_closed_last `{Collaborators Ext} (self : DbStep) settings :
  closes_last (osm_run_step self settings)
  ∧ closes_last (gip_run_step self settings)
  ∧ (∀ (w w' : world Ext), osm_run_step self settings w = (w', Ok tt) →
       ∃ new, Forall not_close new ∧ calls w' = calls w ++ new ++ [called db_close])
  ∧ (∀ (w w' : world Ext), gip_run_step self settings w = (w', Ok tt) →
       ∃ new, Forall not_close new ∧ calls w' = calls w ++ new ++ [called db_close]).
Proof.
  split; [apply closes_last_osm|]. split; [apply closes_last_gip|].
  split; intros w w' Hrun.
  - destruct (closes_last_osm self settings _ _ _ Hrun)
      as (new & Hnew & [[_ [e He]]|Hcalls]); [done|by exists new].
  - destruct (closes_last_gip self settings _ _ _ Hrun)
      as (new & Hnew & [[_ [e He]]|Hcalls]); [done|by exists new].
Qed.

(** X15 on a run of the OSM importer with a file. *)
Lemma X15_connection_is_closed_last_witness :
  ∃ w' new, osm_run_step Demo.importer Demo.with_file Demo.start = (w', Ok tt)
    ∧ Forall not_close new
    ∧ calls w' = calls Demo.start ++ new ++ [called db_close].
Proof.
  destruct (osm_run_step Demo.importer Demo.with_file Demo.start) as [w' r] eqn:E.
  destruct r as [[]|e]; [|by vm_compute in E].
  destruct (X15_connection_is_closed_last Demo.importer Demo.with_file)
    as (_ & _ & Hosm & _).
  destruct (Hosm Demo.start w' E) as (new & Hnew & Hcalls).
  exists w', new. split; [reflexivity|]. split; [exact Hnew|exact Hcalls].
Defined.

(** ** Settings without the keys a run needs *)

Section MissingKeys.

Context `{Collaborators Ext}.
Variable self : DbStep.

Lemma acquire_nothing settings (w : world Ext) :
  settings !! "filename" = None → settings !! "bbox" = None →
  settings !! "place_name" = None →
  acquire self settings w
  = (w, Raise (Exception
      "neither 'aoi_name' nor 'bbox' parameter specified for OSM download. Terminating.")).
Proof.
  intros Hf Hb Hp. unfold acquire, has_keys, has_any_key. simpl.
  rewrite Hf, Hb, Hp.
  by rewrite !bool_decide_eq_false_2 by apply is_Some_None.
Qed.

Lemma logs_raise_bind {A B} P e (f : A → M (world Ext) B) :
  logs P (raise e ≫= f).
Proof. intros w w' r [= <- _]. exists []. by rewrite app_nil_r. Qed.

Lemma logs_singleton {R} (c : call R) (l : list (sigT call)) :
  called c ∈ l → logs (Ext := Ext) (fun c' => c' ∈ l) (invoke c).
Proof. intros Hc. by apply logs_invoke. Qed.

End MissingKeys.

(** X16: settings without [filename_A] make the run of the GIP importer
    raise [KeyError] once the connection is set up: when the three
    database calls ahead of it return, the run raises it in the world they
    left.  In no case does such a run return, open the archive, touch a
    file or a table, or close the connection: the only calls it can make
    are those three. *)
Theorem X16_gip_run_without_archive_name `{Collaborators Ext} (self : DbStep)
    settings :
  settings !! "filename_A" = None →
  logs (fun c => c ∈ [called PostgresConnection_from_settings_object;
                      called db_connect;
                      called (db_init_extensions_and_schema (data_schema self))])
    (gip_run_step self settings)
  ∧ (∀ w w' : world Ext, gip_run_step self settings w ≠ (w', Ok tt))
  ∧ (∀ w w1 w2 w3 : world Ext,
       invoke PostgresConnection_from_settings_object w = (w1, Ok tt) →
       invoke db_connect w1 = (w2, Ok tt) →
       invoke (db_init_extensions_and_schema (data_schema self)) w2 = (w3, Ok tt) →
       gip_run_step self settings w = (w3, Raise (KeyError "filename_A"))).
Proof.
  intros Hkey. unfold gip_run_step, getitem. rewrite Hkey. split; [|split].
  - apply logs_bind; [apply logs_singleton; set_solver|intros _].
    apply logs_bind; [apply logs_singleton; set_solver|intros _].
    apply logs_bind; [apply logs_singleton; set_solver|intros _].
    apply logs_raise_bind.
  - intros w w' Hrun.
    apply bind_Ok in Hrun as (w1 & [] & _ & Hrun).
    apply bind_Ok in Hrun as (w2 & [] & _ & Hrun).
    apply bind_Ok in Hrun as (w3 & [] & _ & Hrun).
    by apply bind_Ok in Hrun as (w4 & ? & Hraise & _).
  - intros w w1 w2 w3 H1 H2 H3.
    by rewrite bind_eq, H1, bind_eq, H2, bind_eq, H3.
Qed.

(** X16 on the installation, with empty settings. *)
Lemma X16_gip_run_without_archive_name_witness :
  (gip_run_step Demo.importer ∅ Demo.start).2 = Raise (KeyError "filename_A").
Proof.
  destruct (X16_gip_run_without_archive_name Demo.importer ∅) as (_ & _ & Hraise);
    [reflexivity|].
  by rewrite (Hraise Demo.start _ _ _ eq_refl eq_refl eq_refl).
Defined.

(** X17: settings with none of [filename], [bbox] and [place_name] make
    the acquisition raise its configuration exception at once, in the same
    world.  The run of the OSM importer has by then set up the database,
    and it makes no other call: nothing is downloaded, dropped or
    imported, and the connection is not closed. *)
Theorem X17_osm_run_without_source `{Collaborators Ext} (self : DbStep) settings :
  settings !! "filename" = None → settings !! "bbox" = None →
  settings !! "place_name" = None →
  (∀ w : world Ext, acquire self settings w
     = (w, Raise (Exception
          "neither 'aoi_name' nor 'bbox' parameter specified for OSM download. Terminating.")))
  ∧ logs (fun c => c ∈ [called PostgresConnection_from_settings_object;
                        called (db_init_extensions_and_schema (data_schema self))])
      (osm_run_step self settings)
  ∧ (∀ w w' : world Ext, osm_run_step self settings w ≠ (w', Ok tt)).
Proof.
  intros Hf Hb Hp. split; [intros w; by apply acquire_nothing|]. split.
  - unfold osm_run_step.
    apply logs_bind; [apply logs_singleton; set_solver|intros _].
    apply logs_bind; [apply logs_singleton; set_solver|intros _].
    intros w w' r. rewrite bind_eq, acquire_nothing by done.
    intros [= <- _]. exists []. by rewrite app_nil_r.
  - intros w w' Hrun. unfold osm_run_step in Hrun.
    apply bind_Ok in Hrun as (w1 & [] & _ & Hrun).
    apply bind_Ok in Hrun as (w2 & [] & _ & Hrun).
    apply bind_Ok in Hrun as (w3 & b & Hacq & _).
    by rewrite acquire_nothing in Hacq.
Qed.

(** X17 on the installation, with empty settings. *)
Lemma X17_osm_run_without_source_witness :
  (osm_run_step Demo.importer ∅ Demo.start).2
  = Raise (Exception
      "neither 'aoi_name' nor 'bbox' parameter specified for OSM download. Terminating.").
Proof.
  destruct (X17_osm_run_without_source Demo.importer ∅) as (_ & _ & Hnever);
    [reflexivity..|].
  destruct (osm_run_step Demo.importer ∅ Demo.start) as [w' r] eqn:E.
  destruct r as [[]|e]; [by destruct (Hnever Demo.start w')|].
  vm_compute in E. by injection E as _ <-.
Defined.

(** ** The requests of an acquisition *)

Section Requests.

Context `{Collaborators Ext}.
Variable self : DbStep.

Lemma download_loop_calls q_str endpoints (w w' : world Ext) r :
  download_loop self q_str endpoints w = (w', r) →
  ∃ k, (k ≤ length endpoints)%nat
    ∧ calls w' = calls w ++ attempts self q_str (take k endpoints)
    ∧ (r = Ok false → k = length endpoints).
Proof.
  revert w. induction endpoints as [|e endpoints IH]; intros w.
  - intros [= <- <-]. exists 0%nat. by rewrite app_nil_r.
  - rewrite download_loop_cons.
    destruct (invoke _ w) as [w1 [file|ex]] eqn:E.
    + intros [= <- <-]. exists 1%nat. simpl. split; [lia|]. split; [|done].
      by rewrite (invoke_calls _ _ _ _ E).
    + intros Hrest. destruct (IH _ Hrest) as (k & Hk & Hcalls & Hall).
      exists (S k). simpl. split; [lia|]. split; [|by intros ->%Hall].
      rewrite Hcalls, (invoke_calls _ _ _ _ E).
      by rewrite <- app_assoc.
Qed.

Lemma acquire_place_name_only settings (w : world Ext) :
  settings !! "filename" = None → settings !! "bbox" = None →
  is_Some (settings !! "place_name") →
  acquire self settings w
  = (w, Raise (NotImplementedError "OSM import from place name is not yet supported.")).
Proof.
  intros Hf Hb Hp. unfold acquire, has_keys, has_any_key. simpl.
  rewrite Hf, Hb.
  rewrite !bool_decide_eq_false_2 by apply is_Some_None.
  by rewrite !bool_decide_eq_true_2.
Qed.

Lemma acquire_bbox settings bbox (w : world Ext) :
  settings !! "filename" = None → settings !! "bbox" = Some bbox →
  acquire self settings w
  = (_load_osm_from_bbox self bbox;;
     (if bool_decide (is_Some (settings !! "place_name"))
      then raise (NotImplementedError "OSM import from place name is not yet supported.")
      else mret tt);;
     mret true) w.
Proof.
  intros Hf Hb. unfold acquire, has_keys, has_any_key, getitem. simpl.
  rewrite Hf, Hb.
  rewrite bool_decide_eq_false_2 by apply is_Some_None.
  rewrite !(bool_decide_eq_true_2 (is_Some (Some bbox))) by by eexists.
  simpl. rewrite orb_true_r. simpl.
  by destruct (bool_decide (is_Some (settings !! "place_name"))).
Qed.

End Requests.

(** X18: the failover is bounded by the list of endpoints.  Whatever the
    endpoints answer, the requests of an acquisition are those of the first
    [k] endpoints of the list, [k] at most its length, each asked once, in
    order and with the same query; when the acquisition raises, [k] is the
    length of the list. *)
Theorem X18_requests_are_a_prefix_of_the_endpoints `{Collaborators Ext}
    (self : DbStep) bbox (w w' : world Ext) r :
  _load_osm_from_bbox self bbox w = (w', r) →
  ∃ k, (k ≤ length (overpass_api_endpoints (global_settings self)))%nat
    ∧ calls w' = calls w
        ++ attempts self (Py.replace "__bbox__" bbox q_template)
             (take k (overpass_api_endpoints (global_settings self)))
    ∧ (∀ e, r = Raise e →
         k = length (overpass_api_endpoints (global_settings self))).
Proof.
  unfold _load_osm_from_bbox. rewrite bind_eq.
  destruct (download_loop self _ _ w) as [w1 r1] eqn:E.
  destruct (download_loop_calls _ _ _ _ _ _ E) as (k & Hk & Hcalls & Hall).
  destruct (download_loop_result _ _ _ _ _ _ E) as [->|[-> _]]; simpl.
  - intros [= <- <-]. exists k. by repeat split.
  - intros [= <- <-]. exists k. repeat split; [done..|]. intros _ _. by apply Hall.
Qed.

(** X18 on the installation: three requests for four endpoints. *)
Lemma X18_requests_are_a_prefix_of_the_endpoints_witness :
  ∃ k, (k ≤ 4)%nat
    ∧ calls (_load_osm_from_bbox Demo.importer "1,2,3,4" Demo.start).1
      = attempts Demo.importer (Py.replace "__bbox__" "1,2,3,4" q_template)
          (take k (overpass_api_endpoints Demo.settings)).
Proof.
  destruct (_load_osm_from_bbox Demo.importer "1,2,3,4" Demo.start) as [w' r] eqn:E.
  destruct (X18_requests_are_a_prefix_of_the_endpoints Demo.importer "1,2,3,4"
              Demo.start w' r E) as (k & Hk & Hcalls & _).
  exists k. split; [exact Hk|exact Hcalls].
Defined.

(** X19: a place name is never served.  With [place_name] and without
    [filename] the acquisition never returns.  Without [bbox] it raises
    [NotImplementedError] at once, in the same world; with [bbox] the
    download is done first, and when it has succeeded the acquisition
    raises [NotImplementedError] all the same, in the world the download
    left, the downloaded file included. *)
Theorem X19_place_name_is_refused `{Collaborators Ext} (self : DbStep) settings :
  settings !! "filename" = None → is_Some (settings !! "place_name") →
  (∀ (w w' : world Ext) b, acquire self settings w ≠ (w', Ok b))
  ∧ (settings !! "bbox" = None →
     ∀ w : world Ext, acquire self settings w
       = (w, Raise (NotImplementedError
                      "OSM import from place name is not yet supported.")))
  ∧ (∀ bbox (w w' : world Ext), settings !! "bbox" = Some bbox →
       _load_osm_from_bbox self bbox w = (w', Ok tt) →
       acquire self settings w
       = (w', Raise (NotImplementedError
                       "OSM import from place name is not yet supported."))).
Proof.
  intros Hf Hp.
  assert (∀ bbox (w w' : world Ext) r, settings !! "bbox" = Some bbox →
            acquire self settings w = (w', r) →
            (∃ e, _load_osm_from_bbox self bbox w = (w', Raise e) ∧ r = Raise e)
            ∨ (_load_osm_from_bbox self bbox w = (w', Ok tt)
               ∧ r = Raise (NotImplementedError
                              "OSM import from place name is not yet supported.")))
    as Hbbox.
  { intros bbox w w' r Hb. rewrite (acquire_bbox _ _ bbox) by done.
    rewrite bind_eq. destruct (_load_osm_from_bbox self bbox w) as [w1 [[]|e]].
    - rewrite bind_eq, bool_decide_eq_true_2 by done.
      intros [= <- <-]. by right.
    - intros [= <- <-]. left. by exists e. }
  split; [|split].
  - intros w w' b Hacq. destruct (settings !! "bbox") as [bbox|] eqn:Hb.
    + by destruct (Hbbox bbox w w' _ eq_refl Hacq) as [(e & _ & ?)|[_ ?]].
    + by rewrite acquire_place_name_only in Hacq.
  - intros Hb w. by apply acquire_place_name_only.
  - intros bbox w w' Hb Hload.
    destruct (acquire self settings w) as [w1 r] eqn:Hacq.
    destruct (Hbbox bbox w w1 r Hb Hacq) as [(e & Hl & ->)|[Hl ->]];
      rewrite Hload in Hl; by inversion Hl.
Qed.

(** X19 on the installation: the download succeeds and is thrown away. *)
Lemma X19_place_name_is_refused_witness :
  (acquire Demo.importer (delete "filename" Demo.with_file) Demo.start).2
  = Raise (NotImplementedError "OSM import from place name is not yet supported.").
Proof.
  destruct (X19_place_name_is_refused Demo.importer (delete "filename" Demo.with_file))
    as (_ & _ & Hafter); [by vm_compute|by vm_compute; eexists|].
  destruct (_load_osm_from_bbox Demo.importer "47.7,12.9,47.9,13.2" Demo.start)
    as [w' r] eqn:E.
  destruct r as [[]|e]; [|by vm_compute in E].
  by rewrite (Hafter "47.7,12.9,47.9,13.2" Demo.start w' ltac:(by vm_compute) E).
Defined.

Section Downloaded.

Context `{Collaborators Ext}.
Variable self : DbStep.

Ltac log_any := apply logs_invoke; exact I.

Lemma acquire_bbox_only settings bbox :
  settings !! "filename" = None → settings !! "bbox" = Some bbox →
  settings !! "place_name" = None →
  ∀ (w w' : world Ext) r, acquire self settings w = (w', r) →
    (_load_osm_from_bbox self bbox w = (w', Ok tt) ∧ r = Ok true)
    ∨ ∃ e, _load_osm_from_bbox self bbox w = (w', Raise e) ∧ r = Raise e.
Proof.
  intros Hf Hb Hp w w' r. rewrite (acquire_bbox _ _ bbox) by done.
  rewrite Hp, bool_decide_eq_false_2 by apply is_Some_None.
  rewrite bind_eq. destruct (_load_osm_from_bbox self bbox w) as [w1 [[]|e]].
  - intros [= <- <-]. by left.
  - intros [= <- <-]. right. by exists e.
Qed.

Lemma logs_on_success_downloaded settings bbox :
  settings !! "filename" = None → settings !! "bbox" = Some bbox →
  settings !! "place_name" = None →
  logs_on_success
    (called (subprocess_run
       [osm2pgsql_command (connection_string self) (download_target self)
          (OsPath.join "resources" ["default.style"]) (data_schema self)
          (Some "osm")] true))
    (osm_run_step self settings).
Proof.
  intros Hf Hb Hp. unfold osm_run_step.
  do 2 (apply logs_on_success_bind_r; [log_any | intros _]).
  apply (logs_on_success_bind_val _ (fun a => a = true)).
  { by apply logs_acquire. }
  { intros w w' a Hacq.
    by destruct (acquire_bbox_only _ _ Hf Hb Hp _ _ _ Hacq) as [[_ [= ->]]|(e & _ & ?)]. }
  intros a ->.
  do 8 (apply logs_on_success_bind_r; [log_any | intros _]).
  simpl negb. cbv iota. apply logs_on_success_ret_bind. unfold import_osm.
  apply logs_on_success_bind_l; [apply logs_on_success_invoke | intros _].
  repeat (apply logs_bind; [log_any | intros _]).
  apply logs_bind; [apply logs_create_datasets, builder_calls_any | intros _].
  log_any.
Qed.

Lemma create_dataset_block name sql (w w' : world Ext) :
  create_dataset self name sql w = (w', Ok tt) →
  ∃ go, (invoke (db_handle_conflicting_output_tables [name] (data_schema self)) w).2
        = Ok go
    ∧ calls w' = calls w ++ block_calls self (name, sql) go.
Proof.
  unfold create_dataset. rewrite bind_eq.
  destruct (invoke _ w) as [w1 [go|e]] eqn:E1; [|done].
  apply invoke_calls in E1. intros Hrun. exists go. split; [done|].
  destruct go.
  - rewrite bind_eq in Hrun.
    destruct (invoke (db_execute _ _) w1) as [w2 [[]|e]] eqn:E2; [|done].
    apply invoke_calls in E2, Hrun.
    rewrite Hrun, E2, E1. unfold block_calls. simpl. by rewrite <- !app_assoc.
  - injection Hrun as <-. by rewrite E1.
Qed.

Lemma create_all_blocks ds (w w' : world Ext) :
  create_all self ds w = (w', Ok tt) →
  ∃ answers, blocks_run self ds answers w w'.
Proof.
  revert w. induction ds as [|[name sql] ds IH]; intros w.
  - intros [= <-]. by exists [].
  - simpl. intros Hrun. apply bind_Ok in Hrun as (w1 & [] & Hfirst & Hrest).
    pose proof (create_dataset_block _ _ _ _ Hfirst) as (go & Hgo & Hcalls).
    apply IH in Hrest as [answers Hanswers].
    exists (go :: answers), w1. by repeat split.
Qed.

Lemma blocks_run_calls ds answers (w w' : world Ext) :
  blocks_run self ds answers w w' →
  length answers = length ds
  ∧ calls w' = calls w ++ concat (zip_with (block_calls self) ds answers).
Proof.
  revert answers w. induction ds as [|d ds IH]; intros [|go answers] w; try done.
  - intros ->. by rewrite app_nil_r.
  - intros (w1 & _ & _ & Hcalls & Hrest). apply IH in Hrest as [Hlen Hrest].
    split; [simpl; by rewrite Hlen|].
    rewrite Hrest, Hcalls. simpl zip_with. simpl concat. by rewrite <- app_assoc.
Qed.

End Downloaded.

(** X20: with [bbox] alone the acquisition is the download: it returns
    with [use_overpass_api] true exactly when the download returns, and it
    raises what the download raises.  A run that returns has then started
    the import of the very file the download was told to write, the
    download target. *)
Theorem X20_downloaded_file_is_imported `{Collaborators Ext} (self : DbStep)
    settings bbox :
  settings !! "filename" = None → settings !! "bbox" = Some bbox →
  settings !! "place_name" = None →
  (∀ (w w' : world Ext) r, acquire self settings w = (w', r) →
     (_load_osm_from_bbox self bbox w = (w', Ok tt) ∧ r = Ok true)
     ∨ ∃ e, _load_osm_from_bbox self bbox w = (w', Raise e) ∧ r = Raise e)
  ∧ logs_on_success
      (called (subprocess_run
         [osm2pgsql_command (connection_string self) (download_target self)
            (OsPath.join "resources" ["default.style"]) (data_schema self)
            (Some "osm")] true))
      (osm_run_step self settings).
Proof.
  intros Hf Hb Hp.
  split; [by apply acquire_bbox_only|by eapply logs_on_success_downloaded].
Qed.

(** X20 on the installation. *)
Lemma X20_downloaded_file_is_imported_witness :
  (acquire Demo.importer {[ "bbox" := "1,2,3,4" ]} Demo.start).2 = Ok true.
Proof.
  destruct (X20_downloaded_file_is_imported Demo.importer {[ "bbox" := "1,2,3,4" ]}
              "1,2,3,4") as [Hacq _]; [by vm_compute..|].
  destruct (acquire Demo.importer {[ "bbox" := "1,2,3,4" ]} Demo.start)
    as [w' r] eqn:E.
  destruct (Hacq Demo.start w' r E) as [[_ ->]|(e & Hload & _)]; [done|].
  by vm_compute in Hload.
Defined.

(** X21: a run of the builder that returns is a run of the five blocks,
    in the order building, crossing, facility, greenness, water.  Each block
    asks the conflict check for its dataset once and, exactly when the check
    answered [True] in the world the block started in, executes the
    statement of the dataset and commits right after; a block whose check
    answered [False] makes no other call.  The builder makes no call
    besides. *)
Theorem X21_builder_calls `{Collaborators Ext} (self : DbStep) (w w' : world Ext) :
  create_datasets self w = (w', Ok tt) →
  ∃ answers, blocks_run self datasets answers w w'
    ∧ length answers = 5%nat
    ∧ calls w' = calls w ++ concat (zip_with (block_calls self) datasets answers).
Proof.
  rewrite create_datasets_all. intros Hrun.
  apply create_all_blocks in Hrun as [answers Hanswers].
  exists answers. split; [exact Hanswers|].
  exact (blocks_run_calls self datasets answers w w' Hanswers).
Qed.

(** X21 on the installation, from an empty database. *)
Lemma X21_builder_calls_witness :
  ∃ answers, blocks_run Demo.importer datasets answers Demo.start
               (create_datasets Demo.importer Demo.start).1
    ∧ calls (create_datasets Demo.importer Demo.start).1
      = concat (zip_with (block_calls Demo.importer) datasets answers).
Proof.
  destruct (create_datasets Demo.importer Demo.start) as [w' r] eqn:E.
  destruct r as [[]|e]; [|by vm_compute in E].
  destruct (X21_builder_calls Demo.importer Demo.start w' E)
    as (answers & Hrun & Hlen & Hcalls).
  exists answers. split; [exact Hrun|exact Hcalls].
Defined.

(** ** The address of a request *)

Section Address.

Lemma percent_chars b : forallb url_char (chars (Urllib.percent b)) = true.
Proof. destruct b as [[] [] [] [] [] [] [] []]; reflexivity. Qed.

Lemma forallb_chars_app f s t :
  forallb f (chars (s +:+ t)) = forallb f (chars s) && forallb f (chars t).
Proof. by rewrite chars_app, forallb_app. Qed.

Lemma quote_bytes_chars bs : forallb url_char (chars (Urllib.quote_bytes bs)) = true.
Proof.
  induction bs as [|b bs IH]; [done|]. simpl.
  destruct (Ascii.eqb b " "); [by simpl; rewrite IH|].
  destruct (Urllib.always_safe b) eqn:Hb.
  - change (chars (String b ?x)) with (b :: chars x). simpl.
    unfold url_char at 1. by rewrite Hb, IH.
  - by rewrite forallb_chars_app, percent_chars, IH.
Qed.

End Address.

(** X22: the address of a request is the endpoint, [?data=] and the
    quoted query, and the quoted query consists of letters, digits and
    the characters [_ . - ~ + %] only, whatever the bounding box holds: no
    blank, line break, quote or ampersand of the query reaches the
    address unescaped. *)
Theorem X22_query_is_escaped endpoint q_str :
  download_url endpoint q_str = endpoint +:+ "?data=" +:+ Urllib.quote_plus q_str
  ∧ forallb url_char (chars (Urllib.quote_plus q_str)) = true.
Proof. split; [done|apply quote_bytes_chars]. Qed.

(** ** The import of a geopackage *)

Section GeopackageFacts.

Context `{Collaborators Ext}.
Variable ogr_Open : string → option DataSource.

Lemma geometry_types_of_cons ds x layers :
  geometry_types_of (Some ds) (x :: layers)
  = match GetLayerByName ds x with
    | Some l =>
        match geometry_types_of (Some ds) layers with
        | Ok ts => Ok (GetGeomType l :: ts)
        | Raise e => Raise e
        end
    | None => Raise (AttributeError "GetGeomType")
    end.
Proof.
  unfold geometry_types_of. simpl. destruct (GetLayerByName ds x); [|done].
  simpl. by destruct (mapM _ layers).
Qed.

Lemma geometry_types_of_unknown ds layers name :
  name ∈ layers → GetLayerByName ds name = None →
  geometry_types_of (Some ds) layers = Raise (AttributeError "GetGeomType").
Proof.
  intros Hin Hnone.
  induction layers as [|x layers IH]; [by apply elem_of_nil in Hin|].
  rewrite geometry_types_of_cons.
  destruct (GetLayerByName ds x) as [l|] eqn:Ex; [|done].
  apply elem_of_cons in Hin as [->|Hin]; [congruence|].
  by rewrite (IH Hin).
Qed.

Lemma geometry_types_of_known ds layers types :
  geometry_types_of (Some ds) layers = Ok types →
  Forall (fun name => is_Some (GetLayerByName ds name)) layers.
Proof.
  revert types.
  induction layers as [|x layers IH]; intros types; [by constructor|].
  rewrite geometry_types_of_cons.
  destruct (GetLayerByName ds x) as [l|] eqn:Ex; [|done].
  destruct (geometry_types_of (Some ds) layers) as [ts|] eqn:Ets; [|done].
  intros _. constructor; [by eexists|]. by apply (IH ts).
Qed.

Lemma set_has_two (types : list Z) :
  (∃ x y, x ∈ types ∧ y ∈ types ∧ x ≠ y) →
  (1 < size (list_to_set types : gset Z))%nat.
Proof.
  intros (x & y & Hx & Hy & Hne).
  assert (({[x]} ∪ {[y]} : gset Z) ⊆ list_to_set types) as Hsub.
  { apply union_subseteq. split; apply singleton_subseteq_l;
      by apply elem_of_list_to_set. }
  apply subseteq_size in Hsub. rewrite size_union in Hsub by set_solver.
  rewrite !size_singleton in Hsub. lia.
Qed.

Lemma set_has_one (types : list Z) :
  (∀ x y, x ∈ types → y ∈ types → x = y) →
  (size (list_to_set types : gset Z) ≤ 1)%nat.
Proof.
  intros Hsame. destruct types as [|x types].
  { change (list_to_set [] : gset Z) with (∅ : gset Z). rewrite size_empty. lia. }
  assert ((list_to_set (x :: types) : gset Z) ⊆ {[x]}) as Hsub.
  { intros y Hy%elem_of_list_to_set. apply elem_of_singleton.
    apply Hsame; [done|by left]. }
  apply subseteq_size in Hsub. by rewrite size_singleton in Hsub.
Qed.

Lemma import_layers_calls ds conn path schema table fid transform geometry_type
    attributes geometry_types layers (w w' : world Ext) r :
  Forall (fun name => is_Some (GetLayerByName ds name)) layers →
  for_each (import_layer (Some ds) conn path schema table fid transform
              geometry_type attributes geometry_types) layers w = (w', r) →
  ∃ k new, (k ≤ length layers)%nat ∧ calls w' = calls w ++ new
    ∧ Forall2 (fun name c => ∃ l, GetLayerByName ds name = Some l
         ∧ c = called (subprocess_run
                  [ogr2ogr_command conn fid schema table transform geometry_type
                     (select_option attributes)
                     (where_option (GetGeometryColumn l) geometry_types)
                     path name] true))
        (take k layers) new
    ∧ (r = Ok tt → k = length layers).
Proof.
  revert w. induction layers as [|name layers IH]; intros w Hknown.
  - intros [= <- <-]. exists 0%nat, []. rewrite app_nil_r.
    repeat split; [done..|constructor|done].
  - apply Forall_cons in Hknown as [[l Hl] Hknown]. simpl.
    rewrite bind_eq. unfold import_layer at 1. rewrite bind_eq.
    unfold lift_result, layer_by_name. rewrite Hl.
    destruct (invoke _ w) as [w1 [[]|e]] eqn:E.
    + intros Hrest. destruct (IH _ Hknown Hrest) as (k & new & Hk & Hcalls & Hnew & Hall).
      exists (S k). eexists. split; [simpl; lia|]. split.
      { rewrite Hcalls, (invoke_calls _ _ _ _ E), <- app_assoc. reflexivity. }
      split; [|by intros ->%Hall].
      simpl. constructor; [|done]. by exists l.
    + intros [= <- <-]. exists 1%nat. eexists. split; [simpl; lia|].
      split; [by rewrite (invoke_calls _ _ _ _ E)|]. split; [|done].
      simpl. rewrite take_0. constructor; [|constructor]. by exists l.
Qed.

End GeopackageFacts.

(** X23: nothing is imported unless every requested layer is known.
    When one of the layers asked for is not in the data source,
    [import_geopackage] raises the [AttributeError] of the call on [None]
    before it starts any process: no layer is imported, the known ones
    ahead of it in the list included.  When the file cannot be opened and
    the list of layers is not the empty list, it raises before any process
    as well. *)
Theorem X23_unknown_layer_imports_nothing `{Collaborators Ext}
    (ogr_Open : string → option DataSource) conn path schema table fid srid
    layers attributes geometry_types (w : world Ext) :
  (∀ ds ls name, ogr_Open path = Some ds → layers = Some ls →
     name ∈ ls → GetLayerByName ds name = None →
     import_geopackage ogr_Open conn path schema table fid srid layers
       attributes geometry_types w
     = (w, Raise (AttributeError "GetGeomType")))
  ∧ (ogr_Open path = None → layers ≠ Some [] →
     ∃ e, import_geopackage ogr_Open conn path schema table fid srid layers
            attributes geometry_types w = (w, Raise e)).
Proof.
  split.
  - intros ds ls name Hopen -> Hin Hnone. unfold import_geopackage.
    rewrite Hopen, bind_eq. simpl layer_names. unfold lift_result at 1.
    rewrite bind_eq. unfold lift_result at 1.
    by rewrite (geometry_types_of_unknown ds ls name).
  - intros Hopen Hlayers. unfold import_geopackage. rewrite Hopen, bind_eq.
    destruct layers as [[|x ls]|]; [done|..]; by eexists.
Qed.

(** X23 on the geopackage of the installation, asked for a layer it
    has and one it has not. *)
Lemma X23_unknown_layer_imports_nothing_witness :
  import_geopackage demo_ogr_Open "dbname=netascore" "net.gpkg" "data" "net"
    None None (Some ["roads"; "rails"]) None None Demo.start
  = (Demo.start, Raise (AttributeError "GetGeomType")).
Proof.
  destruct (X23_unknown_layer_imports_nothing demo_ogr_Open "dbname=netascore"
              "net.gpkg" "data" "net" None None (Some ["roads"; "rails"]) None None
              Demo.start) as [Hunknown _].
  apply (Hunknown demo_source ["roads"; "rails"] "rails"); try reflexivity.
  apply elem_of_cons. right. apply elem_of_cons. by left.
Defined.

(** X24: one process per layer, in order.  When the file opens and all
    the layers are known, the calls of [import_geopackage] are the
    [ogr2ogr] commands of the first [k] layers, one for each and in the
    order of the list (of the data source when no list is given), built
    with the same options but for the geometry column and the name of the
    layer; a run that returns has started the commands of all the
    layers. *)
Theorem X24_one_process_per_layer `{Collaborators Ext}
    (ogr_Open : string → option DataSource) conn path schema table fid srid
    layers attributes geometry_types ds ls types (w w' : world Ext) r :
  ogr_Open path = Some ds →
  layer_names (Some ds) layers = Ok ls →
  geometry_types_of (Some ds) ls = Ok types →
  import_geopackage ogr_Open conn path schema table fid srid layers
    attributes geometry_types w = (w', r) →
  ∃ k new, (k ≤ length ls)%nat ∧ calls w' = calls w ++ new
    ∧ Forall2 (fun name c => ∃ l, GetLayerByName ds name = Some l
         ∧ c = layer_call conn path schema table fid srid attributes
                 geometry_types types l name)
        (take k ls) new
    ∧ (r = Ok tt → k = length ls).
Proof.
  intros Hopen Hnames Htypes. unfold import_geopackage.
  rewrite Hopen, bind_eq, Hnames. unfold lift_result at 1.
  rewrite bind_eq, Htypes. unfold lift_result at 1.
  intros Hrun.
  by apply (import_layers_calls ds) in Hrun;
    [|by eapply geometry_types_of_known].
Qed.

(** X24 on the geopackage of the installation, with no list of layers. *)
Lemma X24_one_process_per_layer_witness :
  ∃ new, calls (import_geopackage demo_ogr_Open "dbname=netascore" "net.gpkg"
                  "data" "net" None (Some 32633%Z) None None None Demo.start).1
         = new ∧ length new = 2%nat.
Proof.
  destruct (import_geopackage demo_ogr_Open "dbname=netascore" "net.gpkg"
              "data" "net" None (Some 32633%Z) None None None Demo.start)
    as [w' r] eqn:E.
  destruct r as [[]|e]; [|by vm_compute in E].
  destruct (X24_one_process_per_layer demo_ogr_Open "dbname=netascore" "net.gpkg"
              "data" "net" None (Some 32633%Z) None None None demo_source
              ["roads"; "stops"] [2%Z; 1%Z] Demo.start w' (Ok tt)
              eq_refl eq_refl eq_refl E) as (k & new & Hk & Hcalls & Hnew & Hall).
  exists new. split; [exact Hcalls|].
  apply Forall2_length in Hnew. rewrite <- Hnew, (Hall eq_refl).
  reflexivity.
Defined.

(** X25: the layers are imported as generic geometries exactly when
    they are of mixed types.  The option [-nlt GEOMETRY] is in the commands
    when two of the requested layers differ in the code of their geometry
    type, and only then: with a single type, or no layer, the option is
    empty. *)
Theorem X25_generic_geometry_for_mixed_layers (types : list Z) :
  ((∃ x y, x ∈ types ∧ y ∈ types ∧ x ≠ y) →
   geometry_type_option (list_to_set types) = "-nlt GEOMETRY")
  ∧ ((∀ x y, x ∈ types → y ∈ types → x = y) →
     geometry_type_option (list_to_set types) = "").
Proof.
  unfold geometry_type_option. split.
  - intros Htwo%set_has_two. by rewrite (proj2 (Nat.ltb_lt _ _) Htwo).
  - intros Hone%set_has_one.
    by rewrite (proj2 (Nat.ltb_ge _ _) Hone).
Qed.

(** X25 on a line layer and a point layer. *)
Lemma X25_generic_geometry_for_mixed_layers_witness :
  geometry_type_option (list_to_set [2%Z; 1%Z]) = "-nlt GEOMETRY".
Proof.
  destruct (X25_generic_geometry_for_mixed_layers [2%Z; 1%Z]) as [Hmixed _].
  apply Hmixed. exists 2%Z, 1%Z. split; [by left|].
  split; [right; by left|discriminate].
Defined.

(** ** The choice of the importer *)

Section Choice.



End Choice.



(** * The generators on whole sources *)

(** ** Rows of quoted values *)

Section QuotedRows.









End QuotedRows.

Section TaggedLines.



Lemma startswith_head c tag line :
  Py.startswith line (String c tag) = true → ∃ line', line = String c line'.
Proof.
  unfold Py.startswith. destruct line as [|b line]; [done|].
  rewrite prefix_cons. destruct (ascii_dec c b) as [<-|]; [|done]. by eexists.
Qed.






End TaggedLines.



(** ** The statement of a source *)

Section Source.

Lemma last_tagged_cons tag line f :
  last_tagged tag (line :: f)
  = match last_tagged tag f with
    | Some l => Some l
    | None => if Py.startswith line tag then Some line else None
    end.
Proof. reflexivity. Qed.

Lemma header_of_no_rec f :
  Forall (fun l => Py.startswith l "rec;" = false) (header_of f).
Proof.
  induction f as [|line f IH]; [constructor|]. simpl.
  destruct (Py.startswith line "rec;") eqn:E; [constructor|by constructor].
Qed.

(** The scan reads the lines ahead of the first [rec] line only. *)
Lemma create_sql_loop_header file_txt f v (fs : files) :
  create_sql_loop file_txt f v fs = create_sql_loop file_txt (header_of f) v fs.
Proof.
  revert v fs. induction f as [|line f IH]; intros v fs; [done|].
  simpl header_of. destruct (Py.startswith line "rec;") eqn:Er.
  - destruct (startswith_rec_only _ Er) as (Ht & Ha & Hf).
    simpl. by rewrite Ht, Ha, Hf, Er.
  - simpl. rewrite Er.
    destruct (Py.startswith line "tbl;"); [rewrite !bind_eq; apply IH|].
    destruct (Py.startswith line "atr;"); [apply IH|].
    destruct (Py.startswith line "frm;"); apply IH.
Qed.

(** After the scan each local holds what the last line with its tag gave
    it, and the schema file is there, empty, when a [tbl] line was read. *)
Lemma create_sql_loop_scan file_txt pre v (fs : files) :
  Forall (fun l => Py.startswith l "rec;" = false) pre →
  create_sql_loop file_txt pre v fs
  = (match last_tagged "tbl;" pre with
     | Some _ => <[sql_file file_txt := ""]> fs
     | None => fs
     end,
     Ok {| file_sql := match last_tagged "tbl;" pre with
                       | Some _ => Some (sql_file file_txt)
                       | None => file_sql v
                       end;
           tbl := match last_tagged "tbl;" pre with
                  | Some l => Some (Py.lower (Py.strip (Py.slice_from 4 l)))
                  | None => tbl v
                  end;
           atr := match last_tagged "atr;" pre with
                  | Some l => Some (fields l)
                  | None => atr v
                  end;
           frm := match last_tagged "frm;" pre with
                  | Some l => Some (fields l)
                  | None => frm v
                  end |}).
Proof.
  revert v fs. induction pre as [|line pre IH]; intros v fs Hpre.
  - by destruct v.
  - apply Forall_cons in Hpre as [Hr Hpre].
    rewrite !last_tagged_cons. simpl create_sql_loop.
    destruct (Py.startswith line "tbl;") eqn:Et.
    { destruct (startswith_head _ _ _ Et) as [line' ->].
      change (Py.startswith (String "t" line') "atr;") with false.
      change (Py.startswith (String "t" line') "frm;") with false.
      rewrite bind_eq. unfold open_w. rewrite (IH _ _ Hpre).
      cbn [file_sql tbl atr frm]. fold (sql_file file_txt).
      destruct (last_tagged "tbl;" pre), (last_tagged "atr;" pre),
        (last_tagged "frm;" pre); by rewrite ?insert_insert_eq. }
    destruct (Py.startswith line "atr;") eqn:Ea.
    { destruct (startswith_head _ _ _ Ea) as [line' ->].
      change (Py.startswith (String "a" line') "frm;") with false.
      rewrite (IH _ _ Hpre). cbn [file_sql tbl atr frm]. unfold fields.
      by destruct (last_tagged "tbl;" pre), (last_tagged "atr;" pre),
        (last_tagged "frm;" pre). }
    destruct (Py.startswith line "frm;") eqn:Ef.
    { rewrite (IH _ _ Hpre). cbn [file_sql tbl atr frm]. unfold fields.
      by destruct (last_tagged "tbl;" pre), (last_tagged "atr;" pre),
        (last_tagged "frm;" pre). }
    rewrite Hr, (IH _ _ Hpre).
    by destruct (last_tagged "tbl;" pre), (last_tagged "atr;" pre),
      (last_tagged "frm;" pre).
Qed.

(** [create_sql] on a source with a table name, column names and column
    types: the statement is made from the last [tbl], [atr] and [frm]
    lines ahead of the first [rec] line; when a type does not map, the
    schema file is left empty. *)
Lemma create_sql_on_source file_txt (fs : files) bytes tbl_line atr_line frm_line :
  fs !! file_txt = Some bytes →
  last_tagged "tbl;" (header_of (Py.lines (Py.universal_newlines bytes))) = Some tbl_line →
  last_tagged "atr;" (header_of (Py.lines (Py.universal_newlines bytes))) = Some atr_line →
  last_tagged "frm;" (header_of (Py.lines (Py.universal_newlines bytes))) = Some frm_line →
  create_sql file_txt fs
  = match map_types (fields frm_line) with
    | Ok types =>
        (<[sql_file file_txt :=
             Py.utf8 ("CREATE TABLE gip_"
                      +:+ Py.lower (Py.strip (Py.slice_from 4 tbl_line)) +:+ " (" +:+
                      Py.join ", " (columns_of (column_name <$> fields atr_line) types)
                      +:+ ");")]> fs, Ok tt)
    | Raise e => (<[sql_file file_txt := ""]> fs, Raise e)
    end.
Proof.
  intros Hfile Ht Ha Hf. unfold create_sql. rewrite bind_eq. unfold read_lines.
  rewrite Hfile, bind_eq, create_sql_loop_header.
  rewrite create_sql_loop_scan by apply header_of_no_rec.
  rewrite Ht, Ha, Hf. cbv beta iota. rewrite bind_eq. unfold lift_result.
  cbn [tbl atr frm file_sql].
  destruct (map_types (fields frm_line)) as [types|e] eqn:Etypes.
  - rewrite (sql_of_columns _ _ _ _ Etypes). rewrite bind_eq.
    change (local "file_sql" (Some (sql_file file_txt)) (<[sql_file file_txt:=""]> fs))
      with (<[sql_file file_txt:=""]> fs, Ok (sql_file file_txt)).
    cbv beta iota.
    rewrite (write_at _ _ "") by apply lookup_insert_eq.
    by rewrite insert_insert_eq, append_nil_l.
  - unfold sql_of. simpl. rewrite rename_offset_fmap. simpl. by rewrite Etypes.
Qed.

End Source.

(** C5, amended: [create_sql] does not compare the numbers of fields of
    the [atr] and the [frm] record, the last [atr] and [frm] lines ahead of
    the first [rec] line.  Whether it emits the statement depends on the
    type tokens alone.  When every token of the [frm] record maps, the
    statement is written, for equal and for different numbers alike: names
    and types are paired by position, the statement has as many columns as
    the shorter record has fields, and the fields of the longer one beyond
    that are left out.  When a token does not map, one beyond the last
    column name included, [create_sql] raises what the mapping raises and
    leaves the schema file empty.  A token does not map exactly when it
    starts with [decimal(P)] for a precision [int] refuses, the empty one
    or one of more than 4300 digits. *)
Theorem C5_columns_up_to_shorter file_txt (fs : files) bytes
    tbl_line atr_line frm_line :
  fs !! file_txt = Some bytes →
  sql_file file_txt ≠ file_txt →
  last_tagged "tbl;" (header_of (Py.lines (Py.universal_newlines bytes))) = Some tbl_line →
  last_tagged "atr;" (header_of (Py.lines (Py.universal_newlines bytes))) = Some atr_line →
  last_tagged "frm;" (header_of (Py.lines (Py.universal_newlines bytes))) = Some frm_line →
  let tbl := Py.lower (Py.strip (Py.slice_from 4 tbl_line)) in
  let atr := Py.split ";" (Py.lower (Py.strip (Py.slice_from 4 atr_line))) in
  let frm := Py.split ";" (Py.lower (Py.strip (Py.slice_from 4 frm_line))) in
  (∀ types, map_types frm = Ok types →
     create_sql file_txt fs
     = (<[sql_file file_txt :=
            Py.utf8 ("CREATE TABLE gip_" +:+ tbl +:+ " (" +:+
                     Py.join ", " (columns_of (column_name <$> atr) types) +:+ ");")]> fs,
        Ok tt)
     ∧ length (columns_of (column_name <$> atr) types)
       = Nat.min (length atr) (length frm)
     ∧ (∀ i a t, atr !! i = Some a → frm !! i = Some t →
          ∃ ty, frm_type t = Ok ty
            ∧ columns_of (column_name <$> atr) types !! i
              = Some (column_name a +:+ " " +:+ ty)))
  ∧ (∀ e, map_types frm = Raise e →
       create_sql file_txt fs = (<[sql_file file_txt := ""]> fs, Raise e))
  ∧ ((∃ types, map_types frm = Ok types) ↔ Forall (fun tok => ¬ unconvertible tok) frm).
Proof.
  intros Hfile Hother Ht Ha Hf tbl atr frm.
  pose proof (create_sql_on_source _ _ _ _ _ _ Hfile Ht Ha Hf) as Hrun.
  fold tbl in Hrun. change (fields atr_line) with atr in Hrun.
  change (fields frm_line) with frm in Hrun.
  split; [|split].
  - intros types Htypes. rewrite Htypes in Hrun.
    split; [exact Hrun|].
    split; [by apply (columns_of_length atr frm)|].
    intros i a t. by apply columns_of_lookup.
  - intros e He. by rewrite He in Hrun.
  - apply map_types_Ok_iff.
Qed.

(** The amended C5 on two names and one type, and on one name and two
    types, the second one with an empty precision. *)
Lemma C5_columns_up_to_shorter_witness :
  create_sql "gip/t.txt" Demo.uneven_fs
  = (<[sql_file "gip/t.txt" :=
         Py.utf8 ("CREATE TABLE gip_" +:+ "t" +:+ " (" +:+
                  Py.join ", " (columns_of (column_name <$> ["a"; "b"]) ["varchar"])
                  +:+ ");")]> Demo.uneven_fs, Ok tt)
  ∧ create_sql "gip/s.txt" Demo.surplus_fs
    = (<[sql_file "gip/s.txt" := ""]> Demo.surplus_fs,
       Raise (ValueError "invalid literal for int() with base 10: ''")).
Proof.
  split.
  - destruct (C5_columns_up_to_shorter "gip/t.txt" Demo.uneven_fs Demo.uneven_txt
                ("tbl;t" +:+ Demo.nl) ("atr;a;b" +:+ Demo.nl) ("frm;string" +:+ Demo.nl))
      as (Hok & _); [reflexivity|by vm_compute|reflexivity..|].
    exact (proj1 (Hok ["varchar"] eq_refl)).
  - destruct (C5_columns_up_to_shorter "gip/s.txt" Demo.surplus_fs Demo.surplus_txt
                ("tbl;s" +:+ Demo.nl) ("atr;a" +:+ Demo.nl)
                ("frm;string;decimal()" +:+ Demo.nl))
      as (_ & Hraise & _); [reflexivity|by vm_compute|reflexivity..|].
    exact (Hraise _ eq_refl).
Defined.

(** C8, as the design document words it, fails: names are not trimmed
    one by one.  In the record [atr;id; offset] the second name, trimmed
    and lower-cased, is exactly [offset]; the field of the record is
    [ offset], with its blank, the renaming leaves it as it is, and the
    statement declares the column [offset], not [offset_]. *)
Lemma C8_padded_name_is_not_renamed :
  Py.lower (Py.strip " offset") = "offset"
  ∧ Py.split ";" (Py.lower (Py.strip (Py.slice_from 4 ("atr;id; offset" +:+ Demo.nl))))
    = ["id"; " offset"]
  ∧ rename_offset ["id"; " offset"] = Ok ["id"; " offset"]
  ∧ create_sql "gip/o.txt" Demo.padded_fs
    = (<["gip/o.sql" := "CREATE TABLE gip_o (id integer,  offset integer);"]>
         Demo.padded_fs, Ok tt)
  ∧ (create_sql "gip/o.txt" Demo.padded_fs).1 !! "gip/o.sql"
    ≠ Some "CREATE TABLE gip_o (id integer, offset_ integer);".
Proof. by vm_compute. Qed.

(** C8, amended: the names of the columns are the fields of the [atr]
    record, the last [atr] line ahead of the first [rec] line, after the
    record as a whole, not each name, has been trimmed and lower-cased and
    then split at the semicolons.  In the statement every column whose name
    is exactly [offset] is called [offset_], and every other column keeps
    its name; the renaming never fails and keeps the number and order of the
    columns. *)
Theorem C8_offset_renamed :
  (∀ atr, ∃ atr', rename_offset atr = Ok atr'
     ∧ length atr' = length atr
     ∧ (∀ i, atr !! i = Some "offset" → atr' !! i = Some "offset_")
     ∧ (∀ i a, atr !! i = Some a → a ≠ "offset" → atr' !! i = Some a))
  ∧ (∀ file_txt (fs : files) bytes tbl_line atr_line frm_line types,
       fs !! file_txt = Some bytes →
       sql_file file_txt ≠ file_txt →
       last_tagged "tbl;" (header_of (Py.lines (Py.universal_newlines bytes)))
       = Some tbl_line →
       last_tagged "atr;" (header_of (Py.lines (Py.universal_newlines bytes)))
       = Some atr_line →
       last_tagged "frm;" (header_of (Py.lines (Py.universal_newlines bytes)))
       = Some frm_line →
       map_types (Py.split ";" (Py.lower (Py.strip (Py.slice_from 4 frm_line))))
       = Ok types →
       ∃ atr', rename_offset
                 (Py.split ";" (Py.lower (Py.strip (Py.slice_from 4 atr_line))))
               = Ok atr'
         ∧ create_sql file_txt fs
           = (<[sql_file file_txt :=
                  Py.utf8 ("CREATE TABLE gip_"
                           +:+ Py.lower (Py.strip (Py.slice_from 4 tbl_line))
                           +:+ " (" +:+ Py.join ", " (columns_of atr' types) +:+ ");")]> fs,
              Ok tt)).
Proof.
  split.
  - intros atr. exists (column_name <$> atr).
    split; [apply rename_offset_fmap|].
    split; [apply length_fmap|].
    split.
    + intros i Hi. by rewrite list_lookup_fmap, Hi.
    + intros i a Hi Ha. rewrite list_lookup_fmap, Hi. simpl.
      unfold column_name. by destruct (String.eqb_spec a "offset").
  - intros file_txt fs bytes tbl_line atr_line frm_line types Hfile Hother Ht Ha Hf
      Htypes.
    exists (column_name <$> fields atr_line).
    split; [apply rename_offset_fmap|].
    rewrite (create_sql_on_source _ _ _ _ _ _ Hfile Ht Ha Hf).
    change (fields frm_line)
      with (Py.split ";" (Py.lower (Py.strip (Py.slice_from 4 frm_line)))).
    by rewrite Htypes.
Qed.

(** The amended C8 on the names [id], [offset], [offsets], and on a
    source whose names are written with capitals. *)
Lemma C8_offset_renamed_witness :
  rename_offset ["id"; "offset"; "offsets"] = Ok ["id"; "offset_"; "offsets"]
  ∧ ∃ atr', rename_offset (Py.split ";" (Py.lower (Py.strip (Py.slice_from 4
                             ("atr;ID;Offset" +:+ Demo.nl))))) = Ok atr'
      ∧ create_sql "gip/c.txt" Demo.capitals_fs
        = (<[sql_file "gip/c.txt" :=
               Py.utf8 ("CREATE TABLE gip_"
                        +:+ Py.lower (Py.strip (Py.slice_from 4 ("tbl;C" +:+ Demo.nl)))
                        +:+ " (" +:+ Py.join ", " (columns_of atr' ["integer"; "bigint"])
                        +:+ ");")]> Demo.capitals_fs, Ok tt).
Proof.
  destruct C8_offset_renamed as [Hlist Hfile].
  split.
  - destruct (Hlist ["id"; "offset"; "offsets"]) as (atr' & -> & Hlen & Hoff & Hother).
    f_equal.
    pose proof (Hother 0%nat "id" eq_refl ltac:(discriminate)) as H0.
    pose proof (Hoff 1%nat eq_refl) as H1.
    pose proof (Hother 2%nat "offsets" eq_refl ltac:(discriminate)) as H2.
    destruct atr' as [|x0 [|x1 [|x2 [|]]]]; try discriminate.
    simpl in H0, H1, H2. congruence.
  - apply (Hfile "gip/c.txt" Demo.capitals_fs Demo.capitals_txt
             ("tbl;C" +:+ Demo.nl) ("atr;ID;Offset" +:+ Demo.nl)
             ("frm;decimal(9);decimal(12)" +:+ Demo.nl) ["integer"; "bigint"]);
      [reflexivity|by vm_compute|reflexivity..].
Defined.
